(** * CommandStation-EX: the AVR TWI (I2C) driver, [I2CManager_AVR.h]

    A shallow embedding of the native AVR I2C driver and the proofs of the
    properties stated about it.  The driver is an interrupt-level state
    machine: every invocation of [I2C_handleInterrupt] reads the TWI
    registers once, updates the manager's counters and phase, and writes
    the data and control registers.

    Modelling choices.
    - Integers of the source ([uint8_t], [unsigned long]) are [Z]; the
      wrap-around of the C arithmetic is written out ([u8], [u32]).
    - The TWI registers are memory-mapped I/O.  What the handler reads from
      them on one invocation is its input ([TWIRegs]); what it writes is
      appended, in program order, to the manager's [trace], together with
      every store into the caller's read buffer.
    - The request block [I2CRB] is owned by the manager while it is current;
      caller buffers are lists indexed with stdpp's lookup and insert. *)

From Stdlib Require Import ZArith Lia Bool.
From stdpp Require Import base list.

Local Open Scope Z_scope.

(** ** Register bits and status codes *)

(** Bit numbers of the control register TWCR, from the AVR device header
    [avr/io.h] that the source includes. *)
Definition TWINT : Z := 7.
Definition TWEA  : Z := 6.
Definition TWSTA : Z := 5.
Definition TWSTO : Z := 4.
Definition TWEN  : Z := 2.
Definition TWIE  : Z := 0.

(** Status codes, [#define]d at the head of the source file. *)
Definition TWI_START         : Z := 0x08.
Definition TWI_REP_START     : Z := 0x10.
Definition TWI_ARB_LOST      : Z := 0x38.
Definition TWI_MTX_ADR_ACK   : Z := 0x18.
Definition TWI_MTX_ADR_NACK  : Z := 0x20.
Definition TWI_MTX_DATA_ACK  : Z := 0x28.
Definition TWI_MTX_DATA_NACK : Z := 0x30.
Definition TWI_MRX_ADR_ACK   : Z := 0x40.
Definition TWI_MRX_ADR_NACK  : Z := 0x48.
Definition TWI_MRX_DATA_ACK  : Z := 0x50.
Definition TWI_MRX_DATA_NACK : Z := 0x58.
Definition TWI_NO_STATE      : Z := 0xF8.
Definition TWI_BUS_ERROR     : Z := 0x00.

(** The labels of the two [switch (twsr)] statements.  [CASE_default] stands
    for every value without a label of its own; [TWI_BUS_ERROR] shares the
    [default:] body in the source. *)
Inductive SwitchCase : Set :=
  | CASE_MTX_DATA_ACK | CASE_MTX_ADR_ACK
  | CASE_MRX_DATA_ACK | CASE_MRX_ADR_ACK | CASE_MRX_DATA_NACK
  | CASE_START | CASE_REP_START
  | CASE_MTX_ADR_NACK | CASE_MRX_ADR_NACK | CASE_MTX_DATA_NACK
  | CASE_ARB_LOST
  | CASE_default.

Definition switch_on (twsr : Z) : SwitchCase :=
  if twsr =? TWI_MTX_DATA_ACK then CASE_MTX_DATA_ACK
  else if twsr =? TWI_MTX_ADR_ACK then CASE_MTX_ADR_ACK
  else if twsr =? TWI_MRX_DATA_ACK then CASE_MRX_DATA_ACK
  else if twsr =? TWI_MRX_ADR_ACK then CASE_MRX_ADR_ACK
  else if twsr =? TWI_MRX_DATA_NACK then CASE_MRX_DATA_NACK
  else if twsr =? TWI_START then CASE_START
  else if twsr =? TWI_REP_START then CASE_REP_START
  else if twsr =? TWI_MTX_ADR_NACK then CASE_MTX_ADR_NACK
  else if twsr =? TWI_MRX_ADR_NACK then CASE_MRX_ADR_NACK
  else if twsr =? TWI_MTX_DATA_NACK then CASE_MTX_DATA_NACK
  else if twsr =? TWI_ARB_LOST then CASE_ARB_LOST
  else CASE_default.

(** ** C integer types *)

Definition u8 (x : Z) : Z := x mod 256.
Definition u32 (x : Z) : Z := x mod 2 ^ 32.

(** ** Enumerations of [I2CManager.h]

    The header that declares the class, its enumerations and the request
    block is not among the sources; the enumerations follow the data model
    of the specification, with the enumerators' names as the source uses
    them. *)

(** Modelled from the spec: the enumeration of driver states, missing with
    [I2CManager.h]; [state] is one of Idle ([I2C_STATE_FREE]), Active and
    Completed. *)
Inductive I2CState : Set :=
  | I2C_STATE_FREE | I2C_STATE_ACTIVE | I2C_STATE_COMPLETED.

(** Modelled from the spec: the enumeration of completion statuses, missing
    with [I2CManager.h]; one of Ok, NegativeAcknowledge and TransmitError. *)
Inductive I2CStatus : Set :=
  | I2C_STATUS_OK | I2C_STATUS_NEGATIVE_ACKNOWLEDGE | I2C_STATUS_TRANSMIT_ERROR.

(** Modelled from the spec: the enumeration of operation kinds, missing
    with [I2CManager.h]; Write, WriteFromReadOnlyMemory, Read and
    WriteThenRead. *)
Inductive Operation : Set :=
  | OPERATION_SEND | OPERATION_SEND_P | OPERATION_READ | OPERATION_REQUEST.

(** Modelled from the spec: the enumeration of multiplexer phases, missing
    with [I2CManager.h], in the order Off, Prolog, Passthrough, Epilog.  The
    source compares phases with [>] and assigns the literal [0] for Off, so
    the numeric order is kept by [MuxPhase_value]. *)
Inductive MuxPhase : Set :=
  | MuxPhase_OFF | MuxPhase_PROLOG | MuxPhase_PASSTHRU | MuxPhase_EPILOG.

Definition MuxPhase_value (p : MuxPhase) : Z :=
  match p with
  | MuxPhase_OFF => 0
  | MuxPhase_PROLOG => 1
  | MuxPhase_PASSTHRU => 2
  | MuxPhase_EPILOG => 3
  end.

Definition MuxPhase_eqb (p q : MuxPhase) : bool :=
  MuxPhase_value p =? MuxPhase_value q.

Definition MuxPhase_gtb (p q : MuxPhase) : bool :=
  MuxPhase_value q <? MuxPhase_value p.

(** ** The request block and the manager *)

(** The extended address: multiplexer number, sub-bus selector and the
    7-bit device address, read in the source through the accessors
    [muxNumber()], [subBus()] and [deviceAddress()]. *)
Record I2CAddress : Set := {
  muxNumber : Z;
  subBus : Z;
  deviceAddress : Z
}.

(** The request block, with the fields the driver reads and writes. *)
Record I2CRB : Set := {
  i2cAddress : I2CAddress;
  rb_operation : Operation;
  writeLen : Z;
  writeBuffer : list Z;
  readLen : Z;
  readBuffer : list Z
}.

(** The registers as one invocation of the handler reads them. *)
Record TWIRegs : Set := {
  TWCR : Z;
  TWSR : Z;
  TWDR : Z
}.

(** What the driver writes, in program order. *)
Inductive Effect : Set :=
  | W_TWDR (v : Z)            (* TWDR = v *)
  | W_TWCR (v : Z)            (* TWCR = v *)
  | W_readBuffer (i v : Z).   (* currentRequest->readBuffer[i] = v *)

Record I2CManager : Set := {
  state : I2CState;
  completionStatus : I2CStatus;
  currentRequest : I2CRB;
  txCount : Z;
  rxCount : Z;
  bytesToSend : Z;
  bytesToReceive : Z;
  operation : Operation;
  muxPhase : MuxPhase;
  _muxCount : Z;
  trace : list Effect
}.

Definition set_state (v : I2CState) (m : I2CManager) : I2CManager :=
  {| state := v; completionStatus := completionStatus m;
     currentRequest := currentRequest m; txCount := txCount m;
     rxCount := rxCount m; bytesToSend := bytesToSend m;
     bytesToReceive := bytesToReceive m; operation := operation m;
     muxPhase := muxPhase m; _muxCount := _muxCount m; trace := trace m |}.

Definition set_completionStatus (v : I2CStatus) (m : I2CManager) : I2CManager :=
  {| state := state m; completionStatus := v;
     currentRequest := currentRequest m; txCount := txCount m;
     rxCount := rxCount m; bytesToSend := bytesToSend m;
     bytesToReceive := bytesToReceive m; operation := operation m;
     muxPhase := muxPhase m; _muxCount := _muxCount m; trace := trace m |}.

Definition set_currentRequest (v : I2CRB) (m : I2CManager) : I2CManager :=
  {| state := state m; completionStatus := completionStatus m;
     currentRequest := v; txCount := txCount m;
     rxCount := rxCount m; bytesToSend := bytesToSend m;
     bytesToReceive := bytesToReceive m; operation := operation m;
     muxPhase := muxPhase m; _muxCount := _muxCount m; trace := trace m |}.

Definition set_txCount (v : Z) (m : I2CManager) : I2CManager :=
  {| state := state m; completionStatus := completionStatus m;
     currentRequest := currentRequest m; txCount := v;
     rxCount := rxCount m; bytesToSend := bytesToSend m;
     bytesToReceive := bytesToReceive m; operation := operation m;
     muxPhase := muxPhase m; _muxCount := _muxCount m; trace := trace m |}.

Definition set_rxCount (v : Z) (m : I2CManager) : I2CManager :=
  {| state := state m; completionStatus := completionStatus m;
     currentRequest := currentRequest m; txCount := txCount m;
     rxCount := v; bytesToSend := bytesToSend m;
     bytesToReceive := bytesToReceive m; operation := operation m;
     muxPhase := muxPhase m; _muxCount := _muxCount m; trace := trace m |}.

Definition set_bytesToSend (v : Z) (m : I2CManager) : I2CManager :=
  {| state := state m; completionStatus := completionStatus m;
     currentRequest := currentRequest m; txCount := txCount m;
     rxCount := rxCount m; bytesToSend := v;
     bytesToReceive := bytesToReceive m; operation := operation m;
     muxPhase := muxPhase m; _muxCount := _muxCount m; trace := trace m |}.

Definition set_bytesToReceive (v : Z) (m : I2CManager) : I2CManager :=
  {| state := state m; completionStatus := completionStatus m;
     currentRequest := currentRequest m; txCount := txCount m;
     rxCount := rxCount m; bytesToSend := bytesToSend m;
     bytesToReceive := v; operation := operation m;
     muxPhase := muxPhase m; _muxCount := _muxCount m; trace := trace m |}.

Definition set_operation (v : Operation) (m : I2CManager) : I2CManager :=
  {| state := state m; completionStatus := completionStatus m;
     currentRequest := currentRequest m; txCount := txCount m;
     rxCount := rxCount m; bytesToSend := bytesToSend m;
     bytesToReceive := bytesToReceive m; operation := v;
     muxPhase := muxPhase m; _muxCount := _muxCount m; trace := trace m |}.

Definition set_muxPhase (v : MuxPhase) (m : I2CManager) : I2CManager :=
  {| state := state m; completionStatus := completionStatus m;
     currentRequest := currentRequest m; txCount := txCount m;
     rxCount := rxCount m; bytesToSend := bytesToSend m;
     bytesToReceive := bytesToReceive m; operation := operation m;
     muxPhase := v; _muxCount := _muxCount m; trace := trace m |}.

Definition emit (e : Effect) (m : I2CManager) : I2CManager :=
  {| state := state m; completionStatus := completionStatus m;
     currentRequest := currentRequest m; txCount := txCount m;
     rxCount := rxCount m; bytesToSend := bytesToSend m;
     bytesToReceive := bytesToReceive m; operation := operation m;
     muxPhase := muxPhase m; _muxCount := _muxCount m;
     trace := trace m ++ [e] |}.

(** [buf[i]] for a caller buffer; a read outside the buffer, undefined in
    the source, yields 0 here and is excluded by the theorems' hypotheses. *)
Definition buffer_at (buf : list Z) (i : Z) : Z :=
  default 0 (buf !! Z.to_nat i).

(** [GETFLASH(p + i)]: the same read, from program memory. *)
Definition GETFLASH (buf : list Z) (i : Z) : Z := buffer_at buf i.

(** [currentRequest->readBuffer[rxCount++] = TWDR; bytesToReceive--;] *)
Definition store_received (v : Z) (m : I2CManager) : I2CManager :=
  let rb := currentRequest m in
  let i := rxCount m in
  let rb' := {| i2cAddress := i2cAddress rb; rb_operation := rb_operation rb;
                writeLen := writeLen rb; writeBuffer := writeBuffer rb;
                readLen := readLen rb;
                readBuffer := <[Z.to_nat i := v]> (readBuffer rb) |} in
  let m := emit (W_readBuffer i v) (set_currentRequest rb' m) in
  let m := set_rxCount (u8 (i + 1)) m in
  set_bytesToReceive (u8 (bytesToReceive m - 1)) m.

(** The pins and the pin mode [I2C_init] names, and the registers and pins
    as it leaves them. *)
Inductive PinMode : Type := INPUT_PULLUP.

Record TWIInit : Type := {
  init_TWSR : Z;
  init_TWBR : Z;
  init_TWDR : Z;
  init_TWCR : Z;
  init_SDA : PinMode;
  init_SCL : PinMode
}.

(** * The turntable list ([Turntables.cpp]) *)

Module Turntable.

(** A node of a turntable's position list, with the two members the file
    reads; the list itself is the chain of [next] pointers from
    [getHead()]. *)
Record TurntablePosition : Type := {
  index : Z;
  data : Z
}.

Record TurntableData : Type := {
  id : Z;
  position : Z
}.

Record EXTTTurntableData : Type := {
  vpin : Z;
  i2caddress : Z
}.

(** A turntable object with the members the file uses.  The objects are of
    class [EXTTTurntable], the one class the file defines. *)
Record Turntable : Type := {
  _turntableData : TurntableData;
  _turntablePositions : list TurntablePosition;
  _exttTurntableData : EXTTTurntableData
}.

(** The calls that leave the file, in the order they are made. *)
Inductive Call : Type :=
  | broadcastTurntable (id position : Z)
  | writeAnalogue (vpin value activity : Z).

(** The static data: the list from [_firstTurntable] along
    [_nextTurntable], and [turntablelistHash]; with them the calls made so
    far.  A pointer to a turntable is its place in the list. *)
Record Store : Type := {
  _firstTurntable : list Turntable;
  turntablelistHash : Z;
  calls : list Call
}.

(** The conversion of a [uint16_t] to [int16_t]. *)
Definition int16 (x : Z) : Z := (x + 32768) mod 65536 - 32768.

(** [Turntable::add], for an object not yet linked to another. *)
Definition add (tto : Turntable) (s : Store) : Store :=
  {| _firstTurntable :=
       match _firstTurntable s with
       | [] => [tto]
       | _ :: _ => _firstTurntable s ++ [tto]
       end;
     turntablelistHash := turntablelistHash s + 1;
     calls := calls s |}.

(** [Turntable::get]: the pointer and the object, or [None] for [NULL]. *)
Fixpoint get (id : Z) (l : list Turntable) : option (nat * Turntable) :=
  match l with
  | [] => None
  | tto :: rest =>
      if Turntable.id (_turntableData tto) =? id then Some (O, tto)
      else match get id rest with
           | Some (ptr, found) => Some (S ptr, found)
           | None => None
           end
  end.

(** The loop of [Turntable::getPositionValue]; [return false] is 0. *)
Fixpoint getPositionValue_from (currentPosition : list TurntablePosition)
    (position : Z) : Z :=
  match currentPosition with
  | [] => 0
  | node :: next =>
      if index node =? position then data node
      else getPositionValue_from next position
  end.

Definition getPositionValue (tto : Turntable) (position : Z) : Z :=
  getPositionValue_from (_turntablePositions tto) position.

(** The loop of [Turntable::getPositionCount], [count] being a
    [uint8_t]. *)
Fixpoint getPositionCount_from (currentPosition : list TurntablePosition)
    (count : Z) : Z :=
  match currentPosition with
  | [] => count
  | _ :: next => getPositionCount_from next (u8 (count + 1))
  end.

Definition getPositionCount (tto : Turntable) : Z :=
  getPositionCount_from (_turntablePositions tto) 0.

Definition call (c : Call) (s : Store) : Store :=
  {| _firstTurntable := _firstTurntable s;
     turntablelistHash := turntablelistHash s;
     calls := calls s ++ [c] |}.

(** [Turntable::setPositionStateOnly] *)
Definition setPositionStateOnly (id position : Z) (s : Store) : bool * Store :=
  match get id (_firstTurntable s) with
  | None => (false, s)
  | Some _ => (true, call (broadcastTurntable id position) s)
  end.

(** [EXTTTurntable::setPositionInternal], with the call it makes, if any. *)
Definition setPositionInternal (tto : Turntable) (position activity : Z)
  : bool * option Call :=
  let value :=
    if position =? 0 then Some 0
    else if 1 <? activity then None
    else Some (int16 (getPositionValue tto position)) in
  match value with
  | None => (false, None)
  | Some value =>
      if (0 <? position) && (value =? 0) then (false, None)
      else (true,
            Some (writeAnalogue (vpin (_exttTurntableData tto)) value activity))
  end.

(** [tto->_turntableData.position = position] *)
Definition set_position (position : Z) (tto : Turntable) : Turntable :=
  {| _turntableData :=
       {| id := Turntable.id (_turntableData tto); position := position |};
     _turntablePositions := _turntablePositions tto;
     _exttTurntableData := _exttTurntableData tto |}.

Definition store_position (ptr : nat) (position : Z) (s : Store) : Store :=
  {| _firstTurntable := alter (set_position position) ptr (_firstTurntable s);
     turntablelistHash := turntablelistHash s;
     calls := calls s |}.

(** [Turntable::setPosition] *)
Definition setPosition (id position activity : Z) (s : Store) : bool * Store :=
  match get id (_firstTurntable s) with
  | None => (false, s)
  | Some (ptr, tto) =>
      let '(ok, written) := setPositionInternal tto position activity in
      let s := match written with Some c => call c s | None => s end in
      if ok then
        if (0 <? position)
           || ((position =? 0) && ((activity =? 2) || (activity =? 3)))
        then
          let s := snd (setPositionStateOnly id position s) in
          (ok, store_position ptr position s)
        else (ok, s)
      else (ok, s)
  end.

(** The condition under which [setPosition] announces the move. *)
Definition announced (position activity : Z) : bool :=
  (0 <? position) || ((position =? 0) && ((activity =? 2) || (activity =? 3))).

(** Example inputs: two turntables, the first with three positions. *)
Definition example_turntable : Turntable :=
  {| _turntableData := {| id := 1; position := 0 |};
     _turntablePositions :=
       [ {| index := 3; data := 270 |};
         {| index := 2; data := 0 |};
         {| index := 1; data := 90 |} ];
     _exttTurntableData := {| vpin := 600; i2caddress := 0x60 |} |}.

Definition example_other : Turntable :=
  {| _turntableData := {| id := 2; position := 1 |};
     _turntablePositions := [ {| index := 1; data := 45 |} ];
     _exttTurntableData := {| vpin := 601; i2caddress := 0x61 |} |}.

Definition example_store : Store :=
  {| _firstTurntable := [example_turntable; example_other];
     turntablelistHash := 2;
     calls := [] |}.

End Turntable.

Section Driver.

(** Build-time configuration: the macros and enumerators the source refers
    to and does not define. *)
Variable F_CPU : Z.
Variable I2C_USE_INTERRUPTS : bool.
Variable I2C_EXTENDED_ADDRESS : bool.
Variable I2C_MUX_BASE_ADDRESS : Z.
Variable I2CMux_None : Z.
Variable SubBus_None : Z.
Variable SubBus_All : Z.

Definition ENABLE_TWI_INTERRUPT : Z :=
  if I2C_USE_INTERRUPTS then Z.shiftl 1 TWIE else 0.

(** ** [I2C_setClock] *)

(** The body of the [for] loop, over the prescaler values still to try;
    the result is the pair (TWBR, TWSR) left in the registers. *)
Fixpoint I2C_setClock_for (preScalers : list Z) (temp TWSR0 : Z) : Z * Z :=
  match preScalers with
  | [] => (255, Z.lor TWSR0 0x03)
  | preScaler :: rest =>
      if temp <=? 255
      then (temp, Z.lor (Z.land TWSR0 0xfc) preScaler)
      else I2C_setClock_for rest (temp / 4) TWSR0
  end.

Definition I2C_setClock (i2cClockSpeed TWSR0 : Z) : Z * Z :=
  let temp := u32 (u32 (F_CPU / i2cClockSpeed) - 16) / 2 in
  I2C_setClock_for [0; 1; 2; 3] temp TWSR0.

(** The bus rate the TWI hardware produces is
    [F_CPU / (16 + 2 * TWBR * 4 ^ TWPS)], TWPS being the two low bits of
    TWSR; this is the relation [TWI_TWBR] and [I2C_setClock] invert. *)
Definition scl_divisor (twbr twps : Z) : Z := 16 + 2 * twbr * 4 ^ twps.

Definition TWPS (twsr : Z) : Z := Z.land twsr 0x03.

(** ** The control words written to TWCR *)

(** [(1<<TWEN)|ENABLE_TWI_INTERRUPT|(1<<TWINT)|(1<<TWEA)|(1<<TWSTA)] *)
Definition TWCR_start_ack : Z :=
  Z.lor (Z.lor (Z.lor (Z.lor (Z.shiftl 1 TWEN) ENABLE_TWI_INTERRUPT)
                      (Z.shiftl 1 TWINT)) (Z.shiftl 1 TWEA)) (Z.shiftl 1 TWSTA).
(** [(1<<TWEN)|ENABLE_TWI_INTERRUPT|(1<<TWINT)] *)
Definition TWCR_continue : Z :=
  Z.lor (Z.lor (Z.shiftl 1 TWEN) ENABLE_TWI_INTERRUPT) (Z.shiftl 1 TWINT).
(** [(1<<TWEN)|ENABLE_TWI_INTERRUPT|(1<<TWINT)|(1<<TWEA)] *)
Definition TWCR_continue_ack : Z :=
  Z.lor (Z.lor (Z.lor (Z.shiftl 1 TWEN) ENABLE_TWI_INTERRUPT) (Z.shiftl 1 TWINT))
        (Z.shiftl 1 TWEA).
(** [(1<<TWEN)|ENABLE_TWI_INTERRUPT|(1<<TWINT)|(1<<TWSTA)] *)
Definition TWCR_start : Z :=
  Z.lor (Z.lor (Z.lor (Z.shiftl 1 TWEN) ENABLE_TWI_INTERRUPT) (Z.shiftl 1 TWINT))
        (Z.shiftl 1 TWSTA).
(** [(1<<TWEN)|ENABLE_TWI_INTERRUPT|(1<<TWINT)|(1<<TWSTO)|(1<<TWSTA)] *)
Definition TWCR_stop_start : Z :=
  Z.lor (Z.lor (Z.lor (Z.lor (Z.shiftl 1 TWEN) ENABLE_TWI_INTERRUPT)
                      (Z.shiftl 1 TWINT)) (Z.shiftl 1 TWSTO)) (Z.shiftl 1 TWSTA).
(** [(1<<TWEN)|(1<<TWINT)|(1<<TWSTO)] *)
Definition TWCR_stop : Z :=
  Z.lor (Z.lor (Z.shiftl 1 TWEN) (Z.shiftl 1 TWINT)) (Z.shiftl 1 TWSTO).
(** [(1<<TWEN)|(1<<TWINT)|(1<<TWEA)|(1<<TWSTO)] *)
Definition TWCR_stop_ack : Z :=
  Z.lor (Z.lor (Z.lor (Z.shiftl 1 TWEN) (Z.shiftl 1 TWINT)) (Z.shiftl 1 TWEA))
        (Z.shiftl 1 TWSTO).

(** ** [I2C_sendStart] *)

Definition I2C_sendStart (m : I2CManager) : I2CManager :=
  let m := set_bytesToSend (writeLen (currentRequest m)) m in
  let m := set_bytesToReceive (readLen (currentRequest m)) m in
  let m := set_rxCount 0 m in
  let m := set_txCount 0 m in
  let m :=
    if I2C_EXTENDED_ADDRESS then
      if negb (muxNumber (i2cAddress (currentRequest m)) =? I2CMux_None)
      then set_muxPhase MuxPhase_PROLOG m
      else set_muxPhase MuxPhase_OFF m
    else m in
  emit (W_TWCR TWCR_start_ack) m.

(** ** [I2C_handleInterrupt] *)

(** The multiplexer state machine, the first [switch].  [Some m'] is a
    [return] with the manager [m']; [None] is a [break], which leaves the
    manager as it was and hands the event to the device state machine. *)
Definition mux_switch (regs : TWIRegs) (twsr : Z) (m : I2CManager)
  : option I2CManager :=
  match switch_on twsr with
  | CASE_MTX_ADR_ACK =>
      if MuxPhase_eqb (muxPhase m) MuxPhase_PROLOG then
        let subBus := subBus (i2cAddress (currentRequest m)) in
        let m := emit (W_TWDR (if subBus =? SubBus_All then 0xff
                               else if subBus =? SubBus_None then 0x00
                               else u8 (Z.shiftl 1 subBus))) m in
        Some (emit (W_TWCR TWCR_continue) m)
      else if MuxPhase_eqb (muxPhase m) MuxPhase_EPILOG then
        let m := emit (W_TWDR 0x00) m in
        Some (emit (W_TWCR TWCR_continue) m)
      else None
  | CASE_MTX_DATA_ACK =>
      if MuxPhase_eqb (muxPhase m) MuxPhase_PASSTHRU
         && (bytesToSend m =? 0) && (bytesToReceive m =? 0) then
        if 1 <? _muxCount m then
          let m := emit (W_TWCR TWCR_stop_start) m in
          Some (set_muxPhase MuxPhase_EPILOG m)
        else
          let m := emit (W_TWCR TWCR_stop) m in
          let m := set_state I2C_STATE_COMPLETED m in
          Some (set_muxPhase MuxPhase_OFF m)
      else if MuxPhase_eqb (muxPhase m) MuxPhase_PROLOG then
        if deviceAddress (i2cAddress (currentRequest m)) =? 0 then
          let m := emit (W_TWDR 0xff) m in
          let m := emit (W_TWCR TWCR_stop) m in
          let m := set_state I2C_STATE_COMPLETED m in
          Some (set_muxPhase MuxPhase_OFF m)
        else
          let m := emit (W_TWCR TWCR_stop_start) m in
          Some (set_muxPhase MuxPhase_PASSTHRU m)
      else if MuxPhase_eqb (muxPhase m) MuxPhase_EPILOG then
        let m := emit (W_TWDR 0xff) m in
        let m := emit (W_TWCR TWCR_stop) m in
        let m := set_state I2C_STATE_COMPLETED m in
        Some (set_muxPhase MuxPhase_OFF m)
      else None
  | CASE_MRX_DATA_NACK =>
      let m := if 0 <? bytesToReceive m then store_received (TWDR regs) m else m in
      if MuxPhase_eqb (muxPhase m) MuxPhase_PASSTHRU && (1 <? _muxCount m) then
        let m := emit (W_TWCR TWCR_stop_start) m in
        Some (set_muxPhase MuxPhase_EPILOG m)
      else
        let m := emit (W_TWCR TWCR_stop) m in
        let m := set_state I2C_STATE_COMPLETED m in
        Some (set_muxPhase MuxPhase_OFF m)
  | CASE_START | CASE_REP_START =>
      if MuxPhase_eqb (muxPhase m) MuxPhase_PROLOG
         || MuxPhase_eqb (muxPhase m) MuxPhase_EPILOG then
        let muxAddress :=
          u8 (I2C_MUX_BASE_ADDRESS + muxNumber (i2cAddress (currentRequest m))) in
        let m := emit (W_TWDR (u8 (Z.lor (Z.shiftl muxAddress 1) 0))) m in
        Some (emit (W_TWCR TWCR_continue) m)
      else None
  | CASE_MTX_ADR_NACK | CASE_MRX_ADR_NACK | CASE_MTX_DATA_NACK =>
      if MuxPhase_eqb (muxPhase m) MuxPhase_PASSTHRU then
        let m := set_completionStatus I2C_STATUS_NEGATIVE_ACKNOWLEDGE m in
        let m := emit (W_TWCR TWCR_stop_start) m in
        Some (set_muxPhase MuxPhase_EPILOG m)
      else if MuxPhase_gtb (muxPhase m) MuxPhase_EPILOG then
        let m := emit (W_TWCR TWCR_stop) m in
        Some (set_state I2C_STATE_COMPLETED m)
      else None
  | _ => None
  end.

(** [if (bytesToReceive <= 1) ... else ...], shared by the data-ACK case,
    which falls through, and the address-ACK case of the receiver. *)
Definition arm_next_reception (m : I2CManager) : I2CManager :=
  if bytesToReceive m <=? 1
  then emit (W_TWCR TWCR_continue) m
  else emit (W_TWCR TWCR_continue_ack) m.

(** The device state machine, the second [switch]. *)
Definition device_switch (regs : TWIRegs) (twsr : Z) (m : I2CManager)
  : I2CManager :=
  match switch_on twsr with
  | CASE_MTX_DATA_ACK | CASE_MTX_ADR_ACK =>
      if negb (bytesToSend m =? 0) then
        let byte :=
          match operation m with
          | OPERATION_SEND_P => GETFLASH (writeBuffer (currentRequest m)) (txCount m)
          | _ => buffer_at (writeBuffer (currentRequest m)) (txCount m)
          end in
        let m := set_txCount (u8 (txCount m + 1)) m in
        let m := emit (W_TWDR byte) m in
        let m := set_bytesToSend (u8 (bytesToSend m - 1)) m in
        emit (W_TWCR TWCR_continue) m
      else if negb (bytesToReceive m =? 0) then
        emit (W_TWCR TWCR_start) m
      else
        let m := emit (W_TWCR TWCR_stop_ack) m in
        set_state I2C_STATE_COMPLETED m
  | CASE_MRX_DATA_ACK =>
      let m := if 0 <? bytesToReceive m then store_received (TWDR regs) m else m in
      arm_next_reception m
  | CASE_MRX_ADR_ACK =>
      arm_next_reception m
  | CASE_MRX_DATA_NACK =>
      let m := if 0 <? bytesToReceive m then store_received (TWDR regs) m else m in
      let m := emit (W_TWCR TWCR_stop_ack) m in
      set_state I2C_STATE_COMPLETED m
  | CASE_START | CASE_REP_START =>
      (* uint8_t deviceAddress = currentRequest->i2cAddress; the conversion
         of an I2CAddress to uint8_t yields its device address *)
      let deviceAddress := deviceAddress (i2cAddress (currentRequest m)) in
      let m :=
        match operation m with
        | OPERATION_READ =>
            emit (W_TWDR (u8 (Z.lor (Z.shiftl deviceAddress 1) 1))) m
        | OPERATION_REQUEST =>
            if bytesToSend m =? 0
            then emit (W_TWDR (u8 (Z.lor (Z.shiftl deviceAddress 1) 1))) m
            else emit (W_TWDR (u8 (Z.lor (Z.shiftl deviceAddress 1) 0))) m
        | _ => emit (W_TWDR (u8 (Z.lor (Z.shiftl deviceAddress 1) 0))) m
        end in
      emit (W_TWCR TWCR_continue_ack) m
  | CASE_MTX_ADR_NACK | CASE_MRX_ADR_NACK | CASE_MTX_DATA_NACK =>
      let m := emit (W_TWCR TWCR_stop_ack) m in
      let m := set_completionStatus I2C_STATUS_NEGATIVE_ACKNOWLEDGE m in
      set_state I2C_STATE_COMPLETED m
  | CASE_ARB_LOST =>
      I2C_sendStart m
  | CASE_default =>
      let m := emit (W_TWDR 0xff) m in
      let m := emit (W_TWCR TWCR_stop_ack) m in
      let m := set_completionStatus I2C_STATUS_TRANSMIT_ERROR m in
      set_state I2C_STATE_COMPLETED m
  end.

Definition I2C_handleInterrupt (regs : TWIRegs) (m : I2CManager) : I2CManager :=
  if Z.land (TWCR regs) (Z.shiftl 1 TWINT) =? 0 then m
  else
    let twsr := Z.land (TWSR regs) 0xF8 in
    match
      (if I2C_EXTENDED_ADDRESS && MuxPhase_gtb (muxPhase m) MuxPhase_OFF
       then mux_switch regs twsr m else None)
    with
    | Some m' => m'
    | None => device_switch regs twsr m
    end.


(** ** Driving the state machine *)

(** Modelled from the spec: [beginTransaction], the part of the dispatch
    layer ([I2CManager_NonBlocking.h], not among the sources) that makes a
    descriptor current: the driver becomes Active with completion status Ok,
    the operation kind is copied from the descriptor and [I2C_sendStart]
    issues the START. *)
Definition beginTransaction (rb : I2CRB) (m : I2CManager) : I2CManager :=
  I2C_sendStart
    (set_operation (rb_operation rb)
       (set_completionStatus I2C_STATUS_OK
          (set_state I2C_STATE_ACTIVE (set_currentRequest rb m)))).

(** One hardware status event as the handler finds it in the registers:
    the interrupt flag TWINT set, the status code in TWSR (prescaler bits
    zero) and, for the receiver codes, the received byte in TWDR. *)
Definition received (code byte : Z) : TWIRegs :=
  {| TWCR := Z.shiftl 1 TWINT; TWSR := code; TWDR := byte |}.

Definition event (code : Z) : TWIRegs := received code 0xff.

(** [onBusEvent] once per event, in order. *)
Definition run (events : list TWIRegs) (m : I2CManager) : I2CManager :=
  fold_left (fun m regs => I2C_handleInterrupt regs m) events m.

(** ** Event scripts and the traces they should produce *)

(** Whether [I2C_sendStart] routes a request for this address through a
    multiplexer. *)
Definition mux_routed (a : I2CAddress) : bool :=
  I2C_EXTENDED_ADDRESS && negb (muxNumber a =? I2CMux_None).

(** Address bytes: the device address with the write or the read bit, and
    the multiplexer's own address with the write bit. *)
Definition SLA_W (a : I2CAddress) : Z :=
  u8 (Z.lor (Z.shiftl (deviceAddress a) 1) 0).
Definition SLA_R (a : I2CAddress) : Z :=
  u8 (Z.lor (Z.shiftl (deviceAddress a) 1) 1).
Definition MUX_SLA_W (a : I2CAddress) : Z :=
  u8 (Z.lor (Z.shiftl (u8 (I2C_MUX_BASE_ADDRESS + muxNumber a)) 1) 0).

(** The address byte chosen on START or repeated START. *)
Definition address_byte (op : Operation) (bts : Z) (a : I2CAddress) : Z :=
  match op with
  | OPERATION_READ => SLA_R a
  | OPERATION_REQUEST => if bts =? 0 then SLA_R a else SLA_W a
  | _ => SLA_W a
  end.

(** The sub-bus selection mask of the Prolog. *)
Definition subBus_mask (a : I2CAddress) : Z :=
  if subBus a =? SubBus_All then 0xff
  else if subBus a =? SubBus_None then 0x00
  else u8 (Z.shiftl 1 (subBus a)).

(** Each byte loaded into TWDR and released for transmission. *)
Definition transmitted (bytes : list Z) : list Effect :=
  flat_map (fun b => [W_TWDR b; W_TWCR TWCR_continue]) bytes.

(** Each byte received after an ACK was armed for it, stored from index
    [i] on. *)
Fixpoint received_acked (i : Z) (bytes : list Z) : list Effect :=
  match bytes with
  | [] => []
  | b :: rest =>
      W_TWCR TWCR_continue_ack :: W_readBuffer i b :: received_acked (i + 1) rest
  end.

(** The read buffer after [bytes] were stored from index [i] on. *)
Fixpoint stored (i : nat) (bytes : list Z) (buf : list Z) : list Z :=
  match bytes with
  | [] => buf
  | b :: rest => stored (S i) rest (<[i := b]> buf)
  end.

(** The request block with another read buffer. *)
Definition with_readBuffer (buf : list Z) (rb : I2CRB) : I2CRB :=
  {| i2cAddress := i2cAddress rb; rb_operation := rb_operation rb;
     writeLen := writeLen rb; writeBuffer := writeBuffer rb;
     readLen := readLen rb; readBuffer := buf |}.

(** What the Prolog writes when the multiplexer acknowledges and a device
    transaction follows: multiplexer address, sub-bus mask, STOP and START. *)
Definition prolog_trace (a : I2CAddress) : list Effect :=
  [W_TWDR (MUX_SLA_W a); W_TWCR TWCR_continue;
   W_TWDR (subBus_mask a); W_TWCR TWCR_continue;
   W_TWCR TWCR_stop_start].

(** What the Epilog writes when the multiplexer acknowledges: multiplexer
    address, the all-zero mask, STOP. *)
Definition epilog_trace (a : I2CAddress) : list Effect :=
  [W_TWDR (MUX_SLA_W a); W_TWCR TWCR_continue;
   W_TWDR 0x00; W_TWCR TWCR_continue;
   W_TWDR 0xff; W_TWCR TWCR_stop].

(** What precedes the device transaction: the START of [I2C_sendStart] and,
    for a routed request, the Prolog. *)
Definition opening (a : I2CAddress) : list Effect :=
  W_TWCR TWCR_start_ack :: (if mux_routed a then prolog_trace a else []).

(** What ends the transaction once the device transaction is through: the
    STOP; for a routed request with several multiplexers, STOP and START
    followed by the Epilog. *)
Definition closing (a : I2CAddress) (muxCount : Z) : list Effect :=
  if mux_routed a then
    if 1 <? muxCount then W_TWCR TWCR_stop_start :: epilog_trace a
    else [W_TWCR TWCR_stop]
  else [W_TWCR TWCR_stop_ack].

(** The events of a write of [n] bytes on which the device acknowledges its
    address and every data byte. *)
Definition write_events (n : nat) : list TWIRegs :=
  [event TWI_START; event TWI_MTX_ADR_ACK] ++ repeat (event TWI_MTX_DATA_ACK) n.

(** The events of receiving the bytes [front ++ [final]] once the address
    went out in read direction: the device acknowledges its address and
    supplies the bytes; the hardware reports each byte but the final one
    with the ACK it returned, and the final one with the NACK. *)
Definition reception_events (front : list Z) (final : Z) : list TWIRegs :=
  [event TWI_MRX_ADR_ACK]
  ++ map (received TWI_MRX_DATA_ACK) front
  ++ [received TWI_MRX_DATA_NACK final].

(** The events of a read of the bytes [front ++ [final]]. *)
Definition read_events (front : list Z) (final : Z) : list TWIRegs :=
  event TWI_START :: reception_events front final.

(** The events of a write of [n] bytes followed, after a repeated START,
    by a read of [front ++ [final]]. *)
Definition write_read_events (n : nat) (front : list Z) (final : Z)
  : list TWIRegs :=
  write_events n ++ event TWI_REP_START :: reception_events front final.

(** The events of a multiplexer selection or deselection that the
    multiplexer acknowledges: START, address ACK, mask ACK. *)
Definition mux_events : list TWIRegs :=
  [event TWI_START; event TWI_MTX_ADR_ACK; event TWI_MTX_DATA_ACK].

(** The events of a whole transaction around those of its device
    transaction: for a routed request the Prolog's before and, with several
    multiplexers, the Epilog's after. *)
Definition enveloped (a : I2CAddress) (muxCount : Z) (device : list TWIRegs)
  : list TWIRegs :=
  (if mux_routed a then mux_events else [])
  ++ device
  ++ (if mux_routed a && (1 <? muxCount) then mux_events else []).

(** Control words with a given bit set. *)
Definition issues_STOP (e : Effect) : bool :=
  match e with
  | W_TWCR v => Z.testbit v TWSTO
  | _ => false
  end.

Definition issues_START (e : Effect) : bool :=
  match e with
  | W_TWCR v => Z.testbit v TWSTA
  | _ => false
  end.

(** The status is one of the three NACK codes of the transmitter and of the
    address phase of the receiver. *)
Definition reports_NACK (regs : TWIRegs) : bool :=
  match switch_on (Z.land (TWSR regs) 0xF8) with
  | CASE_MTX_ADR_NACK | CASE_MRX_ADR_NACK | CASE_MTX_DATA_NACK => true
  | _ => false
  end.

(** Stores into the read buffer stay below [len]. *)
Definition store_within (len : Z) (e : Effect) : Prop :=
  match e with
  | W_readBuffer i _ => 0 <= i < len
  | _ => True
  end.

(** The device state machine sees the event: extended addressing is not
    compiled in, or the multiplexer phase is Off or Passthrough. *)
Definition device_phase (ph : MuxPhase) : Prop :=
  I2C_EXTENDED_ADDRESS = false \/ ph = MuxPhase_OFF \/ ph = MuxPhase_PASSTHRU.

(** The multiplexer state machine is bypassed altogether. *)
Definition mux_idle (ph : MuxPhase) : Prop :=
  I2C_EXTENDED_ADDRESS = false \/ ph = MuxPhase_OFF.

Definition in_passthru (ph : MuxPhase) : bool :=
  I2C_EXTENDED_ADDRESS && MuxPhase_eqb ph MuxPhase_PASSTHRU.

(** How the handler ends a device transaction that needs nothing more, by
    phase and number of multiplexers: the control word, the state and the
    phase it leaves. *)
Definition finish_word (ph : MuxPhase) (muxCount : Z) : Z :=
  if in_passthru ph
  then if 1 <? muxCount then TWCR_stop_start else TWCR_stop
  else TWCR_stop_ack.

Definition finish_state (ph : MuxPhase) (muxCount : Z) (st : I2CState) : I2CState :=
  if in_passthru ph && (1 <? muxCount) then st else I2C_STATE_COMPLETED.

Definition finish_phase (ph : MuxPhase) (muxCount : Z) : MuxPhase :=
  if in_passthru ph
  then if 1 <? muxCount then MuxPhase_EPILOG else MuxPhase_OFF
  else ph.

(** The states the driver can be in: it starts Idle with the multiplexer
    phase Off; a transaction is begun; the handler runs on an event. *)
Inductive reachable : I2CManager -> Prop :=
  | reachable_idle m :
      state m = I2C_STATE_FREE -> muxPhase m = MuxPhase_OFF -> reachable m
  | reachable_begin rb m :
      reachable m -> reachable (beginTransaction rb m)
  | reachable_event regs m :
      reachable m -> reachable (I2C_handleInterrupt regs m).

(** A device transaction that ends as [finish_word] says, run from the
    state a begun transaction reaches at its device phase. *)
Definition device_transaction (rb : I2CRB) (mc : Z) (dev : list TWIRegs)
    (final : I2CManager) (body : list Effect) : Prop :=
  forall ph tr, device_phase ph ->
    run dev
      {| state := I2C_STATE_ACTIVE; completionStatus := I2C_STATUS_OK;
         currentRequest := rb; txCount := 0; rxCount := 0;
         bytesToSend := writeLen rb; bytesToReceive := readLen rb;
         operation := rb_operation rb; muxPhase := ph; _muxCount := mc;
         trace := tr |} =
      {| state := finish_state ph mc I2C_STATE_ACTIVE;
         completionStatus := completionStatus final;
         currentRequest := currentRequest final;
         txCount := txCount final; rxCount := rxCount final;
         bytesToSend := bytesToSend final; bytesToReceive := bytesToReceive final;
         operation := rb_operation rb; muxPhase := finish_phase ph mc;
         _muxCount := mc;
         trace := tr ++ body ++ [W_TWCR (finish_word ph mc)] |}.

(** The counters once the device transaction is through, the request block
    being [rb']. *)
Definition settled (rb' : I2CRB) : I2CManager :=
  {| state := I2C_STATE_COMPLETED; completionStatus := I2C_STATUS_OK;
     currentRequest := rb';
     txCount := writeLen rb'; rxCount := readLen rb';
     bytesToSend := 0; bytesToReceive := 0;
     operation := rb_operation rb'; muxPhase := MuxPhase_OFF;
     _muxCount := 0; trace := [] |}.

(** The three kinds of device transaction, with what makes a request block
    one of them. *)
Inductive Transfer : Type :=
  | Write_of (n : nat)
  | Read_of (front : list Z) (final : Z)
  | Write_read_of (n : nat) (front : list Z) (final : Z).

Definition transfer_events (t : Transfer) : list TWIRegs :=
  match t with
  | Write_of n => write_events n
  | Read_of front final => read_events front final
  | Write_read_of n front final => write_read_events n front final
  end.

Definition transfers (rb : I2CRB) (t : Transfer) : Prop :=
  match t with
  | Write_of n =>
      rb_operation rb <> OPERATION_READ /\
      writeLen rb = Z.of_nat n /\ (0 < n)%nat /\ writeLen rb < 256 /\
      readLen rb = 0 /\
      (n <= length (writeBuffer rb))%nat
  | Read_of front final =>
      (rb_operation rb = OPERATION_READ \/ rb_operation rb = OPERATION_REQUEST) /\
      writeLen rb = 0 /\
      readLen rb = Z.of_nat (length front) + 1 /\ readLen rb < 256
  | Write_read_of n front final =>
      rb_operation rb = OPERATION_REQUEST /\
      writeLen rb = Z.of_nat n /\ (0 < n)%nat /\ writeLen rb < 256 /\
      readLen rb = Z.of_nat (length front) + 1 /\ readLen rb < 256 /\
      (n <= length (writeBuffer rb))%nat
  end.

(** The number of control words in a trace that issue a STOP. *)
Definition count_STOP (t : list Effect) : nat :=
  length (List.filter issues_STOP t).

(** What holds of the receive side of a transaction whose request asks for
    [len] bytes, [buf] being the read buffer it started with. *)
Definition receive_bounded (len : Z) (buf : list Z) (m : I2CManager) : Prop :=
  readLen (currentRequest m) = len /\
  0 <= rxCount m /\ 0 <= bytesToReceive m /\
  rxCount m + bytesToReceive m = len /\
  length (readBuffer (currentRequest m)) = length buf /\
  drop (Z.to_nat len) (readBuffer (currentRequest m)) = drop (Z.to_nat len) buf.

(** ** Example inputs

    Requests and an idle manager on which the theorems are instantiated:
    multiplexer 0, sub-bus 1, device 0x20; [example_plain_write] carries no
    multiplexer number in a build where [I2CMux_None] is 255. *)

Definition example_address : I2CAddress :=
  {| muxNumber := 0; subBus := 1; deviceAddress := 0x20 |}.

Definition example_plain_write : I2CRB :=
  {| i2cAddress := {| muxNumber := 255; subBus := 254; deviceAddress := 0x20 |};
     rb_operation := OPERATION_SEND;
     writeLen := 2; writeBuffer := [0x12; 0x34];
     readLen := 0; readBuffer := [] |}.

Definition example_probe : I2CRB :=
  {| i2cAddress := example_address; rb_operation := OPERATION_SEND;
     writeLen := 0; writeBuffer := [];
     readLen := 0; readBuffer := [] |}.

Definition example_write : I2CRB :=
  {| i2cAddress := example_address; rb_operation := OPERATION_SEND;
     writeLen := 2; writeBuffer := [0x12; 0x34];
     readLen := 0; readBuffer := [] |}.

Definition example_read : I2CRB :=
  {| i2cAddress := example_address; rb_operation := OPERATION_READ;
     writeLen := 0; writeBuffer := [];
     readLen := 2; readBuffer := [0; 0; 0] |}.

Definition example_write_read : I2CRB :=
  {| i2cAddress := example_address; rb_operation := OPERATION_REQUEST;
     writeLen := 1; writeBuffer := [0x05];
     readLen := 2; readBuffer := [0; 0] |}.

Definition example_mux_only : I2CRB :=
  {| i2cAddress := {| muxNumber := 0; subBus := 1; deviceAddress := 0 |};
     rb_operation := OPERATION_SEND;
     writeLen := 0; writeBuffer := [];
     readLen := 0; readBuffer := [] |}.

Definition idle_manager (muxCount : Z) : I2CManager :=
  {| state := I2C_STATE_FREE; completionStatus := I2C_STATUS_OK;
     currentRequest := example_mux_only;
     txCount := 0; rxCount := 0; bytesToSend := 0; bytesToReceive := 0;
     operation := OPERATION_SEND; muxPhase := MuxPhase_OFF;
     _muxCount := muxCount; trace := [] |}.

(** ** Further definitions: the handler on arbitrary events *)

(** The status codes with a [case] label of their own in the device state
    machine. *)
Definition labelled_codes : list Z :=
  [TWI_MTX_DATA_ACK; TWI_MTX_ADR_ACK; TWI_MRX_DATA_ACK; TWI_MRX_ADR_ACK;
   TWI_MRX_DATA_NACK; TWI_START; TWI_REP_START; TWI_MTX_ADR_NACK;
   TWI_MRX_ADR_NACK; TWI_MTX_DATA_NACK; TWI_ARB_LOST].

(** The interrupt flag is set in the control register as read. *)
Definition pending (regs : TWIRegs) : Prop :=
  Z.land (TWCR regs) (Z.shiftl 1 TWINT) <> 0.

(** The status bits of the status register as read. *)
Definition status_of (regs : TWIRegs) : Z := Z.land (TWSR regs) 0xF8.

(** An effect is a write to the control register. *)
Definition is_TWCR_write (e : Effect) : bool :=
  match e with
  | W_TWCR _ => true
  | _ => false
  end.

(** What a request block keeps while the driver owns it: everything but the
    content of the read buffer. *)
Definition same_request (rb rb' : I2CRB) : Prop :=
  i2cAddress rb' = i2cAddress rb /\
  rb_operation rb' = rb_operation rb /\
  writeLen rb' = writeLen rb /\
  writeBuffer rb' = writeBuffer rb /\
  readLen rb' = readLen rb /\
  length (readBuffer rb') = length (readBuffer rb).

(** ** Further event scripts *)

(** A read of no byte: the device acknowledges its address; the hardware
    then clocks one byte in and reports it with the NACK it returned. *)
Definition zero_read_events (byte : Z) : list TWIRegs :=
  [event TWI_START; event TWI_MRX_ADR_ACK; received TWI_MRX_DATA_NACK byte].

(** A write of no byte, as used to probe for a device: START and the
    acknowledged address. *)
Definition probe_events : list TWIRegs :=
  [event TWI_START; event TWI_MTX_ADR_ACK].

(** A write on which the device acknowledges [k] bytes being loaded and
    then refuses: with [k = 0] it refuses its address, otherwise it
    acknowledges the address and [k - 1] data bytes and refuses the [k]-th
    byte. *)
Definition nacked_write_events (k : nat) : list TWIRegs :=
  event TWI_START ::
  match k with
  | O => [event TWI_MTX_ADR_NACK]
  | S j => event TWI_MTX_ADR_ACK :: repeat (event TWI_MTX_DATA_ACK) j
           ++ [event TWI_MTX_DATA_NACK]
  end.

(** [k] times a repeated START followed by the acknowledged address in
    write direction. *)
Fixpoint readdressed (k : nat) : list TWIRegs :=
  match k with
  | O => []
  | S k => event TWI_REP_START :: event TWI_MTX_ADR_ACK :: readdressed k
  end.

(** ** [I2C_init] *)

(** [I2C_FREQ], the bus rate the build asks for. *)
Variable I2C_FREQ : Z.

(** [#define TWI_TWBR ((F_CPU / I2C_FREQ) - 16) / 2], the operands being
    integer constants: C's division, which truncates. *)
Definition TWI_TWBR : Z := Z.quot (Z.quot F_CPU I2C_FREQ - 16) 2.

(** The assignment to the 8-bit register TWBR keeps the low byte. *)
Definition I2C_init : TWIInit :=
  {| init_TWSR := 0;
     init_TWBR := u8 TWI_TWBR;
     init_TWDR := 0xFF;
     init_TWCR := Z.shiftl 1 TWINT;
     init_SDA := INPUT_PULLUP;
     init_SCL := INPUT_PULLUP |}.

(** The divisor the bus clock is derived with, by the registers. *)
Definition divisor_of (regs : Z * Z) : Z :=
  scl_divisor (fst regs) (TWPS (snd regs)).

(** ** Further example inputs *)

(** A read of no byte from the device of [example_address]. *)
Definition example_zero_read : I2CRB :=
  {| i2cAddress := example_address; rb_operation := OPERATION_READ;
     writeLen := 0; writeBuffer := [];
     readLen := 0; readBuffer := [0x77] |}.

(** A request block with operation Send that also asks for a byte. *)
Definition example_send_with_readLen : I2CRB :=
  {| i2cAddress := {| muxNumber := 255; subBus := 254; deviceAddress := 0x20 |};
     rb_operation := OPERATION_SEND;
     writeLen := 2; writeBuffer := [0x12; 0x34];
     readLen := 1; readBuffer := [0] |}.

(** What holds of the transmit side of a transaction whose request asks for
    [len] bytes to be written. *)
Definition transmit_bounded (len : Z) (m : I2CManager) : Prop :=
  writeLen (currentRequest m) = len /\
  0 <= txCount m /\ 0 <= bytesToSend m /\
  txCount m + bytesToSend m = len.

(** ** Properties *)

(** *** Running event lists *)

Lemma run_nil m : run [] m = m.
Proof. reflexivity. Qed.

Lemma run_cons e events m :
  run (e :: events) m = run events (I2C_handleInterrupt e m).
Proof. reflexivity. Qed.

Lemma run_app events1 events2 m :
  run (events1 ++ events2) m = run events2 (run events1 m).
Proof. unfold run. apply fold_left_app. Qed.

(** *** Unfolding the handler *)

Lemma u8_small x : 0 <= x < 256 -> u8 x = x.
Proof. intros H. unfold u8. apply Z.mod_small. exact H. Qed.

Lemma handle_received code byte m :
  I2C_handleInterrupt (received code byte) m =
  match
    (if I2C_EXTENDED_ADDRESS && MuxPhase_gtb (muxPhase m) MuxPhase_OFF
     then mux_switch (received code byte) (Z.land code 0xF8) m else None)
  with
  | Some m' => m'
  | None => device_switch (received code byte) (Z.land code 0xF8) m
  end.
Proof. reflexivity. Qed.

Lemma switch_on_START : switch_on (Z.land TWI_START 0xF8) = CASE_START.
Proof. reflexivity. Qed.
Lemma switch_on_REP_START : switch_on (Z.land TWI_REP_START 0xF8) = CASE_REP_START.
Proof. reflexivity. Qed.
Lemma switch_on_ARB_LOST : switch_on (Z.land TWI_ARB_LOST 0xF8) = CASE_ARB_LOST.
Proof. reflexivity. Qed.
Lemma switch_on_MTX_ADR_ACK : switch_on (Z.land TWI_MTX_ADR_ACK 0xF8) = CASE_MTX_ADR_ACK.
Proof. reflexivity. Qed.
Lemma switch_on_MTX_ADR_NACK : switch_on (Z.land TWI_MTX_ADR_NACK 0xF8) = CASE_MTX_ADR_NACK.
Proof. reflexivity. Qed.
Lemma switch_on_MTX_DATA_ACK : switch_on (Z.land TWI_MTX_DATA_ACK 0xF8) = CASE_MTX_DATA_ACK.
Proof. reflexivity. Qed.
Lemma switch_on_MTX_DATA_NACK : switch_on (Z.land TWI_MTX_DATA_NACK 0xF8) = CASE_MTX_DATA_NACK.
Proof. reflexivity. Qed.
Lemma switch_on_MRX_ADR_ACK : switch_on (Z.land TWI_MRX_ADR_ACK 0xF8) = CASE_MRX_ADR_ACK.
Proof. reflexivity. Qed.
Lemma switch_on_MRX_ADR_NACK : switch_on (Z.land TWI_MRX_ADR_NACK 0xF8) = CASE_MRX_ADR_NACK.
Proof. reflexivity. Qed.
Lemma switch_on_MRX_DATA_ACK : switch_on (Z.land TWI_MRX_DATA_ACK 0xF8) = CASE_MRX_DATA_ACK.
Proof. reflexivity. Qed.
Lemma switch_on_MRX_DATA_NACK : switch_on (Z.land TWI_MRX_DATA_NACK 0xF8) = CASE_MRX_DATA_NACK.
Proof. reflexivity. Qed.
Lemma switch_on_BUS_ERROR : switch_on (Z.land TWI_BUS_ERROR 0xF8) = CASE_default.
Proof. reflexivity. Qed.

Lemma arm_next_reception_eq m :
  arm_next_reception m =
  emit (W_TWCR (if bytesToReceive m <=? 1 then TWCR_continue
                else TWCR_continue_ack)) m.
Proof. unfold arm_next_reception. destruct (bytesToReceive m <=? 1); reflexivity. Qed.

Lemma TWDR_received code byte : TWDR (received code byte) = byte.
Proof. reflexivity. Qed.

Ltac switch_case :=
  rewrite ?switch_on_START, ?switch_on_REP_START, ?switch_on_ARB_LOST,
    ?switch_on_MTX_ADR_ACK, ?switch_on_MTX_ADR_NACK, ?switch_on_MTX_DATA_ACK,
    ?switch_on_MTX_DATA_NACK, ?switch_on_MRX_ADR_ACK, ?switch_on_MRX_ADR_NACK,
    ?switch_on_MRX_DATA_ACK, ?switch_on_MRX_DATA_NACK, ?switch_on_BUS_ERROR.

(** Reduce the setters applied to an explicit manager record. *)
Ltac records :=
  cbv beta iota zeta delta
    [emit set_state set_completionStatus set_currentRequest set_txCount
     set_rxCount set_bytesToSend set_bytesToReceive set_operation set_muxPhase
     store_received
     state completionStatus currentRequest txCount rxCount bytesToSend
     bytesToReceive operation muxPhase _muxCount trace];
  cbn [i2cAddress rb_operation writeLen writeBuffer readLen readBuffer].

(** Unfold one invocation of the handler on a scripted event. *)
Ltac handler :=
  unfold event; rewrite handle_received;
  unfold mux_switch, device_switch; switch_case;
  rewrite ?arm_next_reception_eq, ?TWDR_received; records.

(** Case analysis on the configuration and the phase, once the handler is
    unfolded. *)
Ltac phase_cases H :=
  unfold device_phase, mux_idle in H;
  destruct I2C_EXTENDED_ADDRESS;
  [ destruct H as [H | H]; [ discriminate H | try destruct H as [H | H]; subst ]
  | clear H ].

(** Split every test the handler makes on an arbitrary event. *)
Ltac unfold_handler :=
  unfold I2C_handleInterrupt, mux_switch, device_switch, I2C_sendStart,
    arm_next_reception;
  records.

Ltac handler_cases :=
  repeat match goal with
         | |- context [switch_on ?x] => destruct (switch_on x)
         | |- context [if ?c then _ else _] => destruct c eqn:?
         | |- context [match ?o with OPERATION_SEND => _ | _ => _ end] =>
             destruct o
         end;
  records.

Lemma mux_idle_device_phase ph : mux_idle ph -> device_phase ph.
Proof. unfold mux_idle, device_phase. tauto. Qed.

(** *** Beginning a transaction *)

Lemma beginTransaction_plain rb m0 :
  mux_routed (i2cAddress rb) = false ->
  mux_idle (muxPhase (beginTransaction rb m0)) /\
  beginTransaction rb m0 =
    {| state := I2C_STATE_ACTIVE; completionStatus := I2C_STATUS_OK;
       currentRequest := rb; txCount := 0; rxCount := 0;
       bytesToSend := writeLen rb; bytesToReceive := readLen rb;
       operation := rb_operation rb;
       muxPhase := muxPhase (beginTransaction rb m0);
       _muxCount := _muxCount m0;
       trace := trace m0 ++ [W_TWCR TWCR_start_ack] |}.
Proof.
  unfold mux_routed, mux_idle, beginTransaction, I2C_sendStart. intros H.
  destruct I2C_EXTENDED_ADDRESS; cbn in H; records.
  - rewrite H. auto.
  - auto.
Qed.

Lemma beginTransaction_mux rb m0 :
  mux_routed (i2cAddress rb) = true ->
  I2C_EXTENDED_ADDRESS = true /\
  beginTransaction rb m0 =
    {| state := I2C_STATE_ACTIVE; completionStatus := I2C_STATUS_OK;
       currentRequest := rb; txCount := 0; rxCount := 0;
       bytesToSend := writeLen rb; bytesToReceive := readLen rb;
       operation := rb_operation rb;
       muxPhase := MuxPhase_PROLOG;
       _muxCount := _muxCount m0;
       trace := trace m0 ++ [W_TWCR TWCR_start_ack] |}.
Proof.
  unfold mux_routed, beginTransaction, I2C_sendStart. intros H.
  destruct I2C_EXTENDED_ADDRESS; cbn in H; [| discriminate]; records.
  rewrite H. auto.
Qed.

(** *** Single steps of the device state machine *)

Lemma step_start st cs rb tx rx bts btr op ph mc tr code :
  device_phase ph ->
  code = TWI_START \/ code = TWI_REP_START ->
  I2C_handleInterrupt (event code)
    {| state := st; completionStatus := cs; currentRequest := rb;
       txCount := tx; rxCount := rx; bytesToSend := bts; bytesToReceive := btr;
       operation := op; muxPhase := ph; _muxCount := mc; trace := tr |} =
    {| state := st; completionStatus := cs; currentRequest := rb;
       txCount := tx; rxCount := rx; bytesToSend := bts; bytesToReceive := btr;
       operation := op; muxPhase := ph; _muxCount := mc;
       trace := tr ++ [W_TWDR (address_byte op bts (i2cAddress rb));
                       W_TWCR TWCR_continue_ack] |}.
Proof.
  intros Hph Hc.
  unfold address_byte, SLA_R, SLA_W.
  destruct Hc as [-> | ->]; handler; phase_cases Hph; cbn;
    destruct op; cbn; try destruct (bts =? 0); cbn;
    rewrite <- ?app_assoc; reflexivity.
Qed.

Lemma step_send st cs rb tx rx bts btr op ph mc tr code :
  device_phase ph -> bts <> 0 ->
  code = TWI_MTX_ADR_ACK \/ code = TWI_MTX_DATA_ACK ->
  I2C_handleInterrupt (event code)
    {| state := st; completionStatus := cs; currentRequest := rb;
       txCount := tx; rxCount := rx; bytesToSend := bts; bytesToReceive := btr;
       operation := op; muxPhase := ph; _muxCount := mc; trace := tr |} =
    {| state := st; completionStatus := cs; currentRequest := rb;
       txCount := u8 (tx + 1); rxCount := rx; bytesToSend := u8 (bts - 1);
       bytesToReceive := btr;
       operation := op; muxPhase := ph; _muxCount := mc;
       trace := tr ++ [W_TWDR (buffer_at (writeBuffer rb) tx);
                       W_TWCR TWCR_continue] |}.
Proof.
  intros Hph Hb Hc.
  apply Z.eqb_neq in Hb.
  unfold GETFLASH.
  destruct Hc as [-> | ->]; handler; phase_cases Hph; cbn;
    rewrite ?Hb, ?andb_false_r; cbn;
    destruct op; rewrite <- ?app_assoc; reflexivity.
Qed.

Lemma step_restart st cs rb tx rx btr op ph mc tr code :
  device_phase ph -> btr <> 0 ->
  code = TWI_MTX_ADR_ACK \/ code = TWI_MTX_DATA_ACK ->
  I2C_handleInterrupt (event code)
    {| state := st; completionStatus := cs; currentRequest := rb;
       txCount := tx; rxCount := rx; bytesToSend := 0; bytesToReceive := btr;
       operation := op; muxPhase := ph; _muxCount := mc; trace := tr |} =
    {| state := st; completionStatus := cs; currentRequest := rb;
       txCount := tx; rxCount := rx; bytesToSend := 0; bytesToReceive := btr;
       operation := op; muxPhase := ph; _muxCount := mc;
       trace := tr ++ [W_TWCR TWCR_start] |}.
Proof.
  intros Hph Hb Hc. apply Z.eqb_neq in Hb.
  destruct Hc as [-> | ->]; handler; phase_cases Hph; cbn;
    rewrite ?Hb; reflexivity.
Qed.

Lemma step_finish_tx st cs rb tx rx op ph mc tr :
  device_phase ph ->
  I2C_handleInterrupt (event TWI_MTX_DATA_ACK)
    {| state := st; completionStatus := cs; currentRequest := rb;
       txCount := tx; rxCount := rx; bytesToSend := 0; bytesToReceive := 0;
       operation := op; muxPhase := ph; _muxCount := mc; trace := tr |} =
    {| state := finish_state ph mc st; completionStatus := cs;
       currentRequest := rb;
       txCount := tx; rxCount := rx; bytesToSend := 0; bytesToReceive := 0;
       operation := op; muxPhase := finish_phase ph mc; _muxCount := mc;
       trace := tr ++ [W_TWCR (finish_word ph mc)] |}.
Proof.
  intros Hph. unfold finish_state, finish_phase, finish_word, in_passthru.
  handler; phase_cases Hph; cbn; try destruct (1 <? mc); reflexivity.
Qed.

Lemma step_rx_adr_ack st cs rb tx rx bts btr op ph mc tr :
  I2C_handleInterrupt (event TWI_MRX_ADR_ACK)
    {| state := st; completionStatus := cs; currentRequest := rb;
       txCount := tx; rxCount := rx; bytesToSend := bts; bytesToReceive := btr;
       operation := op; muxPhase := ph; _muxCount := mc; trace := tr |} =
    {| state := st; completionStatus := cs; currentRequest := rb;
       txCount := tx; rxCount := rx; bytesToSend := bts; bytesToReceive := btr;
       operation := op; muxPhase := ph; _muxCount := mc;
       trace := tr ++ [W_TWCR (if btr <=? 1 then TWCR_continue
                               else TWCR_continue_ack)] |}.
Proof.
  handler.
  destruct (I2C_EXTENDED_ADDRESS && MuxPhase_gtb ph MuxPhase_OFF); reflexivity.
Qed.

Lemma step_finish_rx st cs rb tx rx bts btr op ph mc tr byte :
  device_phase ph -> 0 < btr ->
  I2C_handleInterrupt (received TWI_MRX_DATA_NACK byte)
    {| state := st; completionStatus := cs; currentRequest := rb;
       txCount := tx; rxCount := rx; bytesToSend := bts; bytesToReceive := btr;
       operation := op; muxPhase := ph; _muxCount := mc; trace := tr |} =
    {| state := finish_state ph mc st; completionStatus := cs;
       currentRequest :=
         with_readBuffer (<[Z.to_nat rx := byte]> (readBuffer rb)) rb;
       txCount := tx; rxCount := u8 (rx + 1); bytesToSend := bts;
       bytesToReceive := u8 (btr - 1);
       operation := op; muxPhase := finish_phase ph mc; _muxCount := mc;
       trace := tr ++ [W_readBuffer rx byte; W_TWCR (finish_word ph mc)] |}.
Proof.
  intros Hph Hbtr. apply Z.ltb_lt in Hbtr.
  unfold finish_state, finish_phase, finish_word, in_passthru, with_readBuffer.
  handler; rewrite Hbtr; records;
    phase_cases Hph; cbn; try destruct (1 <? mc); cbn;
    rewrite <- ?app_assoc; reflexivity.
Qed.

(** *** Transmitting the write buffer *)

Lemma drop_buffer_at (buf : list Z) (i : Z) :
  0 <= i -> i < Z.of_nat (length buf) ->
  drop (Z.to_nat i) buf = buffer_at buf i :: drop (S (Z.to_nat i)) buf.
Proof.
  intros H0 Hlt. unfold buffer_at.
  destruct (lookup_lt_is_Some_2 buf (Z.to_nat i)) as [x Hx]; [lia |].
  rewrite Hx. cbn. apply drop_S. exact Hx.
Qed.

Lemma take_S_buffer_at (buf : list Z) (n : nat) :
  (0 < length buf)%nat ->
  take (S n) buf = buffer_at buf 0 :: take n (drop 1 buf).
Proof. destruct buf as [| b buf]; cbn; [lia | reflexivity]. Qed.

Lemma send_loop st cs rb rx btr op ph mc (n : nat) :
  forall tx bts tr,
  device_phase ph -> bts = Z.of_nat n -> 0 <= tx ->
  tx + bts <= Z.of_nat (length (writeBuffer rb)) -> tx + bts < 256 ->
  run (repeat (event TWI_MTX_DATA_ACK) n)
    {| state := st; completionStatus := cs; currentRequest := rb;
       txCount := tx; rxCount := rx; bytesToSend := bts; bytesToReceive := btr;
       operation := op; muxPhase := ph; _muxCount := mc; trace := tr |} =
    {| state := st; completionStatus := cs; currentRequest := rb;
       txCount := tx + bts; rxCount := rx; bytesToSend := 0;
       bytesToReceive := btr;
       operation := op; muxPhase := ph; _muxCount := mc;
       trace := tr ++ transmitted (take n (drop (Z.to_nat tx) (writeBuffer rb))) |}.
Proof.
  induction n as [| n IH]; intros tx bts tr Hph Hn Htx Hlen Hmax.
  - cbn [repeat]. rewrite run_nil. rewrite take_0. cbn [transmitted flat_map].
    rewrite app_nil_r. subst bts. f_equal. lia.
  - cbn [repeat]. rewrite run_cons.
    rewrite step_send by (auto; lia).
    rewrite !u8_small by lia.
    rewrite (IH (tx + 1) (bts - 1)) by (auto; lia).
    rewrite (drop_buffer_at (writeBuffer rb) tx) by lia.
    replace (Z.to_nat (tx + 1)) with (S (Z.to_nat tx)) by lia.
    cbn [take transmitted flat_map app]. rewrite <- app_assoc.
    f_equal. lia.
Qed.

(** START, the address in write direction and the whole write buffer. *)
Lemma write_segment st cs rb rx btr op ph mc tr (k : nat) :
  device_phase ph -> op <> OPERATION_READ ->
  writeLen rb = Z.of_nat k + 1 -> writeLen rb < 256 ->
  (S k <= length (writeBuffer rb))%nat ->
  run ([event TWI_START; event TWI_MTX_ADR_ACK]
       ++ repeat (event TWI_MTX_DATA_ACK) k)
    {| state := st; completionStatus := cs; currentRequest := rb;
       txCount := 0; rxCount := rx; bytesToSend := writeLen rb;
       bytesToReceive := btr;
       operation := op; muxPhase := ph; _muxCount := mc; trace := tr |} =
    {| state := st; completionStatus := cs; currentRequest := rb;
       txCount := writeLen rb; rxCount := rx; bytesToSend := 0;
       bytesToReceive := btr;
       operation := op; muxPhase := ph; _muxCount := mc;
       trace := tr ++ [W_TWDR (SLA_W (i2cAddress rb)); W_TWCR TWCR_continue_ack]
                ++ transmitted (take (S k) (writeBuffer rb)) |}.
Proof.
  intros Hph Hop Hw Hmax Hlen.
  rewrite run_app, !run_cons, run_nil.
  rewrite step_start by auto.
  rewrite step_send by (auto; lia).
  rewrite !u8_small by lia.
  rewrite (send_loop _ _ _ _ _ _ _ _ k (0 + 1) (writeLen rb - 1)) by (auto; lia).
  assert (Haddr : address_byte op (writeLen rb) (i2cAddress rb)
                  = SLA_W (i2cAddress rb)).
  { unfold address_byte. destruct op; try reflexivity; try congruence.
    destruct (Z.eqb_spec (writeLen rb) 0); [lia | reflexivity]. }
  rewrite Haddr.
  rewrite (take_S_buffer_at (writeBuffer rb) k) by lia.
  change (Z.to_nat (0 + 1)) with 1%nat.
  cbn [transmitted flat_map app]. rewrite <- !app_assoc. cbn [app].
  f_equal. lia.
Qed.

(** *** Receiving into the read buffer *)

Lemma stored_spec (bytes : list Z) :
  forall (i : nat) (buf : list Z),
  (i + length bytes <= length buf)%nat ->
  stored i bytes buf = take i buf ++ bytes ++ drop (i + length bytes) buf.
Proof.
  induction bytes as [| b bytes IH]; intros i buf Hlen; cbn [stored length] in *.
  - rewrite Nat.add_0_r. cbn [app]. symmetry. apply take_drop.
  - rewrite IH by (rewrite length_insert; lia).
    rewrite (take_S_r _ i b) by (apply list_lookup_insert_eq; lia).
    rewrite take_insert_ge by lia.
    rewrite drop_insert_lt by lia.
    rewrite <- app_assoc. cbn [app].
    replace (S i + length bytes)%nat with (i + S (length bytes))%nat by lia.
    reflexivity.
Qed.

Lemma stored_snoc (bytes : list Z) (final : Z) :
  forall (i : nat) (buf : list Z),
  <[(i + length bytes)%nat := final]> (stored i bytes buf)
  = stored i (bytes ++ [final]) buf.
Proof.
  induction bytes as [| b bytes IH]; intros i buf; cbn [stored length app].
  - rewrite Nat.add_0_r. reflexivity.
  - rewrite <- IH. f_equal. lia.
Qed.

Lemma receive_loop st cs a o wl wb rl tx bts op ph mc (front : list Z) :
  forall rx btr tr buf,
  btr = Z.of_nat (length front) + 1 -> 0 <= rx -> rx + btr <= 256 ->
  run (map (received TWI_MRX_DATA_ACK) front)
    {| state := st; completionStatus := cs;
       currentRequest :=
         {| i2cAddress := a; rb_operation := o; writeLen := wl;
            writeBuffer := wb; readLen := rl; readBuffer := buf |};
       txCount := tx; rxCount := rx; bytesToSend := bts; bytesToReceive := btr;
       operation := op; muxPhase := ph; _muxCount := mc;
       trace := tr ++ [W_TWCR (if btr <=? 1 then TWCR_continue
                               else TWCR_continue_ack)] |} =
    {| state := st; completionStatus := cs;
       currentRequest :=
         {| i2cAddress := a; rb_operation := o; writeLen := wl;
            writeBuffer := wb; readLen := rl;
            readBuffer := stored (Z.to_nat rx) front buf |};
       txCount := tx; rxCount := rx + Z.of_nat (length front);
       bytesToSend := bts; bytesToReceive := 1;
       operation := op; muxPhase := ph; _muxCount := mc;
       trace := tr ++ received_acked rx front ++ [W_TWCR TWCR_continue] |}.
Proof.
  induction front as [| b front IH]; intros rx btr tr buf Hbtr Hrx Hmax.
  - cbn [map length] in *. rewrite run_nil. subst btr.
    cbn [received_acked app stored]. f_equal. lia.
  - cbn [map length] in *. rewrite run_cons.
    rewrite handle_received.
    unfold mux_switch, device_switch. switch_case.
    replace (if I2C_EXTENDED_ADDRESS && MuxPhase_gtb _ MuxPhase_OFF
             then None else None) with (@None I2CManager)
      by (destruct (I2C_EXTENDED_ADDRESS && _); reflexivity).
    rewrite arm_next_reception_eq, TWDR_received.
    cbn [bytesToReceive].
    destruct (Z.ltb_spec 0 btr) as [_ | ?]; [| lia].
    records.
    destruct (Z.leb_spec btr 1) as [? | _]; [lia |].
    rewrite !u8_small by lia.
    replace ((tr ++ [W_TWCR TWCR_continue_ack]) ++ [W_readBuffer rx b])
      with (tr ++ [W_TWCR TWCR_continue_ack; W_readBuffer rx b])
      by (rewrite <- app_assoc; reflexivity).
    rewrite (IH (rx + 1) (btr - 1)) by lia.
    replace (Z.to_nat (rx + 1)) with (S (Z.to_nat rx)) by lia.
    cbn [stored received_acked]. rewrite <- app_assoc. cbn [app].
    f_equal. lia.
Qed.

(** The address acknowledged in read direction, then every byte up to and
    including the final one, which ends the device transaction. *)
Lemma reception_segment cs a o wl wb rl buf tx bts op ph mc tr
    (front : list Z) (final : Z) :
  device_phase ph ->
  rl = Z.of_nat (length front) + 1 -> rl < 256 ->
  run (reception_events front final)
    {| state := I2C_STATE_ACTIVE; completionStatus := cs;
       currentRequest :=
         {| i2cAddress := a; rb_operation := o; writeLen := wl;
            writeBuffer := wb; readLen := rl; readBuffer := buf |};
       txCount := tx; rxCount := 0; bytesToSend := bts; bytesToReceive := rl;
       operation := op; muxPhase := ph; _muxCount := mc; trace := tr |} =
    {| state := finish_state ph mc I2C_STATE_ACTIVE; completionStatus := cs;
       currentRequest :=
         {| i2cAddress := a; rb_operation := o; writeLen := wl;
            writeBuffer := wb; readLen := rl;
            readBuffer := stored 0 (front ++ [final]) buf |};
       txCount := tx; rxCount := rl; bytesToSend := bts; bytesToReceive := 0;
       operation := op; muxPhase := finish_phase ph mc; _muxCount := mc;
       trace := tr ++ (received_acked 0 front
                       ++ [W_TWCR TWCR_continue;
                           W_readBuffer (Z.of_nat (length front)) final])
                ++ [W_TWCR (finish_word ph mc)] |}.
Proof.
  intros Hph Hrl Hmax.
  unfold reception_events. rewrite !run_app, !run_cons, !run_nil.
  rewrite step_rx_adr_ack.
  rewrite (receive_loop _ _ _ _ _ _ _ _ _ _ _ _ front 0 rl) by lia.
  rewrite step_finish_rx by (auto; lia).
  unfold with_readBuffer.
  cbn [i2cAddress rb_operation writeLen writeBuffer readLen readBuffer].
  change (Z.to_nat 0) with 0%nat.
  replace (Z.to_nat (0 + Z.of_nat (length front))) with (0 + length front)%nat
    by lia.
  rewrite stored_snoc.
  rewrite !u8_small by lia.
  rewrite <- !app_assoc. cbn [app].
  f_equal; lia.
Qed.

(** *** The multiplexer envelope *)

Lemma prolog_run st cs rb tx rx bts btr op mc tr :
  I2C_EXTENDED_ADDRESS = true ->
  deviceAddress (i2cAddress rb) <> 0 ->
  run mux_events
    {| state := st; completionStatus := cs; currentRequest := rb;
       txCount := tx; rxCount := rx; bytesToSend := bts; bytesToReceive := btr;
       operation := op; muxPhase := MuxPhase_PROLOG; _muxCount := mc;
       trace := tr |} =
    {| state := st; completionStatus := cs; currentRequest := rb;
       txCount := tx; rxCount := rx; bytesToSend := bts; bytesToReceive := btr;
       operation := op; muxPhase := MuxPhase_PASSTHRU; _muxCount := mc;
       trace := tr ++ prolog_trace (i2cAddress rb) |}.
Proof.
  intros Hext Hdev. apply Z.eqb_neq in Hdev.
  unfold mux_events, prolog_trace, MUX_SLA_W, subBus_mask.
  rewrite run_cons. handler. rewrite Hext. cbn -[run].
  rewrite run_cons. handler. rewrite Hext. cbn -[run].
  rewrite run_cons. handler. rewrite Hext, Hdev. cbn -[run].
  rewrite run_nil, <- !app_assoc. reflexivity.
Qed.

Lemma prolog_run_mux_only st cs rb tx rx bts btr op mc tr :
  I2C_EXTENDED_ADDRESS = true ->
  deviceAddress (i2cAddress rb) = 0 ->
  run mux_events
    {| state := st; completionStatus := cs; currentRequest := rb;
       txCount := tx; rxCount := rx; bytesToSend := bts; bytesToReceive := btr;
       operation := op; muxPhase := MuxPhase_PROLOG; _muxCount := mc;
       trace := tr |} =
    {| state := I2C_STATE_COMPLETED; completionStatus := cs; currentRequest := rb;
       txCount := tx; rxCount := rx; bytesToSend := bts; bytesToReceive := btr;
       operation := op; muxPhase := MuxPhase_OFF; _muxCount := mc;
       trace := tr ++ [W_TWDR (MUX_SLA_W (i2cAddress rb)); W_TWCR TWCR_continue;
                       W_TWDR (subBus_mask (i2cAddress rb)); W_TWCR TWCR_continue;
                       W_TWDR 0xff; W_TWCR TWCR_stop] |}.
Proof.
  intros Hext Hdev. apply Z.eqb_eq in Hdev.
  unfold mux_events, MUX_SLA_W, subBus_mask.
  rewrite run_cons. handler. rewrite Hext. cbn -[run].
  rewrite run_cons. handler. rewrite Hext. cbn -[run].
  rewrite run_cons. handler. rewrite Hext, Hdev. cbn -[run].
  rewrite run_nil, <- !app_assoc. reflexivity.
Qed.

Lemma epilog_run st cs rb tx rx bts btr op mc tr :
  I2C_EXTENDED_ADDRESS = true ->
  run mux_events
    {| state := st; completionStatus := cs; currentRequest := rb;
       txCount := tx; rxCount := rx; bytesToSend := bts; bytesToReceive := btr;
       operation := op; muxPhase := MuxPhase_EPILOG; _muxCount := mc;
       trace := tr |} =
    {| state := I2C_STATE_COMPLETED; completionStatus := cs; currentRequest := rb;
       txCount := tx; rxCount := rx; bytesToSend := bts; bytesToReceive := btr;
       operation := op; muxPhase := MuxPhase_OFF; _muxCount := mc;
       trace := tr ++ epilog_trace (i2cAddress rb) |}.
Proof.
  intros Hext.
  unfold mux_events, epilog_trace, MUX_SLA_W.
  rewrite run_cons. handler. rewrite Hext. cbn -[run].
  rewrite run_cons. handler. rewrite Hext. cbn -[run].
  rewrite run_cons. handler. rewrite Hext. cbn -[run].
  rewrite run_nil, <- !app_assoc. reflexivity.
Qed.

(** The first two events of the Epilog: the mask is sent and the state is
    as it was. *)
Lemma epilog_mask_run st cs rb tx rx bts btr op mc tr :
  I2C_EXTENDED_ADDRESS = true ->
  run [event TWI_START; event TWI_MTX_ADR_ACK]
    {| state := st; completionStatus := cs; currentRequest := rb;
       txCount := tx; rxCount := rx; bytesToSend := bts; bytesToReceive := btr;
       operation := op; muxPhase := MuxPhase_EPILOG; _muxCount := mc;
       trace := tr |} =
    {| state := st; completionStatus := cs; currentRequest := rb;
       txCount := tx; rxCount := rx; bytesToSend := bts; bytesToReceive := btr;
       operation := op; muxPhase := MuxPhase_EPILOG; _muxCount := mc;
       trace := tr ++ [W_TWDR (MUX_SLA_W (i2cAddress rb)); W_TWCR TWCR_continue;
                       W_TWDR 0x00; W_TWCR TWCR_continue] |}.
Proof.
  intros Hext. unfold MUX_SLA_W.
  rewrite run_cons. handler. rewrite Hext. cbn -[run].
  rewrite run_cons. handler. rewrite Hext. cbn -[run].
  rewrite run_nil, <- !app_assoc. reflexivity.
Qed.

Lemma mux_idle_not_passthru ph : mux_idle ph -> in_passthru ph = false.
Proof.
  unfold mux_idle, in_passthru. intros [-> | ->]; [reflexivity |].
  apply andb_false_r.
Qed.

(** Up to the end of the device transaction: with several multiplexers a
    routed transaction is then Active in the Epilog phase. *)
Lemma enveloped_enters_epilog rb m0 dev final body :
  mux_routed (i2cAddress rb) = true ->
  deviceAddress (i2cAddress rb) <> 0 ->
  1 < _muxCount m0 ->
  device_transaction rb (_muxCount m0) dev final body ->
  run (mux_events ++ dev) (beginTransaction rb m0) =
    {| state := I2C_STATE_ACTIVE;
       completionStatus := completionStatus final;
       currentRequest := currentRequest final;
       txCount := txCount final; rxCount := rxCount final;
       bytesToSend := bytesToSend final; bytesToReceive := bytesToReceive final;
       operation := rb_operation rb; muxPhase := MuxPhase_EPILOG;
       _muxCount := _muxCount m0;
       trace := trace m0 ++ opening (i2cAddress rb) ++ body
                ++ [W_TWCR TWCR_stop_start] |}.
Proof.
  intros Hmux Hdev Hmc Hrun. apply Z.ltb_lt in Hmc.
  destruct (beginTransaction_mux rb m0 Hmux) as [Hext ->].
  rewrite run_app, prolog_run by assumption.
  rewrite Hrun by (right; right; reflexivity).
  unfold finish_state, finish_phase, finish_word, in_passthru, opening.
  rewrite Hext, Hmux, Hmc. cbn.
  rewrite <- !app_assoc. reflexivity.
Qed.

(** The whole transaction. *)
Lemma enveloped_run rb m0 dev final body :
  mux_routed (i2cAddress rb) = false \/ deviceAddress (i2cAddress rb) <> 0 ->
  device_transaction rb (_muxCount m0) dev final body ->
  i2cAddress (currentRequest final) = i2cAddress rb ->
  exists ph,
    (mux_routed (i2cAddress rb) = true -> ph = MuxPhase_OFF) /\
    run (enveloped (i2cAddress rb) (_muxCount m0) dev) (beginTransaction rb m0) =
      {| state := I2C_STATE_COMPLETED;
         completionStatus := completionStatus final;
         currentRequest := currentRequest final;
         txCount := txCount final; rxCount := rxCount final;
         bytesToSend := bytesToSend final; bytesToReceive := bytesToReceive final;
         operation := rb_operation rb; muxPhase := ph;
         _muxCount := _muxCount m0;
         trace := trace m0 ++ opening (i2cAddress rb) ++ body
                  ++ closing (i2cAddress rb) (_muxCount m0) |}.
Proof.
  intros Hroute Hrun Haddr.
  unfold enveloped, opening, closing.
  destruct (mux_routed (i2cAddress rb)) eqn:Hmux.
  - destruct Hroute as [? | Hdev]; [discriminate |].
    destruct (beginTransaction_mux rb m0 Hmux) as [Hext ->].
    exists MuxPhase_OFF. split; [reflexivity |].
    rewrite !run_app, prolog_run by assumption.
    rewrite Hrun by (right; right; reflexivity).
    unfold finish_state, finish_phase, finish_word, in_passthru.
    rewrite Hext. cbn -[run].
    destruct (1 <? _muxCount m0).
    + rewrite epilog_run by assumption. rewrite Haddr.
      rewrite <- !app_assoc. reflexivity.
    + rewrite run_nil, <- !app_assoc. reflexivity.
  - destruct (beginTransaction_plain rb m0 Hmux) as [Hidle ->].
    exists (muxPhase (beginTransaction rb m0)). split; [discriminate |].
    cbn [app andb]. rewrite !run_app, run_nil.
    rewrite Hrun by (apply mux_idle_device_phase; exact Hidle).
    unfold finish_state, finish_phase, finish_word.
    rewrite (mux_idle_not_passthru _ Hidle). cbn.
    rewrite <- !app_assoc. reflexivity.
Qed.

(** *** The three kinds of device transaction *)

(** Normalise nested appends. *)
Ltac list_assoc :=
  repeat first [ rewrite <- app_assoc | progress cbn [app] ].

Lemma device_write rb mc (n : nat) :
  rb_operation rb <> OPERATION_READ ->
  writeLen rb = Z.of_nat n -> (0 < n)%nat -> writeLen rb < 256 ->
  readLen rb = 0 ->
  (n <= length (writeBuffer rb))%nat ->
  device_transaction rb mc (write_events n) (settled rb)
    ([W_TWDR (SLA_W (i2cAddress rb)); W_TWCR TWCR_continue_ack]
     ++ transmitted (take n (writeBuffer rb))).
Proof.
  intros Hop Hw Hn Hmax Hr Hlen ph tr Hph.
  destruct n as [| k]; [lia |].
  unfold write_events.
  cbn [repeat]. rewrite repeat_cons, app_assoc, run_app.
  rewrite write_segment by (auto; lia).
  rewrite run_cons, run_nil, Hr.
  rewrite step_finish_tx by auto.
  cbn [settled completionStatus currentRequest txCount rxCount bytesToSend
       bytesToReceive].
  rewrite Hr, <- !app_assoc. reflexivity.
Qed.

Lemma device_read rb mc (front : list Z) (final : Z) :
  rb_operation rb = OPERATION_READ \/ rb_operation rb = OPERATION_REQUEST ->
  writeLen rb = 0 ->
  readLen rb = Z.of_nat (length front) + 1 -> readLen rb < 256 ->
  device_transaction rb mc (read_events front final)
    (settled (with_readBuffer (stored 0 (front ++ [final]) (readBuffer rb)) rb))
    ([W_TWDR (SLA_R (i2cAddress rb)); W_TWCR TWCR_continue_ack]
     ++ received_acked 0 front
     ++ [W_TWCR TWCR_continue; W_readBuffer (Z.of_nat (length front)) final]).
Proof.
  intros Hop Hw Hr Hmax ph tr Hph.
  unfold read_events. rewrite run_cons.
  rewrite step_start by auto.
  assert (Haddr : address_byte (rb_operation rb) (writeLen rb) (i2cAddress rb)
                  = SLA_R (i2cAddress rb)).
  { unfold address_byte. destruct Hop as [-> | ->]; [reflexivity |].
    rewrite Hw. reflexivity. }
  rewrite Haddr.
  destruct rb as [a o wl wb rl buf].
  cbn [i2cAddress rb_operation writeLen writeBuffer readLen readBuffer] in *.
  rewrite reception_segment by auto.
  unfold settled, with_readBuffer.
  cbn [completionStatus currentRequest txCount rxCount bytesToSend
       bytesToReceive i2cAddress rb_operation writeLen writeBuffer readLen
       readBuffer].
  subst wl. f_equal. list_assoc. reflexivity.
Qed.

Lemma device_write_read rb mc (n : nat) (front : list Z) (final : Z) :
  rb_operation rb = OPERATION_REQUEST ->
  writeLen rb = Z.of_nat n -> (0 < n)%nat -> writeLen rb < 256 ->
  readLen rb = Z.of_nat (length front) + 1 -> readLen rb < 256 ->
  (n <= length (writeBuffer rb))%nat ->
  device_transaction rb mc (write_read_events n front final)
    (settled (with_readBuffer (stored 0 (front ++ [final]) (readBuffer rb)) rb))
    (([W_TWDR (SLA_W (i2cAddress rb)); W_TWCR TWCR_continue_ack]
      ++ transmitted (take n (writeBuffer rb)))
     ++ [W_TWCR TWCR_start]
     ++ ([W_TWDR (SLA_R (i2cAddress rb)); W_TWCR TWCR_continue_ack]
         ++ received_acked 0 front
         ++ [W_TWCR TWCR_continue;
             W_readBuffer (Z.of_nat (length front)) final])).
Proof.
  intros Hop Hw Hn Hwmax Hr Hrmax Hlen ph tr Hph.
  destruct n as [| k]; [lia |].
  unfold write_read_events, write_events.
  cbn [repeat]. rewrite repeat_cons, app_assoc, <- (app_assoc _ [event TWI_MTX_DATA_ACK]), run_app.
  rewrite write_segment by (auto; try lia; congruence).
  cbn [app]. rewrite !run_cons.
  rewrite step_restart by (auto; lia).
  rewrite step_start by auto.
  rewrite Hop. cbn [address_byte]. change (0 =? 0) with true. cbv iota.
  remember (SLA_W (i2cAddress rb)) as sla_w eqn:Hsla_w.
  remember (take (S k) (writeBuffer rb)) as sent eqn:Hsent.
  clear Hsla_w Hsent Hlen.
  destruct rb as [a o wl wb rl buf].
  cbn [i2cAddress rb_operation writeLen writeBuffer readLen readBuffer] in *.
  rewrite reception_segment by auto.
  unfold settled, with_readBuffer.
  cbn [completionStatus currentRequest txCount rxCount bytesToSend
       bytesToReceive i2cAddress rb_operation writeLen writeBuffer readLen
       readBuffer].
  subst o. f_equal. list_assoc. reflexivity.
Qed.

Lemma control_words_STOP :
  Z.testbit TWCR_start_ack TWSTO = false /\
  Z.testbit TWCR_continue TWSTO = false /\
  Z.testbit TWCR_continue_ack TWSTO = false /\
  Z.testbit TWCR_start TWSTO = false /\
  Z.testbit TWCR_stop_start TWSTO = true /\
  Z.testbit TWCR_stop TWSTO = true /\
  Z.testbit TWCR_stop_ack TWSTO = true.
Proof.
  unfold TWCR_start_ack, TWCR_continue, TWCR_continue_ack, TWCR_start,
    TWCR_stop_start, TWCR_stop, TWCR_stop_ack, ENABLE_TWI_INTERRUPT.
  destruct I2C_USE_INTERRUPTS; repeat split; reflexivity.
Qed.

Lemma control_words_START :
  Z.testbit TWCR_start_ack TWSTA = true /\
  Z.testbit TWCR_continue TWSTA = false /\
  Z.testbit TWCR_continue_ack TWSTA = false /\
  Z.testbit TWCR_start TWSTA = true /\
  Z.testbit TWCR_stop_start TWSTA = true /\
  Z.testbit TWCR_stop TWSTA = false /\
  Z.testbit TWCR_stop_ack TWSTA = false.
Proof.
  unfold TWCR_start_ack, TWCR_continue, TWCR_continue_ack, TWCR_start,
    TWCR_stop_start, TWCR_stop, TWCR_stop_ack, ENABLE_TWI_INTERRUPT.
  destruct I2C_USE_INTERRUPTS; repeat split; reflexivity.
Qed.

Lemma control_words_ACK :
  Z.testbit TWCR_continue_ack TWEA = true /\
  Z.testbit TWCR_continue TWEA = false.
Proof.
  unfold TWCR_continue, TWCR_continue_ack, ENABLE_TWI_INTERRUPT.
  destruct I2C_USE_INTERRUPTS; split; reflexivity.
Qed.

Lemma transmitted_no_STOP bytes :
  Forall (fun e => issues_STOP e = false) (transmitted bytes).
Proof.
  destruct control_words_STOP as (_ & Hc & _).
  induction bytes as [| b bytes IH]; cbn [transmitted flat_map app].
  - constructor.
  - constructor; [reflexivity |]. constructor; [exact Hc | exact IH].
Qed.

Lemma received_acked_no_STOP bytes :
  forall i, Forall (fun e => issues_STOP e = false) (received_acked i bytes).
Proof.
  destruct control_words_STOP as (_ & _ & Hc & _).
  induction bytes as [| b bytes IH]; intros i; cbn [received_acked].
  - constructor.
  - constructor; [exact Hc |]. constructor; [reflexivity | apply IH].
Qed.

(** The closing of a transaction starts with a STOP. *)
Lemma closing_issues_STOP a mc :
  exists e rest, closing a mc = e :: rest /\ issues_STOP e = true.
Proof.
  destruct control_words_STOP as (_ & _ & _ & _ & H1 & H2 & H3).
  unfold closing.
  destruct (mux_routed a); [destruct (1 <? mc) |]; eauto.
Qed.

Lemma stored_take_drop (bytes buf : list Z) :
  (length bytes <= length buf)%nat ->
  take (length bytes) (stored 0 bytes buf) = bytes /\
  drop (length bytes) (stored 0 bytes buf) = drop (length bytes) buf.
Proof.
  intros Hlen. rewrite stored_spec by (cbn; lia).
  rewrite take_0. cbn [app Nat.add].
  rewrite take_app_length, drop_app_length. auto.
Qed.

(** *** The transactions of the specification *)

(** C6.  A write of [n > 0] bytes with nothing to read, every byte being
    acknowledged.  After what opens the transaction (the START and, for a
    request routed through a multiplexer, the Prolog) the address goes out
    in write direction and exactly the first [n] bytes of the write buffer
    are loaded into TWDR and released, in index order; the next control
    word issues the STOP, and the driver ends Completed with status Ok.
    The request addresses a device (a routed request with device address 0
    stops after the Prolog) and is not a Read. *)
Theorem write_transmits_buffer_then_stop (rb : I2CRB) (m0 : I2CManager) (n : nat) :
  mux_routed (i2cAddress rb) = false \/ deviceAddress (i2cAddress rb) <> 0 ->
  rb_operation rb <> OPERATION_READ ->
  writeLen rb = Z.of_nat n -> (0 < n)%nat -> writeLen rb < 256 ->
  readLen rb = 0 ->
  (n <= length (writeBuffer rb))%nat ->
  let m := run (enveloped (i2cAddress rb) (_muxCount m0) (write_events n))
               (beginTransaction rb m0) in
  state m = I2C_STATE_COMPLETED /\
  completionStatus m = I2C_STATUS_OK /\
  txCount m = Z.of_nat n /\
  trace m =
    trace m0 ++ opening (i2cAddress rb)
    ++ ([W_TWDR (SLA_W (i2cAddress rb)); W_TWCR TWCR_continue_ack]
        ++ transmitted (take n (writeBuffer rb)))
    ++ closing (i2cAddress rb) (_muxCount m0) /\
  exists e rest,
    closing (i2cAddress rb) (_muxCount m0) = e :: rest /\ issues_STOP e = true.
Proof.
  intros Hroute Hop Hw Hn Hmax Hr Hlen m. subst m.
  destruct (enveloped_run rb m0 (write_events n) _ _ Hroute
              (device_write rb (_muxCount m0) n Hop Hw Hn Hmax Hr Hlen) eq_refl)
    as (ph & _ & ->).
  cbn [state completionStatus txCount trace settled].
  repeat split; auto using closing_issues_STOP.
Qed.

(** C7.  A read of [length front + 1 > 0] bytes with nothing to write, the
    device supplying the bytes [front ++ [final]].  After the opening the
    address goes out in read direction; an ACK is armed for every byte but
    the final one and a NACK for the final one; each byte is stored at the
    next index as it arrives; exactly [readLen] bytes are received, and on
    completion positions 0 to [readLen - 1] of the read buffer hold the
    bytes supplied, in order, the rest of the buffer being untouched.
    ([TWCR_continue_ack] has TWEA set and arms an ACK; [TWCR_continue] has
    it clear and arms a NACK.) *)
Theorem read_fills_buffer (rb : I2CRB) (m0 : I2CManager)
    (front : list Z) (final : Z) :
  mux_routed (i2cAddress rb) = false \/ deviceAddress (i2cAddress rb) <> 0 ->
  rb_operation rb = OPERATION_READ \/ rb_operation rb = OPERATION_REQUEST ->
  writeLen rb = 0 ->
  readLen rb = Z.of_nat (length front) + 1 -> readLen rb < 256 ->
  (length (front ++ [final]) <= length (readBuffer rb))%nat ->
  let m := run (enveloped (i2cAddress rb) (_muxCount m0) (read_events front final))
               (beginTransaction rb m0) in
  state m = I2C_STATE_COMPLETED /\
  completionStatus m = I2C_STATUS_OK /\
  rxCount m = readLen rb /\
  bytesToReceive m = 0 /\
  trace m =
    trace m0 ++ opening (i2cAddress rb)
    ++ ([W_TWDR (SLA_R (i2cAddress rb)); W_TWCR TWCR_continue_ack]
        ++ received_acked 0 front
        ++ [W_TWCR TWCR_continue; W_readBuffer (Z.of_nat (length front)) final])
    ++ closing (i2cAddress rb) (_muxCount m0) /\
  Z.testbit TWCR_continue_ack TWEA = true /\
  Z.testbit TWCR_continue TWEA = false /\
  take (length (front ++ [final])) (readBuffer (currentRequest m))
    = front ++ [final] /\
  drop (length (front ++ [final])) (readBuffer (currentRequest m))
    = drop (length (front ++ [final])) (readBuffer rb).
Proof.
  intros Hroute Hop Hw Hr Hmax Hlen m. subst m.
  destruct control_words_ACK as (Hack & Hnack).
  destruct (enveloped_run rb m0 (read_events front final) _ _ Hroute
              (device_read rb (_muxCount m0) front final Hop Hw Hr Hmax) eq_refl)
    as (ph & _ & ->).
  cbn [state completionStatus rxCount bytesToReceive trace currentRequest
       settled with_readBuffer readLen readBuffer].
  destruct (stored_take_drop (front ++ [final]) (readBuffer rb) Hlen).
  repeat split; auto.
Qed.

(** C8.  A write of [n > 0] bytes followed by a read of
    [length front + 1 > 0] bytes, every byte being acknowledged.  The
    address goes out in write direction while bytes remain to be sent; once
    nothing is left to send the driver issues a repeated START (TWSTA
    without TWSTO) and only then sends the address in read direction; from
    the address of the write phase to the last byte of the read phase no
    control word issues a STOP. *)
Theorem write_then_read_repeated_start (rb : I2CRB) (m0 : I2CManager)
    (n : nat) (front : list Z) (final : Z) :
  mux_routed (i2cAddress rb) = false \/ deviceAddress (i2cAddress rb) <> 0 ->
  rb_operation rb = OPERATION_REQUEST ->
  writeLen rb = Z.of_nat n -> (0 < n)%nat -> writeLen rb < 256 ->
  readLen rb = Z.of_nat (length front) + 1 -> readLen rb < 256 ->
  (n <= length (writeBuffer rb))%nat ->
  let m := run (enveloped (i2cAddress rb) (_muxCount m0)
                  (write_read_events n front final))
               (beginTransaction rb m0) in
  let write_phase :=
    [W_TWDR (SLA_W (i2cAddress rb)); W_TWCR TWCR_continue_ack]
    ++ transmitted (take n (writeBuffer rb)) in
  let read_phase :=
    [W_TWDR (SLA_R (i2cAddress rb)); W_TWCR TWCR_continue_ack]
    ++ received_acked 0 front
    ++ [W_TWCR TWCR_continue; W_readBuffer (Z.of_nat (length front)) final] in
  state m = I2C_STATE_COMPLETED /\
  completionStatus m = I2C_STATUS_OK /\
  trace m =
    trace m0 ++ opening (i2cAddress rb)
    ++ (write_phase ++ [W_TWCR TWCR_start] ++ read_phase)
    ++ closing (i2cAddress rb) (_muxCount m0) /\
  issues_START (W_TWCR TWCR_start) = true /\
  Forall (fun e => issues_STOP e = false)
    (write_phase ++ [W_TWCR TWCR_start] ++ read_phase).
Proof.
  intros Hroute Hop Hw Hn Hwmax Hr Hrmax Hlen m write_phase read_phase.
  subst m write_phase read_phase.
  destruct (enveloped_run rb m0 (write_read_events n front final) _ _ Hroute
              (device_write_read rb (_muxCount m0) n front final
                 Hop Hw Hn Hwmax Hr Hrmax Hlen) eq_refl)
    as (ph & _ & ->).
  cbn [state completionStatus trace settled].
  destruct control_words_STOP as (Hs1 & Hs2 & Hs3 & Hs4 & _).
  destruct control_words_START as (_ & _ & _ & Ha4 & _).
  split; [reflexivity |]. split; [reflexivity |]. split; [reflexivity |].
  split; [exact Ha4 |].
  cbn [app].
  repeat (first [ apply Forall_cons; split; [first [assumption | reflexivity] |]
                | apply Forall_app; split ]).
  - apply transmitted_no_STOP.
  - apply received_acked_no_STOP.
  - apply Forall_nil. exact I.
Qed.

(** *** Invariants along arbitrary events *)

Lemma run_invariant (Q : TWIRegs -> Prop) (P : I2CManager -> Prop) :
  (forall regs m, Q regs -> P m -> P (I2C_handleInterrupt regs m)) ->
  forall events m, Forall Q events -> P m -> P (run events m).
Proof.
  intros Hstep events.
  induction events as [| e events IH]; intros m Hall Hm.
  - exact Hm.
  - rewrite run_cons. inversion Hall; subst. apply IH; auto.
Qed.

Lemma Forall_True (events : list TWIRegs) : Forall (fun _ => True) events.
Proof. induction events; constructor; auto. Qed.

(** A request for the multiplexer alone never leaves Prolog but for Off. *)
Lemma muxPhase_mux_only regs m :
  I2C_EXTENDED_ADDRESS = true ->
  muxNumber (i2cAddress (currentRequest m)) <> I2CMux_None /\
  deviceAddress (i2cAddress (currentRequest m)) = 0 /\
  (muxPhase m = MuxPhase_PROLOG \/ muxPhase m = MuxPhase_OFF) ->
  let m' := I2C_handleInterrupt regs m in
  muxNumber (i2cAddress (currentRequest m')) <> I2CMux_None /\
  deviceAddress (i2cAddress (currentRequest m')) = 0 /\
  (muxPhase m' = MuxPhase_PROLOG \/ muxPhase m' = MuxPhase_OFF).
Proof.
  intros Hext (Hmux & Hdev & Hph).
  destruct m as [st cs rb tx rx bts btr op ph mc tr].
  cbn [currentRequest muxPhase] in *.
  pose proof Hdev as Hdev'. pose proof Hmux as Hmux'.
  apply Z.eqb_eq in Hdev'. apply Z.eqb_neq in Hmux'.
  cbv zeta. unfold_handler. rewrite Hext, ?Hdev', ?Hmux'.
  destruct Hph; subst ph; cbn; handler_cases; cbn;
    try (cbn in *; discriminate); repeat split; auto; try congruence.
Qed.

(** With at most one multiplexer and no NACK reported, the Epilog is not
    entered. *)
Lemma muxPhase_single_mux regs m :
  reports_NACK regs = false ->
  _muxCount m <= 1 /\ muxPhase m <> MuxPhase_EPILOG ->
  let m' := I2C_handleInterrupt regs m in
  _muxCount m' <= 1 /\ muxPhase m' <> MuxPhase_EPILOG.
Proof.
  intros Hnack (Hmc & Hph).
  destruct m as [st cs rb tx rx bts btr op ph mc tr].
  cbn [_muxCount muxPhase] in *.
  assert (Hmc' : (1 <? mc) = false) by (apply Z.ltb_ge; exact Hmc).
  revert Hnack. unfold reports_NACK.
  cbv zeta. unfold_handler. rewrite ?Hmc'.
  destruct ph; try congruence; cbn; handler_cases; cbn;
    intros; try (cbn in *; discriminate); split; auto; try congruence.
  all: cbn in *; rewrite ?Hmc', ?andb_false_r in *; congruence.
Qed.

(** *** The multiplexer sub-protocol *)

(** C9.  A request routed through a multiplexer whose device address is the
    reserved value 0.  Whatever events arrive, the phase is only ever
    Prolog or Off, never Passthrough or Epilog.  When the multiplexer
    acknowledges its address and the sub-bus mask, the driver is still
    Active before the mask is acknowledged and Completed after it, with one
    STOP among all the control words written. *)
Theorem mux_only_completes_in_prolog (rb : I2CRB) (m0 : I2CManager) :
  mux_routed (i2cAddress rb) = true ->
  deviceAddress (i2cAddress rb) = 0 ->
  (forall events,
     let m := run events (beginTransaction rb m0) in
     muxPhase m = MuxPhase_PROLOG \/ muxPhase m = MuxPhase_OFF) /\
  let m := run mux_events (beginTransaction rb m0) in
  let written :=
    [W_TWCR TWCR_start_ack;
     W_TWDR (MUX_SLA_W (i2cAddress rb)); W_TWCR TWCR_continue;
     W_TWDR (subBus_mask (i2cAddress rb)); W_TWCR TWCR_continue;
     W_TWDR 0xff; W_TWCR TWCR_stop] in
  state (run [event TWI_START; event TWI_MTX_ADR_ACK] (beginTransaction rb m0))
    = I2C_STATE_ACTIVE /\
  state m = I2C_STATE_COMPLETED /\
  completionStatus m = I2C_STATUS_OK /\
  muxPhase m = MuxPhase_OFF /\
  trace m = trace m0 ++ written /\
  count_STOP written = 1%nat.
Proof.
  intros Hmux Hdev.
  destruct (beginTransaction_mux rb m0 Hmux) as [Hext Hbegin].
  split.
  - intros events m. subst m.
    assert (Hnone : muxNumber (i2cAddress rb) <> I2CMux_None).
    { unfold mux_routed in Hmux. rewrite Hext in Hmux. cbn in Hmux.
      apply negb_true_iff, Z.eqb_neq in Hmux. exact Hmux. }
    apply (run_invariant (fun _ => True)
             (fun m => muxNumber (i2cAddress (currentRequest m)) <> I2CMux_None /\
                       deviceAddress (i2cAddress (currentRequest m)) = 0 /\
                       (muxPhase m = MuxPhase_PROLOG \/ muxPhase m = MuxPhase_OFF))).
    + intros regs m _ Hm. apply muxPhase_mux_only; assumption.
    + apply Forall_True.
    + rewrite Hbegin. cbn [currentRequest muxPhase]. auto.
  - cbv zeta. rewrite Hbegin.
    rewrite prolog_run_mux_only by assumption.
    cbn [state completionStatus muxPhase trace].
    split.
    { rewrite !run_cons, run_nil.
      handler. rewrite Hext. cbn -[run].
      handler. rewrite Hext. cbn -[run]. reflexivity. }
    repeat split.
    + list_assoc. reflexivity.
    + destruct control_words_STOP as (H1 & H2 & _ & _ & _ & H6 & _).
      unfold count_STOP. cbn [List.filter issues_STOP].
      rewrite H1, H2, H6. reflexivity.
Qed.

(** C5.  A NACK status (address NACK in either direction, or data NACK of
    the transmitter) handled in the Passthrough phase: the completion
    status becomes NegativeAcknowledge and the driver issues STOP and START
    and enters the Epilog without completing; when the multiplexer then
    acknowledges, the Epilog sends the multiplexer address and the all-zero
    mask, the state being still what it was; on the acknowledgement of the
    mask the driver issues the STOP and is Completed, and the completion
    status is still NegativeAcknowledge. *)
Theorem nack_in_passthru_runs_epilog (m : I2CManager) (code : Z) :
  I2C_EXTENDED_ADDRESS = true ->
  muxPhase m = MuxPhase_PASSTHRU ->
  code = TWI_MTX_ADR_NACK \/ code = TWI_MRX_ADR_NACK \/ code = TWI_MTX_DATA_NACK ->
  let m1 := I2C_handleInterrupt (event code) m in
  let m2 := run mux_events m1 in
  completionStatus m1 = I2C_STATUS_NEGATIVE_ACKNOWLEDGE /\
  muxPhase m1 = MuxPhase_EPILOG /\
  state m1 = state m /\
  trace m1 = trace m ++ [W_TWCR TWCR_stop_start] /\
  issues_STOP (W_TWCR TWCR_stop_start) = true /\
  issues_START (W_TWCR TWCR_stop_start) = true /\
  (let masked := run [event TWI_START; event TWI_MTX_ADR_ACK] m1 in
   state masked = state m /\
   trace masked =
     trace m ++ W_TWCR TWCR_stop_start
     :: [W_TWDR (MUX_SLA_W (i2cAddress (currentRequest m)));
         W_TWCR TWCR_continue; W_TWDR 0x00; W_TWCR TWCR_continue]) /\
  state m2 = I2C_STATE_COMPLETED /\
  completionStatus m2 = I2C_STATUS_NEGATIVE_ACKNOWLEDGE /\
  muxPhase m2 = MuxPhase_OFF /\
  trace m2 =
    trace m ++ W_TWCR TWCR_stop_start
    :: [W_TWDR (MUX_SLA_W (i2cAddress (currentRequest m))); W_TWCR TWCR_continue;
        W_TWDR 0x00; W_TWCR TWCR_continue;
        W_TWDR 0xff; W_TWCR TWCR_stop].
Proof.
  intros Hext Hph Hcode.
  destruct m as [st cs rb tx rx bts btr op ph mc tr].
  cbn [muxPhase state trace currentRequest] in *. subst ph.
  destruct control_words_STOP as (_ & _ & _ & _ & Hs & _).
  destruct control_words_START as (_ & _ & _ & _ & Ha & _).
  assert (Hstep :
    I2C_handleInterrupt (event code)
      {| state := st; completionStatus := cs; currentRequest := rb;
         txCount := tx; rxCount := rx; bytesToSend := bts;
         bytesToReceive := btr; operation := op;
         muxPhase := MuxPhase_PASSTHRU; _muxCount := mc; trace := tr |} =
      {| state := st; completionStatus := I2C_STATUS_NEGATIVE_ACKNOWLEDGE;
         currentRequest := rb;
         txCount := tx; rxCount := rx; bytesToSend := bts;
         bytesToReceive := btr; operation := op;
         muxPhase := MuxPhase_EPILOG; _muxCount := mc;
         trace := tr ++ [W_TWCR TWCR_stop_start] |}).
  { destruct Hcode as [-> | [-> | ->]]; handler; rewrite Hext; reflexivity. }
  cbv zeta. rewrite Hstep, epilog_run, epilog_mask_run by assumption.
  cbn [state completionStatus muxPhase trace issues_STOP issues_START
       currentRequest].
  unfold epilog_trace.
  repeat split; auto; list_assoc; reflexivity.
Qed.

Lemma transfers_device_transaction rb mc t :
  transfers rb t ->
  exists final body,
    device_transaction rb mc (transfer_events t) final body /\
    i2cAddress (currentRequest final) = i2cAddress rb.
Proof.
  destruct t as [n | front final | n front final]; cbn [transfers transfer_events].
  - intros (Hop & Hw & Hn & Hmax & Hr & Hlen).
    eexists _, _. split; [apply device_write; assumption | reflexivity].
  - intros (Hop & Hw & Hr & Hmax).
    eexists _, _. split; [apply device_read; assumption | reflexivity].
  - intros (Hop & Hw & Hn & Hwmax & Hr & Hrmax & Hlen).
    eexists _, _. split; [apply device_write_read; assumption | reflexivity].
Qed.

(** C4, as the code has it.  Extended addressing being compiled in, for a
    request routed through a multiplexer to a device address other than 0:
    with exactly one multiplexer configured, as long as no NACK status is
    reported, no sequence of events brings the driver into the Epilog
    phase; with more than one configured, a write, a read or a write
    followed by a read that the device acknowledges leaves the driver
    Active in the Epilog phase when the device transaction is through; the
    Epilog then sends the multiplexer address and the all-zero mask, the
    driver being still Active, and on the acknowledgement of the mask the
    STOP with which the driver becomes Completed. *)
Theorem epilog_only_with_several_multiplexers (rb : I2CRB) (m0 : I2CManager) :
  mux_routed (i2cAddress rb) = true ->
  deviceAddress (i2cAddress rb) <> 0 ->
  (_muxCount m0 = 1 ->
   forall events,
     Forall (fun regs => reports_NACK regs = false) events ->
     muxPhase (run events (beginTransaction rb m0)) <> MuxPhase_EPILOG) /\
  (1 < _muxCount m0 ->
   forall t, transfers rb t ->
     let entered :=
       run (mux_events ++ transfer_events t) (beginTransaction rb m0) in
     let m :=
       run (enveloped (i2cAddress rb) (_muxCount m0) (transfer_events t))
           (beginTransaction rb m0) in
     enveloped (i2cAddress rb) (_muxCount m0) (transfer_events t)
       = (mux_events ++ transfer_events t) ++ mux_events /\
     state entered = I2C_STATE_ACTIVE /\
     muxPhase entered = MuxPhase_EPILOG /\
     (let masked := run [event TWI_START; event TWI_MTX_ADR_ACK] entered in
      state masked = I2C_STATE_ACTIVE /\
      trace masked =
        trace entered
        ++ [W_TWDR (MUX_SLA_W (i2cAddress rb)); W_TWCR TWCR_continue;
            W_TWDR 0x00; W_TWCR TWCR_continue]) /\
     state m = I2C_STATE_COMPLETED /\
     muxPhase m = MuxPhase_OFF /\
     trace m =
       trace entered
       ++ [W_TWDR (MUX_SLA_W (i2cAddress rb)); W_TWCR TWCR_continue;
           W_TWDR 0x00; W_TWCR TWCR_continue;
           W_TWDR 0xff; W_TWCR TWCR_stop]).
Proof.
  intros Hmux Hdev. split.
  - intros Hmc events Hack.
    destruct (beginTransaction_mux rb m0 Hmux) as [Hext Hbegin].
    apply (run_invariant (fun regs => reports_NACK regs = false)
             (fun m => _muxCount m <= 1 /\ muxPhase m <> MuxPhase_EPILOG)
             muxPhase_single_mux events _ Hack).
    rewrite Hbegin. cbn [_muxCount muxPhase]. split; [lia | discriminate].
  - intros Hmc t Ht.
    destruct (transfers_device_transaction rb (_muxCount m0) t Ht)
      as (final & body & Hrun & Haddr).
    cbv zeta.
    rewrite (enveloped_enters_epilog rb m0 _ final body Hmux Hdev Hmc Hrun).
    destruct (enveloped_run rb m0 _ final body (or_intror Hdev) Hrun Haddr)
      as (ph & Hoff & ->).
    destruct (beginTransaction_mux rb m0 Hmux) as [Hext _].
    rewrite epilog_mask_run, Haddr by assumption.
    cbn [state muxPhase trace].
    unfold enveloped, closing, epilog_trace. rewrite Hmux.
    apply Z.ltb_lt in Hmc. rewrite Hmc. cbn [andb].
    split; [apply app_assoc |].
    split; [reflexivity |]. split; [reflexivity |].
    split; [split; reflexivity |].
    split; [reflexivity |].
    split; [auto |].
    list_assoc. reflexivity.
Qed.

(** *** The multiplexer phase and the request *)

Lemma routed_step regs m :
  (muxPhase m <> MuxPhase_OFF ->
   mux_routed (i2cAddress (currentRequest m)) = true) ->
  let m' := I2C_handleInterrupt regs m in
  muxPhase m' <> MuxPhase_OFF ->
  mux_routed (i2cAddress (currentRequest m')) = true.
Proof.
  destruct m as [st cs rb tx rx bts btr op ph mc tr].
  cbn [currentRequest muxPhase]. cbv zeta.
  unfold mux_routed. unfold_handler.
  destruct I2C_EXTENDED_ADDRESS; cbn [andb]; intros Hm.
  - destruct ph; cbn; handler_cases; cbn;
      intros; try congruence; try (apply Hm; congruence);
      try (cbn in *; congruence).
  - handler_cases; cbn; exact Hm.
Qed.

Lemma routed_begin rb m :
  (muxPhase m <> MuxPhase_OFF ->
   mux_routed (i2cAddress (currentRequest m)) = true) ->
  muxPhase (beginTransaction rb m) <> MuxPhase_OFF ->
  mux_routed (i2cAddress (currentRequest (beginTransaction rb m))) = true.
Proof.
  destruct m as [st cs rb0 tx rx bts btr op ph mc tr].
  cbn [currentRequest muxPhase].
  unfold mux_routed, beginTransaction, I2C_sendStart. records.
  destruct I2C_EXTENDED_ADDRESS; cbn [andb].
  - intros _. destruct (negb _) eqn:Hn; cbn; congruence.
  - intros Hm Hph. specialize (Hm Hph). discriminate.
Qed.

(** C2, as the code has it.  In every state reachable by beginning
    transactions and handling events, the multiplexer phase is different
    from Off only if extended addressing is compiled in and the current
    request's address carries a multiplexer number; and every path of the
    multiplexer state machine that sets the state to Completed leaves the
    phase Off, while every path of the device state machine that sets the
    state to Completed leaves the phase as it was. *)
Theorem muxPhase_set_only_for_routed_requests (m : I2CManager) :
  reachable m ->
  (muxPhase m <> MuxPhase_OFF ->
   mux_routed (i2cAddress (currentRequest m)) = true) /\
  (forall regs twsr m',
     state m <> I2C_STATE_COMPLETED ->
     mux_switch regs twsr m = Some m' ->
     state m' = I2C_STATE_COMPLETED ->
     muxPhase m' = MuxPhase_OFF) /\
  (forall regs twsr,
     state m <> I2C_STATE_COMPLETED ->
     state (device_switch regs twsr m) = I2C_STATE_COMPLETED ->
     muxPhase (device_switch regs twsr m) = muxPhase m).
Proof.
  intros Hreach. split; [| split].
  - induction Hreach as [m Hst Hph | rb m Hreach IH | regs m Hreach IH].
    + congruence.
    + apply routed_begin. exact IH.
    + apply routed_step. exact IH.
  - clear Hreach. intros regs twsr m'.
    destruct m as [st cs rb tx rx bts btr op ph mc tr].
    cbn [state]. unfold mux_switch. records.
    destruct ph; cbn; handler_cases; cbn;
      intros Hst Hsome Hdone; inversion Hsome; subst; cbn in *;
      try reflexivity; try congruence.
  - clear Hreach. intros regs twsr.
    destruct m as [st cs rb tx rx bts btr op ph mc tr].
    cbn [state muxPhase]. unfold device_switch, I2C_sendStart, arm_next_reception.
    records.
    handler_cases; cbn; intros Hst Hdone; try reflexivity; congruence.
Qed.

(** *** The receive counters and the read buffer *)

(** Turn the boolean tests in the context into arithmetic facts. *)
Ltac bool_hyps :=
  repeat match goal with
         | H : (_ <? _) = true |- _ => apply Z.ltb_lt in H
         | H : (_ <? _) = false |- _ => apply Z.ltb_ge in H
         | H : (_ <=? _) = true |- _ => apply Z.leb_le in H
         | H : (_ <=? _) = false |- _ => apply Z.leb_gt in H
         end.

Lemma receive_bounded_step len buf regs m :
  len < 256 ->
  receive_bounded len buf m ->
  let m' := I2C_handleInterrupt regs m in
  receive_bounded len buf m' /\
  exists effects,
    trace m' = trace m ++ effects /\
    Forall (fun e => match e with
                     | W_readBuffer i _ =>
                         i = rxCount m /\ 0 < bytesToReceive m /\ 0 <= i < len
                     | _ => True
                     end) effects.
Proof.
  intros Hmax.
  destruct m as [st cs rb tx rx bts btr op ph mc tr].
  unfold receive_bounded. cbn [currentRequest rxCount bytesToReceive trace].
  intros (Hlen & Hrx & Hbtr & Hsum & Hbuf & Hdrop).
  cbv zeta. unfold_handler.
  handler_cases; bool_hyps;
    cbn [currentRequest rxCount bytesToReceive trace readLen readBuffer];
    rewrite ?u8_small by lia;
    rewrite ?length_insert, ?drop_insert_lt by lia;
    (split; [ repeat split; solve [ assumption | lia ] | ]).
  all: first
    [ exists []; split; [ symmetry; apply app_nil_r | constructor ]
    | eexists; split;
      [ rewrite <- ?app_assoc; reflexivity
      | repeat (apply Forall_cons; split; [ try exact I; lia |]);
        apply Forall_nil; exact I ] ].
Qed.

(** C10.  From the beginning of a transaction on, whatever events the
    hardware delivers: every store into the read buffer happens with
    [bytesToReceive > 0] and at an index below [readLen]; [rxCount] never
    exceeds [readLen] ([rxCount + bytesToReceive] stays equal to it); and
    the read buffer keeps its length and its content from index [readLen]
    on.  The effects of one more invocation of the handler are given
    relative to the state reached. *)
Theorem receive_stays_within_readLen (rb : I2CRB) (m0 : I2CManager)
    (events : list TWIRegs) :
  0 <= readLen rb < 256 ->
  let m := run events (beginTransaction rb m0) in
  0 <= rxCount m <= readLen rb /\
  rxCount m + bytesToReceive m = readLen rb /\
  (exists effects,
     trace m = trace (beginTransaction rb m0) ++ effects /\
     Forall (store_within (readLen rb)) effects) /\
  (forall regs, exists effects,
     trace (I2C_handleInterrupt regs m) = trace m ++ effects /\
     Forall (fun e => match e with
                      | W_readBuffer i _ =>
                          i = rxCount m /\ 0 < bytesToReceive m /\
                          0 <= i < readLen rb
                      | _ => True
                      end) effects) /\
  length (readBuffer (currentRequest m)) = length (readBuffer rb) /\
  drop (Z.to_nat (readLen rb)) (readBuffer (currentRequest m))
    = drop (Z.to_nat (readLen rb)) (readBuffer rb).
Proof.
  intros Hlen m. subst m.
  set (start := beginTransaction rb m0).
  assert (Hinv :
    receive_bounded (readLen rb) (readBuffer rb) (run events start) /\
    exists effects,
      trace (run events start) = trace start ++ effects /\
      Forall (store_within (readLen rb)) effects).
  { apply (run_invariant (fun _ => True)
             (fun m => receive_bounded (readLen rb) (readBuffer rb) m /\
                       exists effects,
                         trace m = trace start ++ effects /\
                         Forall (store_within (readLen rb)) effects)).
    - intros regs m _ (Hb & t & Ht & Hall).
      destruct (receive_bounded_step _ _ regs m (proj2 Hlen) Hb)
        as (Hb' & es & Hes & Hstores).
      split; [exact Hb' |].
      exists (t ++ es). split.
      + rewrite Hes, Ht. symmetry. apply app_assoc.
      + apply Forall_app. split; [exact Hall |].
        eapply Forall_impl; [exact Hstores |].
        intros [v | v | i v]; cbn; tauto.
    - apply Forall_True.
    - split.
      + subst start. unfold receive_bounded, beginTransaction, I2C_sendStart.
        destruct I2C_EXTENDED_ADDRESS; [destruct (negb _) |]; records;
          repeat split; lia.
      + exists []. split; [symmetry; apply app_nil_r | constructor]. }
  destruct Hinv as (Hb & Htrace).
  pose proof Hb as (H1 & H2 & H3 & H4 & H5 & H6).
  split; [lia |]. split; [exact H4 |]. split; [exact Htrace |].
  split; [| split; assumption].
  intros regs.
  destruct (receive_bounded_step _ _ regs _ (proj2 Hlen) Hb) as (_ & Hes).
  exact Hes.
Qed.

(** *** Arbitration lost *)

(** C1, as the code has it.  An arbitration-lost status, in any phase, is
    handled by [I2C_sendStart]: the START is reissued, [bytesToSend] and
    [bytesToReceive] are set again to the request's [writeLen] and
    [readLen], [txCount] and [rxCount] to zero; the state, the completion
    status and the request are left as they were. *)
Theorem arbitration_lost_restarts_from_sendStart (regs : TWIRegs) (m : I2CManager) :
  Z.land (TWCR regs) (Z.shiftl 1 TWINT) <> 0 ->
  Z.land (TWSR regs) 0xF8 = TWI_ARB_LOST ->
  let m' := I2C_handleInterrupt regs m in
  m' = I2C_sendStart m /\
  bytesToSend m' = writeLen (currentRequest m) /\
  bytesToReceive m' = readLen (currentRequest m) /\
  txCount m' = 0 /\
  rxCount m' = 0 /\
  trace m' = trace m ++ [W_TWCR TWCR_start_ack] /\
  state m' = state m /\
  completionStatus m' = completionStatus m /\
  currentRequest m' = currentRequest m.
Proof.
  intros Hint Hcode. apply Z.eqb_neq in Hint.
  assert (Hstep : I2C_handleInterrupt regs m = I2C_sendStart m).
  { unfold I2C_handleInterrupt, mux_switch, device_switch.
    rewrite Hint, Hcode. change (switch_on TWI_ARB_LOST) with CASE_ARB_LOST.
    cbv iota.
    destruct (I2C_EXTENDED_ADDRESS && MuxPhase_gtb (muxPhase m) MuxPhase_OFF);
      reflexivity. }
  cbv zeta. rewrite Hstep. split; [reflexivity |].
  destruct m as [st cs rb tx rx bts btr op ph mc tr].
  unfold I2C_sendStart. records.
  destruct I2C_EXTENDED_ADDRESS; [destruct (negb _) |]; records;
    repeat split; reflexivity.
Qed.

(** *** The clock *)

Lemma TWPS_set (t p : Z) : 0 <= p <= 3 -> TWPS (Z.lor (Z.land t 0xfc) p) = p.
Proof.
  intros Hp. unfold TWPS.
  rewrite Z.land_lor_distr_l, <- Z.land_assoc.
  change (Z.land 252 3) with 0. rewrite Z.land_0_r, Z.lor_0_l.
  assert (p = 0 \/ p = 1 \/ p = 2 \/ p = 3) as [-> | [-> | [-> | ->]]] by lia;
    reflexivity.
Qed.

Lemma TWPS_max (t : Z) : TWPS (Z.lor t 0x03) = 3.
Proof.
  unfold TWPS. rewrite Z.land_lor_distr_l. change (Z.land 3 3) with 3.
  apply Z.bits_inj'. intros n Hn.
  rewrite Z.lor_spec, Z.land_spec.
  destruct (Z.testbit 3 n); [ apply orb_true_r | rewrite andb_false_r; reflexivity ].
Qed.

Lemma I2C_setClock_for_spec raw t0 :
  0 <= raw ->
  let '(twbr, twsr) := I2C_setClock_for [0; 1; 2; 3] raw t0 in
  0 <= twbr <= 255 /\
  twbr * 4 ^ TWPS twsr <= raw /\
  (raw / 64 <= 255 -> raw < (twbr + 1) * 4 ^ TWPS twsr) /\
  (255 < raw / 64 -> twbr = 255 /\ twsr = Z.lor t0 0x03).
Proof.
  intros Hraw. cbn [I2C_setClock_for].
  pose proof (Z.div_mod raw 4 ltac:(lia)) as D1.
  pose proof (Z.mod_pos_bound raw 4 ltac:(lia)) as B1.
  pose proof (Z.div_mod (raw / 4) 4 ltac:(lia)) as D2.
  pose proof (Z.mod_pos_bound (raw / 4) 4 ltac:(lia)) as B2.
  pose proof (Z.div_mod (raw / 4 / 4) 4 ltac:(lia)) as D3.
  pose proof (Z.mod_pos_bound (raw / 4 / 4) 4 ltac:(lia)) as B3.
  assert (E64 : raw / 64 = raw / 4 / 4 / 4).
  { rewrite !Z.div_div by lia. reflexivity. }
  destruct (Z.leb_spec raw 255).
  { rewrite TWPS_set by lia. change (4 ^ 0) with 1. lia. }
  destruct (Z.leb_spec (raw / 4) 255).
  { rewrite TWPS_set by lia. change (4 ^ 1) with 4. lia. }
  destruct (Z.leb_spec (raw / 4 / 4) 255).
  { rewrite TWPS_set by lia. change (4 ^ 2) with 16. lia. }
  destruct (Z.leb_spec (raw / 4 / 4 / 4) 255).
  { rewrite TWPS_set by lia. change (4 ^ 3) with 64. lia. }
  rewrite TWPS_max. change (4 ^ 3) with 64. lia.
Qed.

(** Of all the settings of an 8-bit divisor and a prescaler from 0 to 3
    whose product does not exceed [raw], the loop leaves the one with the
    largest product. *)
Lemma I2C_setClock_for_largest raw t0 (t p : Z) :
  0 <= raw -> 0 <= t <= 255 -> 0 <= p <= 3 ->
  t * 4 ^ p <= raw ->
  let '(twbr, twsr) := I2C_setClock_for [0; 1; 2; 3] raw t0 in
  t * 4 ^ p <= twbr * 4 ^ TWPS twsr.
Proof.
  intros Hraw Ht Hp. cbn [I2C_setClock_for].
  pose proof (Z.div_mod raw 4 ltac:(lia)) as D1.
  pose proof (Z.mod_pos_bound raw 4 ltac:(lia)) as B1.
  pose proof (Z.div_mod (raw / 4) 4 ltac:(lia)) as D2.
  pose proof (Z.mod_pos_bound (raw / 4) 4 ltac:(lia)) as B2.
  pose proof (Z.div_mod (raw / 4 / 4) 4 ltac:(lia)) as D3.
  pose proof (Z.mod_pos_bound (raw / 4 / 4) 4 ltac:(lia)) as B3.
  assert (p = 0 \/ p = 1 \/ p = 2 \/ p = 3) as [-> | [-> | [-> | ->]]] by lia;
    change (4 ^ 0) with 1; change (4 ^ 1) with 4; change (4 ^ 2) with 16;
    change (4 ^ 3) with 64; intros Hle;
    (destruct (Z.leb_spec raw 255);
      [| destruct (Z.leb_spec (raw / 4) 255);
         [| destruct (Z.leb_spec (raw / 4 / 4) 255);
            [| destruct (Z.leb_spec (raw / 4 / 4 / 4) 255)]]]);
    rewrite ?TWPS_set by lia; rewrite ?TWPS_max;
    change (4 ^ 0) with 1; change (4 ^ 1) with 4; change (4 ^ 2) with 16;
    change (4 ^ 3) with 64; lia.
Qed.

(** C3, as the code has it.  [raw] is the divisor before any prescaling.
    When the processor clock is at least 16 times the requested rate, the
    divisor and prescaler programmed give a bus rate that is never slower
    than the requested one (the divisions truncate, so it can be faster),
    and it is the closest such rate: every setting of an 8-bit divisor and
    a prescaler from 0 to 3 whose rate is not slower than the requested one
    has a clock divisor no larger than the one programmed, so its rate is
    no nearer to the request.  When the divisor fits with some prescaler,
    the next larger divisor at the prescaler chosen would give a rate below
    the requested one; when it fits with none, the registers are left at
    divisor 255, prescaler 3, the slowest rate there is.  When the
    processor clock is less than 16 times the requested rate the
    subtraction wraps and the registers are likewise left at divisor 255,
    prescaler bits set.  No case is an error. *)
Theorem I2C_setClock_rate (i2cClockSpeed TWSR0 : Z) :
  0 < i2cClockSpeed -> 0 <= F_CPU < 2 ^ 32 ->
  let '(twbr, twsr) := I2C_setClock i2cClockSpeed TWSR0 in
  let raw := (F_CPU / i2cClockSpeed - 16) / 2 in
  (16 <= F_CPU / i2cClockSpeed ->
     0 <= twbr <= 255 /\
     i2cClockSpeed * scl_divisor twbr (TWPS twsr) <= F_CPU /\
     (raw / 64 <= 255 ->
        F_CPU < i2cClockSpeed * scl_divisor (twbr + 1) (TWPS twsr)) /\
     (255 < raw / 64 ->
        twbr = 255 /\ twsr = Z.lor TWSR0 0x03 /\ TWPS twsr = 3) /\
     (forall t p : Z,
        0 <= t <= 255 -> 0 <= p <= 3 ->
        i2cClockSpeed * scl_divisor t p <= F_CPU ->
        scl_divisor t p <= scl_divisor twbr (TWPS twsr))) /\
  (F_CPU / i2cClockSpeed < 16 ->
     twbr = 255 /\ twsr = Z.lor TWSR0 0x03 /\ TWPS twsr = 3).
Proof.
  intros Hs HF. unfold I2C_setClock.
  set (s := i2cClockSpeed) in *.
  pose proof (Z.div_mod F_CPU s ltac:(lia)) as Dq.
  pose proof (Z.mod_pos_bound F_CPU s Hs) as Bq.
  assert (Hq : 0 <= F_CPU / s < 2 ^ 32).
  { split; [apply Z.div_pos; lia |].
    apply Z.le_lt_trans with F_CPU; [| lia].
    apply Z.div_le_upper_bound; nia. }
  unfold u32 at 2. rewrite (Z.mod_small (F_CPU / s)) by exact Hq.
  destruct (Z.le_gt_cases 16 (F_CPU / s)) as [Hge | Hlt].
  - unfold u32. rewrite Z.mod_small by lia.
    set (raw := (F_CPU / s - 16) / 2).
    pose proof (Z.div_mod (F_CPU / s - 16) 2 ltac:(lia)) as Dr.
    pose proof (Z.mod_pos_bound (F_CPU / s - 16) 2 ltac:(lia)) as Br.
    fold raw in Dr.
    assert (Hraw : 0 <= raw) by (apply Z.div_pos; lia).
    pose proof (I2C_setClock_for_spec raw TWSR0 Hraw) as Hfor.
    pose proof (fun t p => I2C_setClock_for_largest raw TWSR0 t p Hraw) as Hbest.
    destruct (I2C_setClock_for [0; 1; 2; 3] raw TWSR0) as [twbr twsr].
    destruct Hfor as (Hb & Hle & Hclose & Hclamp).
    cbv zeta. split; [| lia]. intros _.
    unfold scl_divisor.
    split; [exact Hb |]. split; [nia |]. split; [| split].
    + intros Hfit. specialize (Hclose Hfit). nia.
    + intros Hbig. destruct (Hclamp Hbig) as [-> ->].
      rewrite TWPS_max. auto.
    + intros t p Ht Hp Hrate.
      assert (Hpow : 0 < 4 ^ p) by (apply Z.pow_pos_nonneg; lia).
      assert (Hdiv : 16 + 2 * t * 4 ^ p <= F_CPU / s).
      { apply Z.div_le_lower_bound; [exact Hs | exact Hrate]. }
      assert (Hprod : t * 4 ^ p <= raw).
      { unfold raw. apply Z.div_le_lower_bound; lia. }
      specialize (Hbest t p Ht Hp Hprod). lia.
  - cbv zeta.
    assert (Hw : u32 (F_CPU / s - 16) = 2 ^ 32 + (F_CPU / s - 16)).
    { unfold u32. symmetry. apply Z.mod_unique with (q := -1); lia. }
    rewrite Hw.
    set (raw := (2 ^ 32 + (F_CPU / s - 16)) / 2).
    assert (Hraw : 2 ^ 31 - 8 <= raw).
    { apply Z.div_le_lower_bound; lia. }
    pose proof (I2C_setClock_for_spec raw TWSR0 ltac:(lia)) as Hfor.
    destruct (I2C_setClock_for [0; 1; 2; 3] raw TWSR0) as [twbr twsr].
    destruct Hfor as (_ & _ & _ & Hclamp).
    split; [lia |]. intros _.
    assert (2 ^ 24 <= raw / 64) by (apply Z.div_le_lower_bound; lia).
    destruct Hclamp as [-> ->]; [lia |].
    rewrite TWPS_max. auto.
Qed.

(** *** The handler on arbitrary events *)

Lemma switch_on_default (twsr : Z) :
  ~ In twsr labelled_codes -> switch_on twsr = CASE_default.
Proof.
  unfold labelled_codes. cbn [In]. intros Hnot. unfold switch_on.
  repeat match goal with
         | |- context [twsr =? ?c] =>
             destruct (Z.eqb_spec twsr c) as [e | _]; [symmetry in e; exfalso; apply Hnot; tauto |]
         end.
  reflexivity.
Qed.

(** X1.  A status that is none of the eleven labelled codes (a bus error,
    "no state", or anything else), in whatever multiplexer phase: the data
    register is released, the STOP is issued, the completion status is
    TransmitError and the state Completed; counters, phase and request are
    left as they were. *)
Theorem unlabelled_status_is_transmit_error (regs : TWIRegs) (m : I2CManager) :
  pending regs ->
  ~ In (status_of regs) labelled_codes ->
  I2C_handleInterrupt regs m =
    {| state := I2C_STATE_COMPLETED;
       completionStatus := I2C_STATUS_TRANSMIT_ERROR;
       currentRequest := currentRequest m;
       txCount := txCount m; rxCount := rxCount m;
       bytesToSend := bytesToSend m; bytesToReceive := bytesToReceive m;
       operation := operation m; muxPhase := muxPhase m;
       _muxCount := _muxCount m;
       trace := trace m ++ [W_TWDR 0xff; W_TWCR TWCR_stop_ack] |}.
Proof.
  unfold pending, status_of. intros Hint Hcode.
  apply Z.eqb_neq in Hint. apply switch_on_default in Hcode.
  destruct m as [st cs rb tx rx bts btr op ph mc tr].
  unfold I2C_handleInterrupt, mux_switch, device_switch.
  rewrite Hint, Hcode. records.
  destruct (I2C_EXTENDED_ADDRESS && MuxPhase_gtb ph MuxPhase_OFF);
    rewrite <- app_assoc; reflexivity.
Qed.

(** X2.  One of the three NACK codes outside the Passthrough phase (no
    multiplexer in play, or the multiplexer itself refusing its address or
    the mask in Prolog or Epilog): the STOP is issued, the completion status
    is NegativeAcknowledge and the state Completed; nothing else is written
    and counters, phase and request are left as they were. *)
Theorem nack_outside_passthru_completes (regs : TWIRegs) (m : I2CManager) :
  pending regs ->
  reports_NACK regs = true ->
  in_passthru (muxPhase m) = false ->
  I2C_handleInterrupt regs m =
    {| state := I2C_STATE_COMPLETED;
       completionStatus := I2C_STATUS_NEGATIVE_ACKNOWLEDGE;
       currentRequest := currentRequest m;
       txCount := txCount m; rxCount := rxCount m;
       bytesToSend := bytesToSend m; bytesToReceive := bytesToReceive m;
       operation := operation m; muxPhase := muxPhase m;
       _muxCount := _muxCount m;
       trace := trace m ++ [W_TWCR TWCR_stop_ack] |}.
Proof.
  unfold pending, reports_NACK, in_passthru. intros Hint Hcode Hph.
  apply Z.eqb_neq in Hint.
  destruct m as [st cs rb tx rx bts btr op ph mc tr].
  cbn [muxPhase] in Hph.
  unfold I2C_handleInterrupt, mux_switch, device_switch.
  rewrite Hint. records. revert Hph.
  destruct (switch_on (Z.land (TWSR regs) 248)); try discriminate Hcode;
    destruct I2C_EXTENDED_ADDRESS, ph; cbn; intros Hph;
    try discriminate Hph; reflexivity.
Qed.

(** What one handled event writes, and what it does to the state. *)
Lemma handler_step_effects (regs : TWIRegs) (m : I2CManager) :
  pending regs ->
  exists pre v,
    trace (I2C_handleInterrupt regs m) = trace m ++ pre ++ [W_TWCR v] /\
    existsb is_TWCR_write pre = false /\
    (length pre <= 1)%nat /\
    ((state (I2C_handleInterrupt regs m) = I2C_STATE_COMPLETED /\
      (v = TWCR_stop \/ v = TWCR_stop_ack)) \/
     (state (I2C_handleInterrupt regs m) = state m /\
      (v = TWCR_start_ack \/ v = TWCR_continue \/ v = TWCR_continue_ack \/
       v = TWCR_start \/ v = TWCR_stop_start))).
Proof.
  unfold pending. intros Hint. apply Z.eqb_neq in Hint.
  destruct m as [st cs rb tx rx bts btr op ph mc tr].
  unfold_handler. rewrite Hint. handler_cases;
    match goal with
    | |- exists pre v, (?t ++ [?a]) ++ [W_TWCR ?w] = _ /\ _ => exists [a], w
    | |- exists pre v, ?t ++ [W_TWCR ?w] = _ /\ _ => exists [], w
    end;
    (split; [list_assoc; reflexivity |]);
    (split; [reflexivity |]);
    (split; [cbn [length]; lia |]);
    first [ left; split; [reflexivity | auto]
          | right; split; [reflexivity | auto 10] ].
Qed.

Lemma control_words_TWINT_TWEN (v : Z) :
  v = TWCR_start_ack \/ v = TWCR_continue \/ v = TWCR_continue_ack \/
  v = TWCR_start \/ v = TWCR_stop_start \/ v = TWCR_stop \/ v = TWCR_stop_ack ->
  Z.testbit v TWINT = true /\ Z.testbit v TWEN = true.
Proof.
  unfold TWCR_start_ack, TWCR_continue, TWCR_continue_ack, TWCR_start,
    TWCR_stop_start, TWCR_stop, TWCR_stop_ack, ENABLE_TWI_INTERRUPT.
  destruct I2C_USE_INTERRUPTS;
    intros [-> | [-> | [-> | [-> | [-> | [-> | ->]]]]]]; split; reflexivity.
Qed.

Lemma control_words_TWIE :
  Z.testbit TWCR_start_ack TWIE = I2C_USE_INTERRUPTS /\
  Z.testbit TWCR_continue TWIE = I2C_USE_INTERRUPTS /\
  Z.testbit TWCR_continue_ack TWIE = I2C_USE_INTERRUPTS /\
  Z.testbit TWCR_start TWIE = I2C_USE_INTERRUPTS /\
  Z.testbit TWCR_stop_start TWIE = I2C_USE_INTERRUPTS /\
  Z.testbit TWCR_stop TWIE = false /\
  Z.testbit TWCR_stop_ack TWIE = false.
Proof.
  unfold TWCR_start_ack, TWCR_continue, TWCR_continue_ack, TWCR_start,
    TWCR_stop_start, TWCR_stop, TWCR_stop_ack, ENABLE_TWI_INTERRUPT.
  destruct I2C_USE_INTERRUPTS; repeat split; reflexivity.
Qed.

(** X3.  Whatever the status and the driver's variables, a handled event
    (interrupt flag set) ends with exactly one write to the control
    register, preceded by at most one other effect (a data-register write or
    a store into the read buffer); the control word always has TWINT set,
    which clears the interrupt flag, and keeps the interface enabled
    (TWEN). *)
Theorem handled_event_writes_TWCR_once_and_last (regs : TWIRegs) (m : I2CManager) :
  pending regs ->
  exists pre v,
    trace (I2C_handleInterrupt regs m) = trace m ++ pre ++ [W_TWCR v] /\
    existsb is_TWCR_write pre = false /\
    (length pre <= 1)%nat /\
    Z.testbit v TWINT = true /\
    Z.testbit v TWEN = true.
Proof.
  intros Hint.
  destruct (handler_step_effects regs m Hint) as (pre & v & Htr & Hpre & Hlen & Hv).
  exists pre, v. repeat (split; [assumption |]).
  apply control_words_TWINT_TWEN. tauto.
Qed.

(** X4.  The state changes with the bus: a handled event makes the driver
    Completed exactly when the control word it writes issues a STOP without
    a START (with a START the multiplexer phases go on), and that word
    leaves the TWI interrupt disabled; otherwise the state is left as it
    was and the word enables the interrupt as the build says. *)
Theorem completed_iff_stop_without_start (regs : TWIRegs) (m : I2CManager) :
  pending regs ->
  state m <> I2C_STATE_COMPLETED ->
  exists l v,
    trace (I2C_handleInterrupt regs m) = l ++ [W_TWCR v] /\
    (state (I2C_handleInterrupt regs m) = I2C_STATE_COMPLETED <->
     Z.testbit v TWSTO = true /\ Z.testbit v TWSTA = false) /\
    (state (I2C_handleInterrupt regs m) = I2C_STATE_COMPLETED ->
     Z.testbit v TWIE = false) /\
    (state (I2C_handleInterrupt regs m) <> I2C_STATE_COMPLETED ->
     state (I2C_handleInterrupt regs m) = state m /\
     Z.testbit v TWIE = I2C_USE_INTERRUPTS).
Proof.
  intros Hint Hst.
  destruct (handler_step_effects regs m Hint) as (pre & v & Htr & _ & _ & Hv).
  exists (trace m ++ pre), v. split; [rewrite Htr, app_assoc; reflexivity |].
  destruct control_words_STOP as (S1 & S2 & S3 & S4 & S5 & S6 & S7).
  destruct control_words_START as (A1 & A2 & A3 & A4 & A5 & A6 & A7).
  destruct control_words_TWIE as (E1 & E2 & E3 & E4 & E5 & E6 & E7).
  destruct Hv as [[Hc Hv] | [Hc Hv]].
  - rewrite Hc.
    destruct Hv as [-> | ->]; (split; [tauto |]); (split; [auto |]);
      intros Hne; exfalso; apply Hne; reflexivity.
  - rewrite Hc.
    destruct Hv as [-> | [-> | [-> | [-> | ->]]]];
      (split; [split; [intros Heq; exfalso; apply Hst; exact Heq
                      | intros [H1 H2]; congruence] |]);
      (split; [intros Heq; exfalso; apply Hst; exact Heq |]);
      intros _; (split; [reflexivity | assumption]).
Qed.

(** One event keeps the request and never undoes a completion. *)
Lemma handler_keeps (regs : TWIRegs) (m : I2CManager) :
  same_request (currentRequest m) (currentRequest (I2C_handleInterrupt regs m)) /\
  operation (I2C_handleInterrupt regs m) = operation m /\
  _muxCount (I2C_handleInterrupt regs m) = _muxCount m /\
  (state (I2C_handleInterrupt regs m) = state m \/
   state (I2C_handleInterrupt regs m) = I2C_STATE_COMPLETED) /\
  (completionStatus (I2C_handleInterrupt regs m) = completionStatus m \/
   completionStatus (I2C_handleInterrupt regs m) <> I2C_STATUS_OK).
Proof.
  destruct m as [st cs rb tx rx bts btr op ph mc tr].
  destruct rb as [a rop wl wb rl rbuf].
  unfold same_request. unfold_handler. handler_cases;
    repeat split; auto;
    try (right; discriminate);
    rewrite ?length_insert; reflexivity.
Qed.

(** X5.  However many events are handled and whatever they are, the driver
    keeps the request it was given (address, operation, lengths, write
    buffer, size of the read buffer), its copy of the operation and the
    multiplexer count; a Completed driver stays Completed and a completion
    status other than Ok never goes back to Ok. *)
Theorem events_keep_request_and_completion (events : list TWIRegs) (m : I2CManager) :
  same_request (currentRequest m) (currentRequest (run events m)) /\
  operation (run events m) = operation m /\
  _muxCount (run events m) = _muxCount m /\
  (state m = I2C_STATE_COMPLETED -> state (run events m) = I2C_STATE_COMPLETED) /\
  (completionStatus m <> I2C_STATUS_OK ->
   completionStatus (run events m) <> I2C_STATUS_OK).
Proof.
  apply (run_invariant (fun _ => True)
           (fun m' =>
              same_request (currentRequest m) (currentRequest m') /\
              operation m' = operation m /\
              _muxCount m' = _muxCount m /\
              (state m = I2C_STATE_COMPLETED -> state m' = I2C_STATE_COMPLETED) /\
              (completionStatus m <> I2C_STATUS_OK ->
               completionStatus m' <> I2C_STATUS_OK))).
  - intros regs m1 _ (Hrb & Hop & Hmc & Hst & Hcs).
    destruct (handler_keeps regs m1) as (Hrb1 & Hop1 & Hmc1 & Hst1 & Hcs1).
    unfold same_request in *.
    destruct Hrb as (R1 & R2 & R3 & R4 & R5 & R6).
    destruct Hrb1 as (Q1 & Q2 & Q3 & Q4 & Q5 & Q6).
    repeat split; try congruence.
    + intros Hc. destruct Hst1 as [-> | ->]; auto.
    + intros Hc. destruct Hcs1 as [-> | Hne]; auto.
  - apply Forall_True.
  - unfold same_request. repeat split; auto.
Qed.

(** *** Edge cases of the device state machine *)

Lemma step_finish_rx_empty st cs rb tx rx bts btr op ph mc tr byte :
  device_phase ph -> btr <= 0 ->
  I2C_handleInterrupt (received TWI_MRX_DATA_NACK byte)
    {| state := st; completionStatus := cs; currentRequest := rb;
       txCount := tx; rxCount := rx; bytesToSend := bts; bytesToReceive := btr;
       operation := op; muxPhase := ph; _muxCount := mc; trace := tr |} =
    {| state := finish_state ph mc st; completionStatus := cs;
       currentRequest := rb;
       txCount := tx; rxCount := rx; bytesToSend := bts; bytesToReceive := btr;
       operation := op; muxPhase := finish_phase ph mc; _muxCount := mc;
       trace := tr ++ [W_TWCR (finish_word ph mc)] |}.
Proof.
  intros Hph Hbtr. apply Z.ltb_ge in Hbtr.
  unfold finish_state, finish_phase, finish_word, in_passthru.
  handler; rewrite Hbtr; records;
    phase_cases Hph; cbn; try destruct (1 <? mc); cbn; reflexivity.
Qed.

Lemma device_zero_read rb mc (byte : Z) :
  rb_operation rb = OPERATION_READ \/
  (rb_operation rb = OPERATION_REQUEST /\ writeLen rb = 0) ->
  readLen rb = 0 ->
  device_transaction rb mc (zero_read_events byte)
    {| state := I2C_STATE_COMPLETED; completionStatus := I2C_STATUS_OK;
       currentRequest := rb; txCount := 0; rxCount := 0;
       bytesToSend := writeLen rb; bytesToReceive := 0;
       operation := rb_operation rb; muxPhase := MuxPhase_OFF;
       _muxCount := 0; trace := [] |}
    [W_TWDR (SLA_R (i2cAddress rb)); W_TWCR TWCR_continue_ack;
     W_TWCR TWCR_continue].
Proof.
  intros Hop Hr ph tr Hph.
  unfold zero_read_events. rewrite !run_cons, run_nil.
  rewrite step_start by auto.
  rewrite step_rx_adr_ack.
  rewrite step_finish_rx_empty by (auto; lia).
  assert (Haddr : address_byte (rb_operation rb) (writeLen rb) (i2cAddress rb)
                  = SLA_R (i2cAddress rb)).
  { unfold address_byte. destruct Hop as [-> | [-> ->]]; reflexivity. }
  rewrite Haddr, Hr.
  cbn [completionStatus currentRequest txCount rxCount bytesToSend bytesToReceive].
  f_equal. list_assoc. reflexivity.
Qed.

(** X6.  A read of no byte (operation Read, or Request with nothing to
    write, and [readLen] 0), routed through a multiplexer or not: after the
    address in read direction the NACK is armed at once, the one byte the
    device then delivers is discarded, and the transaction completes with
    status Ok; the read buffer is not written and [rxCount] stays 0. *)
Theorem zero_length_read_discards_byte (rb : I2CRB) (m0 : I2CManager) (byte : Z) :
  mux_routed (i2cAddress rb) = false \/ deviceAddress (i2cAddress rb) <> 0 ->
  rb_operation rb = OPERATION_READ \/
  (rb_operation rb = OPERATION_REQUEST /\ writeLen rb = 0) ->
  readLen rb = 0 ->
  exists ph,
    run (enveloped (i2cAddress rb) (_muxCount m0) (zero_read_events byte))
        (beginTransaction rb m0) =
      {| state := I2C_STATE_COMPLETED; completionStatus := I2C_STATUS_OK;
         currentRequest := rb; txCount := 0; rxCount := 0;
         bytesToSend := writeLen rb; bytesToReceive := 0;
         operation := rb_operation rb; muxPhase := ph;
         _muxCount := _muxCount m0;
         trace := trace m0 ++ opening (i2cAddress rb)
                  ++ [W_TWDR (SLA_R (i2cAddress rb)); W_TWCR TWCR_continue_ack;
                      W_TWCR TWCR_continue]
                  ++ closing (i2cAddress rb) (_muxCount m0) |}.
Proof.
  intros Hroute Hop Hr.
  destruct (enveloped_run rb m0 _ _ _ Hroute
              (device_zero_read rb (_muxCount m0) byte Hop Hr) eq_refl)
    as (ph & _ & Hrun).
  exists ph. exact Hrun.
Qed.

Lemma step_probe st cs rb tx rx op ph mc tr :
  device_phase ph ->
  I2C_handleInterrupt (event TWI_MTX_ADR_ACK)
    {| state := st; completionStatus := cs; currentRequest := rb;
       txCount := tx; rxCount := rx; bytesToSend := 0; bytesToReceive := 0;
       operation := op; muxPhase := ph; _muxCount := mc; trace := tr |} =
    {| state := I2C_STATE_COMPLETED; completionStatus := cs;
       currentRequest := rb;
       txCount := tx; rxCount := rx; bytesToSend := 0; bytesToReceive := 0;
       operation := op; muxPhase := ph; _muxCount := mc;
       trace := tr ++ [W_TWCR TWCR_stop_ack] |}.
Proof.
  intros Hph. handler; phase_cases Hph; cbn; reflexivity.
Qed.

(** X7.  A write of no byte (operation Send or Send from flash, [writeLen]
    and [readLen] 0), as used to probe for a device: the acknowledged
    address completes the transaction with status Ok and the STOP of the
    device state machine.  Routed through a multiplexer this holds however
    many multiplexers are configured: the Epilog is not run and the phase is
    left at Passthrough. *)
Theorem zero_length_write_completes_on_address (rb : I2CRB) (m0 : I2CManager) :
  mux_routed (i2cAddress rb) = false \/ deviceAddress (i2cAddress rb) <> 0 ->
  rb_operation rb = OPERATION_SEND \/ rb_operation rb = OPERATION_SEND_P ->
  writeLen rb = 0 -> readLen rb = 0 ->
  exists ph,
    (mux_routed (i2cAddress rb) = true -> ph = MuxPhase_PASSTHRU) /\
    run ((if mux_routed (i2cAddress rb) then mux_events else []) ++ probe_events)
        (beginTransaction rb m0) =
      {| state := I2C_STATE_COMPLETED; completionStatus := I2C_STATUS_OK;
         currentRequest := rb; txCount := 0; rxCount := 0;
         bytesToSend := 0; bytesToReceive := 0;
         operation := rb_operation rb; muxPhase := ph;
         _muxCount := _muxCount m0;
         trace := trace m0 ++ opening (i2cAddress rb)
                  ++ [W_TWDR (SLA_W (i2cAddress rb)); W_TWCR TWCR_continue_ack;
                      W_TWCR TWCR_stop_ack] |}.
Proof.
  intros Hroute Hop Hw Hr.
  assert (Haddr : address_byte (rb_operation rb) 0 (i2cAddress rb)
                  = SLA_W (i2cAddress rb)).
  { unfold address_byte. destruct Hop as [-> | ->]; reflexivity. }
  unfold opening, probe_events.
  destruct (mux_routed (i2cAddress rb)) eqn:Hmux.
  - destruct Hroute as [? | Hdev]; [discriminate |].
    destruct (beginTransaction_mux rb m0 Hmux) as [Hext ->].
    exists MuxPhase_PASSTHRU. split; [reflexivity |].
    rewrite run_app, prolog_run by assumption.
    rewrite !run_cons, run_nil, Hw, Hr.
    rewrite step_start by (right; right; reflexivity) || auto.
    rewrite step_probe by (right; right; reflexivity).
    rewrite Haddr. f_equal. list_assoc. reflexivity.
  - destruct (beginTransaction_plain rb m0 Hmux) as [Hidle ->].
    exists (muxPhase (beginTransaction rb m0)). split; [discriminate |].
    cbn [app]. rewrite !run_cons, run_nil, Hw, Hr.
    rewrite step_start by (auto using mux_idle_device_phase).
    rewrite step_probe by (auto using mux_idle_device_phase).
    rewrite Haddr. f_equal. list_assoc. reflexivity.
Qed.

Lemma send_loop_part st cs rb rx btr op ph mc (j : nat) :
  forall tx bts tr,
  device_phase ph -> Z.of_nat j <= bts -> 0 <= tx ->
  tx + bts <= Z.of_nat (length (writeBuffer rb)) -> tx + bts < 256 ->
  run (repeat (event TWI_MTX_DATA_ACK) j)
    {| state := st; completionStatus := cs; currentRequest := rb;
       txCount := tx; rxCount := rx; bytesToSend := bts; bytesToReceive := btr;
       operation := op; muxPhase := ph; _muxCount := mc; trace := tr |} =
    {| state := st; completionStatus := cs; currentRequest := rb;
       txCount := tx + Z.of_nat j; rxCount := rx;
       bytesToSend := bts - Z.of_nat j; bytesToReceive := btr;
       operation := op; muxPhase := ph; _muxCount := mc;
       trace := tr ++ transmitted (take j (drop (Z.to_nat tx) (writeBuffer rb))) |}.
Proof.
  induction j as [| j IH]; intros tx bts tr Hph Hj Htx Hlen Hmax.
  - cbn [repeat]. rewrite run_nil. rewrite take_0. cbn [transmitted flat_map].
    rewrite app_nil_r. f_equal; lia.
  - cbn [repeat]. rewrite run_cons.
    rewrite step_send by (auto; lia).
    rewrite !u8_small by lia.
    rewrite (IH (tx + 1) (bts - 1)) by (auto; lia).
    rewrite (drop_buffer_at (writeBuffer rb) tx) by lia.
    replace (Z.to_nat (tx + 1)) with (S (Z.to_nat tx)) by lia.
    cbn [take transmitted flat_map app]. rewrite <- app_assoc.
    f_equal; lia.
Qed.

Lemma step_nack st cs rb tx rx bts btr op ph mc tr code :
  mux_idle ph ->
  code = TWI_MTX_ADR_NACK \/ code = TWI_MRX_ADR_NACK \/ code = TWI_MTX_DATA_NACK ->
  I2C_handleInterrupt (event code)
    {| state := st; completionStatus := cs; currentRequest := rb;
       txCount := tx; rxCount := rx; bytesToSend := bts; bytesToReceive := btr;
       operation := op; muxPhase := ph; _muxCount := mc; trace := tr |} =
    {| state := I2C_STATE_COMPLETED;
       completionStatus := I2C_STATUS_NEGATIVE_ACKNOWLEDGE;
       currentRequest := rb;
       txCount := tx; rxCount := rx; bytesToSend := bts; bytesToReceive := btr;
       operation := op; muxPhase := ph; _muxCount := mc;
       trace := tr ++ [W_TWCR TWCR_stop_ack] |}.
Proof.
  intros Hph Hc. unfold mux_idle in Hph.
  destruct Hc as [-> | [-> | ->]]; handler;
    (destruct I2C_EXTENDED_ADDRESS;
     [ destruct Hph as [Hph | Hph]; [discriminate Hph | subst ph] | ]);
    cbn; reflexivity.
Qed.

(** X8.  A write, not routed through a multiplexer, that the device refuses
    after [k] bytes were loaded ([k = 0]: it refuses its address): exactly
    the first [k] bytes of the write buffer were put into the data
    register, the STOP follows the NACK at once, the completion status is
    NegativeAcknowledge, and [txCount] and [bytesToSend] tell how far the
    write came. *)
Theorem nacked_write_stops_after_k_bytes (rb : I2CRB) (m0 : I2CManager) (k : nat) :
  mux_routed (i2cAddress rb) = false ->
  rb_operation rb <> OPERATION_READ ->
  0 < writeLen rb < 256 ->
  Z.of_nat k <= writeLen rb ->
  writeLen rb <= Z.of_nat (length (writeBuffer rb)) ->
  exists ph,
    run (nacked_write_events k) (beginTransaction rb m0) =
      {| state := I2C_STATE_COMPLETED;
         completionStatus := I2C_STATUS_NEGATIVE_ACKNOWLEDGE;
         currentRequest := rb;
         txCount := Z.of_nat k; rxCount := 0;
         bytesToSend := writeLen rb - Z.of_nat k;
         bytesToReceive := readLen rb;
         operation := rb_operation rb; muxPhase := ph;
         _muxCount := _muxCount m0;
         trace := trace m0
                  ++ [W_TWCR TWCR_start_ack;
                      W_TWDR (SLA_W (i2cAddress rb)); W_TWCR TWCR_continue_ack]
                  ++ transmitted (take k (writeBuffer rb))
                  ++ [W_TWCR TWCR_stop_ack] |}.
Proof.
  intros Hmux Hop Hw Hk Hlen.
  destruct (beginTransaction_plain rb m0 Hmux) as [Hidle ->].
  exists (muxPhase (beginTransaction rb m0)).
  assert (Hph := mux_idle_device_phase _ Hidle).
  assert (Haddr : address_byte (rb_operation rb) (writeLen rb) (i2cAddress rb)
                  = SLA_W (i2cAddress rb)).
  { unfold address_byte. destruct (rb_operation rb); try reflexivity; try congruence.
    destruct (Z.eqb_spec (writeLen rb) 0); [lia | reflexivity]. }
  unfold nacked_write_events. rewrite run_cons.
  rewrite step_start by auto. rewrite Haddr.
  destruct k as [| j].
  - rewrite run_cons, run_nil.
    rewrite step_nack by auto.
    cbn [take transmitted flat_map app].
    f_equal; [lia | list_assoc; reflexivity].
  - rewrite run_cons.
    rewrite step_send by (auto; lia).
    rewrite !u8_small by lia.
    rewrite run_app.
    rewrite (send_loop_part _ _ _ _ _ _ _ _ j (0 + 1) (writeLen rb - 1))
      by (auto; lia).
    rewrite run_cons, run_nil.
    rewrite step_nack by auto.
    rewrite (take_S_buffer_at (writeBuffer rb) j) by lia.
    change (Z.to_nat (0 + 1)) with 1%nat.
    cbn [transmitted flat_map app].
    f_equal; [lia | lia | list_assoc; reflexivity].
Qed.

Lemma readdressed_run st cs rb tx rx btr op ph mc (k : nat) :
  forall tr,
  device_phase ph -> btr <> 0 ->
  op = OPERATION_SEND \/ op = OPERATION_SEND_P ->
  run (readdressed k)
    {| state := st; completionStatus := cs; currentRequest := rb;
       txCount := tx; rxCount := rx; bytesToSend := 0; bytesToReceive := btr;
       operation := op; muxPhase := ph; _muxCount := mc; trace := tr |} =
    {| state := st; completionStatus := cs; currentRequest := rb;
       txCount := tx; rxCount := rx; bytesToSend := 0; bytesToReceive := btr;
       operation := op; muxPhase := ph; _muxCount := mc;
       trace := tr ++ concat (repeat [W_TWDR (SLA_W (i2cAddress rb));
                                       W_TWCR TWCR_continue_ack;
                                       W_TWCR TWCR_start] k) |}.
Proof.
  induction k as [| k IH]; intros tr Hph Hbtr Hop.
  - cbn [readdressed repeat concat]. rewrite run_nil, app_nil_r. reflexivity.
  - cbn [readdressed repeat concat]. rewrite !run_cons.
    rewrite step_start by auto.
    rewrite step_restart by auto.
    rewrite IH by auto.
    assert (Haddr : address_byte op 0 (i2cAddress rb) = SLA_W (i2cAddress rb)).
    { unfold address_byte. destruct Hop as [-> | ->]; reflexivity. }
    rewrite Haddr. f_equal. list_assoc. reflexivity.
Qed.

(** X9.  A request whose operation is Send (or Send from flash) but whose
    [readLen] is not 0, not routed through a multiplexer: once the write
    buffer is out, the handler issues a repeated START for the read, then
    sends the address in write direction again because the operation is
    not a read, and on its acknowledgement issues the next repeated START.
    As long as the device acknowledges, the driver stays Active and no
    STOP is issued; nothing is ever received. *)
Theorem send_with_readLen_never_completes (rb : I2CRB) (m0 : I2CManager) (n k : nat) :
  mux_routed (i2cAddress rb) = false ->
  rb_operation rb = OPERATION_SEND \/ rb_operation rb = OPERATION_SEND_P ->
  writeLen rb = Z.of_nat n -> (0 < n)%nat -> writeLen rb < 256 ->
  (n <= length (writeBuffer rb))%nat ->
  readLen rb <> 0 ->
  let m := run (write_events n ++ readdressed k) (beginTransaction rb m0) in
  state m = I2C_STATE_ACTIVE /\
  completionStatus m = I2C_STATUS_OK /\
  currentRequest m = rb /\
  rxCount m = 0 /\
  bytesToReceive m = readLen rb /\
  trace m = trace m0
            ++ [W_TWCR TWCR_start_ack;
                W_TWDR (SLA_W (i2cAddress rb)); W_TWCR TWCR_continue_ack]
            ++ transmitted (take n (writeBuffer rb))
            ++ [W_TWCR TWCR_start]
            ++ concat (repeat [W_TWDR (SLA_W (i2cAddress rb));
                               W_TWCR TWCR_continue_ack;
                               W_TWCR TWCR_start] k) /\
  Forall (fun e => issues_STOP e = false) (drop (length (trace m0)) (trace m)).
Proof.
  intros Hmux Hop Hw Hn Hmax Hlen Hr m. subst m.
  destruct (beginTransaction_plain rb m0 Hmux) as [Hidle ->].
  assert (Hph := mux_idle_device_phase _ Hidle).
  destruct n as [| j]; [lia |].
  unfold write_events. cbn [repeat].
  rewrite repeat_cons, !app_assoc, run_app, run_app.
  rewrite <- app_assoc.
  rewrite write_segment
    by (auto; try lia; destruct Hop as [-> | ->]; discriminate).
  rewrite run_cons, run_nil.
  rewrite step_restart by auto.
  rewrite readdressed_run by auto.
  cbn [state completionStatus currentRequest rxCount bytesToReceive trace].
  repeat (split; [reflexivity |]).
  split; [list_assoc; reflexivity |].
  list_assoc. rewrite drop_app_length.
  destruct control_words_STOP as (S1 & S2 & S3 & S4 & _).
  constructor; [exact S1 |]. constructor; [reflexivity |].
  constructor; [exact S3 |].
  apply Forall_app. split; [apply transmitted_no_STOP |].
  constructor; [exact S4 |].
  induction k as [| k IH]; cbn [repeat concat app]; [constructor |].
  constructor; [reflexivity |]. constructor; [exact S3 |].
  constructor; [exact S4 |]. exact IH.
Qed.

(** *** Arbitration lost and recovered *)

Lemma arbitration_lost_begins_again (m : I2CManager) :
  state m = I2C_STATE_ACTIVE ->
  completionStatus m = I2C_STATUS_OK ->
  operation m = rb_operation (currentRequest m) ->
  I2C_handleInterrupt (event TWI_ARB_LOST) m = beginTransaction (currentRequest m) m.
Proof.
  destruct m as [st cs rb tx rx bts btr op ph mc tr].
  cbn [state completionStatus operation currentRequest].
  intros -> -> ->.
  handler. unfold beginTransaction.
  destruct (I2C_EXTENDED_ADDRESS && MuxPhase_gtb ph MuxPhase_OFF);
    cbv iota; reflexivity.
Qed.

(** X10.  Arbitration lost and recovered.  The driver being Active with
    status Ok on a write request (the operation copied from it), at
    whatever point of the transaction and in whatever multiplexer phase: an
    arbitration-lost status followed by the events of an undisturbed write
    sends the whole transaction again from its START (multiplexer Prolog and
    address included, the write buffer from byte 0) and completes with
    status Ok. *)
Theorem write_completes_after_arbitration_lost (m : I2CManager) (n : nat) :
  state m = I2C_STATE_ACTIVE ->
  completionStatus m = I2C_STATUS_OK ->
  operation m = rb_operation (currentRequest m) ->
  mux_routed (i2cAddress (currentRequest m)) = false \/
  deviceAddress (i2cAddress (currentRequest m)) <> 0 ->
  transfers (currentRequest m) (Write_of n) ->
  exists ph,
    run (event TWI_ARB_LOST ::
         enveloped (i2cAddress (currentRequest m)) (_muxCount m) (write_events n)) m =
      {| state := I2C_STATE_COMPLETED; completionStatus := I2C_STATUS_OK;
         currentRequest := currentRequest m;
         txCount := writeLen (currentRequest m); rxCount := 0;
         bytesToSend := 0; bytesToReceive := 0;
         operation := operation m; muxPhase := ph;
         _muxCount := _muxCount m;
         trace := trace m ++ opening (i2cAddress (currentRequest m))
                  ++ ([W_TWDR (SLA_W (i2cAddress (currentRequest m)));
                       W_TWCR TWCR_continue_ack]
                      ++ transmitted (take n (writeBuffer (currentRequest m))))
                  ++ closing (i2cAddress (currentRequest m)) (_muxCount m) |}.
Proof.
  intros Hst Hcs Hop Hroute (Ho & Hw & Hn & Hmax & Hr & Hlen).
  rewrite run_cons, arbitration_lost_begins_again by assumption.
  destruct (enveloped_run (currentRequest m) m _ _ _ Hroute
              (device_write (currentRequest m) (_muxCount m) n Ho Hw Hn Hmax Hr Hlen)
              eq_refl)
    as (ph & _ & Hrun).
  exists ph. rewrite Hrun.
  cbn [settled completionStatus currentRequest txCount rxCount bytesToSend
       bytesToReceive].
  rewrite Hr, Hop. reflexivity.
Qed.

(** *** More on the clock *)

Lemma land_lor_252 (t p : Z) :
  0 <= p <= 3 -> Z.land (Z.lor (Z.land t 0xfc) p) 0xfc = Z.land t 0xfc.
Proof.
  intros Hp.
  rewrite Z.land_lor_distr_l, <- Z.land_assoc.
  change (Z.land 252 252) with 252.
  assert (p = 0 \/ p = 1 \/ p = 2 \/ p = 3) as [-> | [-> | [-> | ->]]] by lia;
    change (Z.land _ 252) with 0 at 2 || idtac; apply Z.lor_0_r.
Qed.

Lemma land_lor_3_252 (t : Z) : Z.land (Z.lor t 0x03) 0xfc = Z.land t 0xfc.
Proof.
  rewrite Z.land_lor_distr_l. change (Z.land 3 252) with 0. apply Z.lor_0_r.
Qed.

Lemma I2C_setClock_for_bits raw t0 :
  0 <= raw ->
  let '(twbr, twsr) := I2C_setClock_for [0; 1; 2; 3] raw t0 in
  0 <= twbr <= 255 /\ Z.land twsr 0xfc = Z.land t0 0xfc.
Proof.
  intros Hraw. cbn [I2C_setClock_for].
  assert (0 <= raw / 4) by (apply Z.div_pos; lia).
  assert (0 <= raw / 4 / 4) by (apply Z.div_pos; lia).
  assert (0 <= raw / 4 / 4 / 4) by (apply Z.div_pos; lia).
  destruct (Z.leb_spec raw 255); [rewrite land_lor_252 by lia; lia |].
  destruct (Z.leb_spec (raw / 4) 255); [rewrite land_lor_252 by lia; lia |].
  destruct (Z.leb_spec (raw / 4 / 4) 255); [rewrite land_lor_252 by lia; lia |].
  destruct (Z.leb_spec (raw / 4 / 4 / 4) 255); [rewrite land_lor_252 by lia; lia |].
  rewrite land_lor_3_252. lia.
Qed.

(** X11.  Whatever rate is asked for and whatever the processor clock, the
    divisor [I2C_setClock] programs fits the 8-bit register, and of the
    status register only the two prescaler bits are changed. *)
Theorem I2C_setClock_changes_prescaler_bits_only (i2cClockSpeed TWSR0 : Z) :
  0 < i2cClockSpeed ->
  let '(twbr, twsr) := I2C_setClock i2cClockSpeed TWSR0 in
  0 <= twbr <= 255 /\
  Z.land twsr 0xfc = Z.land TWSR0 0xfc /\
  0 <= TWPS twsr <= 3.
Proof.
  intros _. unfold I2C_setClock.
  assert (Hraw : 0 <= u32 (u32 (F_CPU / i2cClockSpeed) - 16) / 2).
  { apply Z.div_pos; [| lia]. unfold u32 at 1.
    apply Z.mod_pos_bound. reflexivity. }
  pose proof (I2C_setClock_for_bits _ TWSR0 Hraw) as Hbits.
  destruct (I2C_setClock_for [0; 1; 2; 3] _ TWSR0) as [twbr twsr].
  destruct Hbits as [Hb Hs]. split; [exact Hb |]. split; [exact Hs |].
  unfold TWPS. change 3 with (Z.ones 2) at 1 2. rewrite Z.land_ones by lia.
  pose proof (Z.mod_pos_bound twsr (2 ^ 2) ltac:(lia)). change (2 ^ 2) with 4 in *.
  change (Z.ones 2) with 3. lia.
Qed.

Lemma I2C_setClock_for_canonical (t p t0 : Z) :
  0 <= t <= 255 -> 0 <= p <= 3 -> (p = 0 \/ 64 <= t) ->
  I2C_setClock_for [0; 1; 2; 3] (t * 4 ^ p) t0 = (t, Z.lor (Z.land t0 0xfc) p).
Proof.
  intros Ht Hp Hmin. cbn [I2C_setClock_for].
  assert (p = 0 \/ p = 1 \/ p = 2 \/ p = 3) as [-> | [-> | [-> | ->]]] by lia.
  - change (4 ^ 0) with 1. rewrite Z.mul_1_r.
    destruct (Z.leb_spec t 255); [reflexivity | lia].
  - change (4 ^ 1) with 4.
    destruct (Z.leb_spec (t * 4) 255); [lia |].
    rewrite Z.div_mul by lia.
    destruct (Z.leb_spec t 255); [reflexivity | lia].
  - change (4 ^ 2) with (4 * 4). rewrite Z.mul_assoc.
    destruct (Z.leb_spec (t * 4 * 4) 255); [lia |].
    rewrite Z.div_mul by lia.
    destruct (Z.leb_spec (t * 4) 255); [lia |].
    rewrite Z.div_mul by lia.
    destruct (Z.leb_spec t 255); [reflexivity | lia].
  - change (4 ^ 3) with (4 * 4 * 4). rewrite !Z.mul_assoc.
    destruct (Z.leb_spec (t * 4 * 4 * 4) 255); [lia |].
    rewrite Z.div_mul by lia.
    destruct (Z.leb_spec (t * 4 * 4) 255); [lia |].
    rewrite Z.div_mul by lia.
    destruct (Z.leb_spec (t * 4) 255); [lia |].
    rewrite Z.div_mul by lia.
    destruct (Z.leb_spec t 255); [reflexivity | lia].
Qed.

(** X12.  Round trip.  Take a register setting in the form the loop
    produces (divisor [t] of 8 bits, prescaler [p] of 2 bits, and [t] at
    least 64 unless [p] is 0, so that no smaller prescaler would do).  When
    the requested rate is exactly the one this setting generates from the
    processor clock, [I2C_setClock] programs this very setting. *)
Theorem I2C_setClock_recovers_exact_setting (i2cClockSpeed TWSR0 t p : Z) :
  0 < i2cClockSpeed -> 0 <= F_CPU < 2 ^ 32 ->
  0 <= t <= 255 -> 0 <= p <= 3 -> (p = 0 \/ 64 <= t) ->
  F_CPU = i2cClockSpeed * scl_divisor t p ->
  I2C_setClock i2cClockSpeed TWSR0 = (t, Z.lor (Z.land TWSR0 0xfc) p) /\
  TWPS (snd (I2C_setClock i2cClockSpeed TWSR0)) = p.
Proof.
  intros Hs HF Ht Hp Hmin HFs.
  assert (Hpow : 1 <= 4 ^ p <= 64).
  { assert (p = 0 \/ p = 1 \/ p = 2 \/ p = 3) as [-> | [-> | [-> | ->]]] by lia;
      cbv; split; discriminate. }
  assert (Hq : F_CPU / i2cClockSpeed = 16 + 2 * t * 4 ^ p).
  { rewrite HFs. unfold scl_divisor. rewrite Z.mul_comm. apply Z.div_mul. lia. }
  assert (Heq : I2C_setClock i2cClockSpeed TWSR0
                = (t, Z.lor (Z.land TWSR0 0xfc) p)).
  { unfold I2C_setClock. rewrite Hq.
    unfold u32. rewrite (Z.mod_small (16 + 2 * t * 4 ^ p)) by nia.
    replace (16 + 2 * t * 4 ^ p - 16) with (t * 4 ^ p * 2) by lia.
    rewrite Z.mod_small by nia.
    rewrite Z.div_mul by lia.
    apply I2C_setClock_for_canonical; assumption. }
  split; [exact Heq |].
  rewrite Heq. cbn [snd]. apply TWPS_set. exact Hp.
Qed.

Lemma I2C_setClock_for_monotone raw1 raw2 t0 t0' :
  0 <= raw2 <= raw1 ->
  divisor_of (I2C_setClock_for [0; 1; 2; 3] raw2 t0')
  <= divisor_of (I2C_setClock_for [0; 1; 2; 3] raw1 t0).
Proof.
  intros Hraw. unfold divisor_of, scl_divisor. cbn [I2C_setClock_for].
  pose proof (Z.div_mod raw1 4 ltac:(lia)) as D1.
  pose proof (Z.mod_pos_bound raw1 4 ltac:(lia)) as B1.
  pose proof (Z.div_mod (raw1 / 4) 4 ltac:(lia)) as D2.
  pose proof (Z.mod_pos_bound (raw1 / 4) 4 ltac:(lia)) as B2.
  pose proof (Z.div_mod (raw1 / 4 / 4) 4 ltac:(lia)) as D3.
  pose proof (Z.mod_pos_bound (raw1 / 4 / 4) 4 ltac:(lia)) as B3.
  pose proof (Z.div_mod raw2 4 ltac:(lia)) as E1.
  pose proof (Z.mod_pos_bound raw2 4 ltac:(lia)) as C1.
  pose proof (Z.div_mod (raw2 / 4) 4 ltac:(lia)) as E2.
  pose proof (Z.mod_pos_bound (raw2 / 4) 4 ltac:(lia)) as C2.
  pose proof (Z.div_mod (raw2 / 4 / 4) 4 ltac:(lia)) as E3.
  pose proof (Z.mod_pos_bound (raw2 / 4 / 4) 4 ltac:(lia)) as C3.
  destruct (Z.leb_spec raw1 255);
    [| destruct (Z.leb_spec (raw1 / 4) 255);
       [| destruct (Z.leb_spec (raw1 / 4 / 4) 255);
          [| destruct (Z.leb_spec (raw1 / 4 / 4 / 4) 255)]]];
  (destruct (Z.leb_spec raw2 255);
    [| destruct (Z.leb_spec (raw2 / 4) 255);
       [| destruct (Z.leb_spec (raw2 / 4 / 4) 255);
          [| destruct (Z.leb_spec (raw2 / 4 / 4 / 4) 255)]]]);
  cbn [fst snd]; rewrite ?TWPS_set by lia; rewrite ?TWPS_max;
  change (4 ^ 0) with 1; change (4 ^ 1) with 4; change (4 ^ 2) with 16;
  change (4 ^ 3) with 64; lia.
Qed.

(** X13.  As long as the processor clock is at least 16 times the rate
    asked for, asking for a faster rate never programs a larger clock
    divisor, hence never a slower bus, whatever prescaler each request ends
    up with. *)
Theorem I2C_setClock_monotone (speed1 speed2 TWSR1 TWSR2 : Z) :
  0 < speed1 <= speed2 -> 0 <= F_CPU < 2 ^ 32 ->
  16 <= F_CPU / speed2 ->
  divisor_of (I2C_setClock speed2 TWSR2) <= divisor_of (I2C_setClock speed1 TWSR1).
Proof.
  intros Hs HF H16. unfold I2C_setClock.
  assert (Hq : F_CPU / speed2 <= F_CPU / speed1).
  { apply Z.div_le_compat_l; lia. }
  assert (Hb1 : F_CPU / speed1 <= F_CPU).
  { apply Z.div_le_upper_bound; nia. }
  unfold u32. rewrite !(Z.mod_small (F_CPU / _)) by lia.
  rewrite !Z.mod_small by lia.
  apply I2C_setClock_for_monotone. split.
  - apply Z.div_pos; lia.
  - apply Z.div_le_mono; lia.
Qed.

(** X14.  [I2C_init] and [I2C_setClock].  The processor clock being at
    least 16 times [I2C_FREQ]: when the divisor for [I2C_FREQ] fits 8 bits,
    [I2C_init] leaves the bit-rate and status registers exactly as
    [I2C_setClock] called for [I2C_FREQ] on a cleared status register does;
    when it does not fit, [I2C_init] keeps its low byte with prescaler 0,
    which is a smaller divisor, hence a faster bus, than [I2C_setClock]
    programs for the same rate. *)
Theorem I2C_init_agrees_with_setClock :
  0 < I2C_FREQ -> 0 <= F_CPU < 2 ^ 32 -> 16 <= F_CPU / I2C_FREQ ->
  let raw := (F_CPU / I2C_FREQ - 16) / 2 in
  init_TWSR I2C_init = 0 /\
  init_TWBR I2C_init = raw mod 256 /\
  (raw <= 255 ->
   (init_TWBR I2C_init, init_TWSR I2C_init) = I2C_setClock I2C_FREQ 0) /\
  (255 < raw ->
   divisor_of (init_TWBR I2C_init, init_TWSR I2C_init)
   < divisor_of (I2C_setClock I2C_FREQ 0)).
Proof.
  intros Hs HF H16 raw.
  assert (Hb : F_CPU / I2C_FREQ <= F_CPU).
  { apply Z.div_le_upper_bound; nia. }
  assert (Hraw : 0 <= raw) by (apply Z.div_pos; lia).
  assert (Hquot : TWI_TWBR = raw).
  { unfold TWI_TWBR, raw.
    rewrite (Z.quot_div_nonneg F_CPU I2C_FREQ) by lia.
    apply Z.quot_div_nonneg; lia. }
  assert (Hset : I2C_setClock I2C_FREQ 0 = I2C_setClock_for [0; 1; 2; 3] raw 0).
  { unfold I2C_setClock, u32. rewrite (Z.mod_small (F_CPU / _)) by lia.
    rewrite Z.mod_small by lia. reflexivity. }
  unfold I2C_init. cbn [init_TWSR init_TWBR]. rewrite Hquot. unfold u8.
  split; [reflexivity |]. split; [reflexivity |]. split.
  - intros Hfit. rewrite Hset, Z.mod_small by lia.
    cbn [I2C_setClock_for].
    destruct (Z.leb_spec raw 255); [reflexivity | lia].
  - intros Hbig. rewrite Hset.
    pose proof (Z.mod_pos_bound raw 256 ltac:(lia)) as Bm.
    unfold divisor_of, scl_divisor. cbn [I2C_setClock_for].
    pose proof (Z.div_mod raw 4 ltac:(lia)) as D1.
    pose proof (Z.mod_pos_bound raw 4 ltac:(lia)) as B1.
    pose proof (Z.div_mod (raw / 4) 4 ltac:(lia)) as D2.
    pose proof (Z.mod_pos_bound (raw / 4) 4 ltac:(lia)) as B2.
    pose proof (Z.div_mod (raw / 4 / 4) 4 ltac:(lia)) as D3.
    pose proof (Z.mod_pos_bound (raw / 4 / 4) 4 ltac:(lia)) as B3.
    destruct (Z.leb_spec raw 255); [lia |].
    destruct (Z.leb_spec (raw / 4) 255);
      [| destruct (Z.leb_spec (raw / 4 / 4) 255);
         [| destruct (Z.leb_spec (raw / 4 / 4 / 4) 255)]];
      cbn [fst snd]; rewrite ?TWPS_set by lia; rewrite ?TWPS_max;
      change (TWPS 0) with 0;
      change (4 ^ 0) with 1; change (4 ^ 1) with 4; change (4 ^ 2) with 16;
      change (4 ^ 3) with 64; lia.
Qed.

(** *** The transmit counters *)

Lemma transmit_bounded_step len regs m :
  len < 256 ->
  transmit_bounded len m ->
  transmit_bounded len (I2C_handleInterrupt regs m).
Proof.
  intros Hmax.
  destruct m as [st cs rb tx rx bts btr op ph mc tr].
  unfold transmit_bounded. cbn [currentRequest txCount bytesToSend].
  intros (Hlen & Htx & Hbts & Hsum).
  unfold_handler.
  handler_cases; bool_hyps;
    cbn [currentRequest txCount bytesToSend writeLen];
    rewrite ?u8_small by lia;
    repeat split; solve [ assumption | lia ].
Qed.

(** X24.  From the beginning of a transaction on, whatever events the
    hardware delivers (acknowledgements, refusals, lost arbitration,
    errors, in any order and number): [txCount] never exceeds [writeLen],
    [txCount + bytesToSend] stays equal to it, and whenever there is a byte
    left to send, the index [txCount] at which the handler would read the
    write buffer is below [writeLen]. *)
Theorem transmit_stays_within_writeLen (rb : I2CRB) (m0 : I2CManager)
    (events : list TWIRegs) :
  0 <= writeLen rb < 256 ->
  let m := run events (beginTransaction rb m0) in
  writeLen (currentRequest m) = writeLen rb /\
  0 <= txCount m <= writeLen rb /\
  txCount m + bytesToSend m = writeLen rb /\
  (bytesToSend m <> 0 -> 0 <= txCount m < writeLen rb).
Proof.
  intros Hlen m. subst m.
  assert (Hinv : transmit_bounded (writeLen rb)
                   (run events (beginTransaction rb m0))).
  { apply (run_invariant (fun _ => True)).
    - intros regs m _ Hm. apply transmit_bounded_step; [lia | exact Hm].
    - apply Forall_True.
    - unfold transmit_bounded, beginTransaction, I2C_sendStart. records.
      destruct I2C_EXTENDED_ADDRESS;
        [destruct (negb _) |]; records; repeat split; lia. }
  destruct Hinv as (Hw & Htx & Hbts & Hsum).
  repeat split; try assumption; lia.
Qed.

End Driver.

(** ** The theorems on concrete inputs

    The build used below has interrupts and extended addressing compiled
    in, the multiplexers at bus address 0x70 upwards, [I2CMux_None = 255],
    [SubBus_None = 254] and [SubBus_All = 255]; these are the leading
    arguments [true true 0x70 255 254 255]. *)

(** C1, counterexample.  A plain write of two bytes: after the address is
    acknowledged one byte has been sent ([txCount = 1], [bytesToSend = 1]);
    handling arbitration lost then leaves [txCount = 0] and
    [bytesToSend = 2], the request's [writeLen]: the counters do not keep
    their in-progress values. *)
Lemma arbitration_lost_resets_counters :
  let m := run true true 0x70 255 254 255
             [event TWI_START; event TWI_MTX_ADR_ACK]
             (beginTransaction true true 255 example_plain_write (idle_manager 0)) in
  let m' := I2C_handleInterrupt true true 0x70 255 254 255
              (event TWI_ARB_LOST) m in
  state m = I2C_STATE_ACTIVE /\
  txCount m = 1 /\ bytesToSend m = 1 /\
  txCount m' = 0 /\ bytesToSend m' = 2 /\
  txCount m' <> txCount m /\ bytesToSend m' <> bytesToSend m.
Proof. vm_compute. repeat split; discriminate. Qed.

(** C2, counterexample.  A routed request whose multiplexer does not
    acknowledge its address: the NACK in the Prolog phase falls through to
    the device state machine, which completes the transaction and leaves the
    phase at Prolog.  The state is reachable, Completed, and the phase is
    not Off. *)
Lemma completed_with_muxPhase_prolog :
  let m := run true true 0x70 255 254 255
             [event TWI_START; event TWI_MTX_ADR_NACK]
             (beginTransaction true true 255 example_write (idle_manager 1)) in
  reachable true true 0x70 255 254 255 m /\
  state m = I2C_STATE_COMPLETED /\
  muxPhase m = MuxPhase_PROLOG /\
  muxPhase m <> MuxPhase_OFF.
Proof.
  split.
  - apply reachable_event, reachable_event, reachable_begin, reachable_idle;
      reflexivity.
  - vm_compute. repeat split; discriminate.
Qed.

(** C3, counterexample.  At 16 MHz a request for 300000 bits/second is
    given divisor 18 with prescaler 0, that is 16000000 / 52 = 307692
    bits/second, faster than requested. *)
Lemma I2C_setClock_faster_than_requested :
  let '(twbr, twsr) := I2C_setClock 16000000 300000 0 in
  twbr = 18 /\ TWPS twsr = 0 /\
  16000000 / scl_divisor twbr (TWPS twsr) = 307692 /\
  300000 < 16000000 / scl_divisor twbr (TWPS twsr).
Proof. vm_compute. repeat split. Qed.

(** C4, counterexample.  Device address 0x20 behind multiplexer 0.  With
    one multiplexer configured, the device does not acknowledge its address
    in the Passthrough phase and the driver enters the Epilog phase.  With
    two configured, a write of no bytes (a probe) that the device
    acknowledges is completed by the device state machine, the address ACK
    in Passthrough being no case of the multiplexer state machine: the
    driver is Completed with the phase still Passthrough and nothing written
    after the device address but the STOP. *)
Lemma epilog_not_decided_by_multiplexer_count :
  (let m := run true true 0x70 255 254 255
              (mux_events ++ [event TWI_START; event TWI_MTX_ADR_NACK])
              (beginTransaction true true 255 example_write (idle_manager 1)) in
   _muxCount m = 1 /\
   deviceAddress (i2cAddress (currentRequest m)) = 0x20 /\
   state m = I2C_STATE_ACTIVE /\
   muxPhase m = MuxPhase_EPILOG) /\
  (let m := run true true 0x70 255 254 255
              (mux_events ++ [event TWI_START; event TWI_MTX_ADR_ACK])
              (beginTransaction true true 255 example_probe (idle_manager 2)) in
   _muxCount m = 2 /\
   deviceAddress (i2cAddress (currentRequest m)) = 0x20 /\
   state m = I2C_STATE_COMPLETED /\
   completionStatus m = I2C_STATUS_OK /\
   muxPhase m = MuxPhase_PASSTHRU /\
   trace m =
     [W_TWCR (TWCR_start_ack true);
      W_TWDR 0xE0; W_TWCR (TWCR_continue true);
      W_TWDR 0x02; W_TWCR (TWCR_continue true);
      W_TWCR (TWCR_stop_start true);
      W_TWDR 0x40; W_TWCR (TWCR_continue_ack true);
      W_TWCR TWCR_stop_ack]).
Proof. vm_compute. repeat split. Qed.

(** The rate at divisor 255, prescaler 3, with a 16 MHz processor clock. *)
Lemma slowest_rate_at_16MHz : 16000000 / scl_divisor 255 3 = 489.
Proof. reflexivity. Qed.

(** C6 at a routed write of two bytes with two multiplexers. *)
Lemma write_transmits_buffer_then_stop_witness :
  let rb := example_write in
  let m := run true true 0x70 255 254 255
             (enveloped true 255 (i2cAddress rb) 2 (write_events 2))
             (beginTransaction true true 255 rb (idle_manager 2)) in
  (deviceAddress (i2cAddress rb) <> 0 /\
   rb_operation rb <> OPERATION_READ /\
   writeLen rb = Z.of_nat 2 /\ (0 < 2)%nat /\ writeLen rb < 256 /\
   readLen rb = 0 /\ (2 <= length (writeBuffer rb))%nat) /\
  state m = I2C_STATE_COMPLETED /\
  completionStatus m = I2C_STATUS_OK /\
  txCount m = 2.
Proof.
  assert (H1 : deviceAddress (i2cAddress example_write) <> 0) by discriminate.
  assert (H2 : rb_operation example_write <> OPERATION_READ) by discriminate.
  assert (H3 : writeLen example_write = Z.of_nat 2) by reflexivity.
  assert (H4 : (0 < 2)%nat) by lia.
  assert (H5 : writeLen example_write < 256) by reflexivity.
  assert (H6 : readLen example_write = 0) by reflexivity.
  assert (H7 : (2 <= length (writeBuffer example_write))%nat) by (simpl; lia).
  destruct (write_transmits_buffer_then_stop true true 0x70 255 254 255
              example_write (idle_manager 2) 2 (or_intror H1) H2 H3 H4 H5 H6 H7)
    as (Hst & Hcs & Htx & _).
  exact (conj (conj H1 (conj H2 (conj H3 (conj H4 (conj H5 (conj H6 H7))))))
           (conj Hst (conj Hcs Htx))).
Defined.

(** C7 at a routed read of two bytes with two multiplexers. *)
Lemma read_fills_buffer_witness :
  let rb := example_read in
  let m := run true true 0x70 255 254 255
             (enveloped true 255 (i2cAddress rb) 2 (read_events [0xA1] 0xA2))
             (beginTransaction true true 255 rb (idle_manager 2)) in
  (deviceAddress (i2cAddress rb) <> 0 /\
   rb_operation rb = OPERATION_READ /\
   writeLen rb = 0 /\
   readLen rb = Z.of_nat (length [0xA1]) + 1 /\ readLen rb < 256 /\
   (length ([0xA1] ++ [0xA2]) <= length (readBuffer rb))%nat) /\
  state m = I2C_STATE_COMPLETED /\
  rxCount m = 2 /\
  take 2 (readBuffer (currentRequest m)) = [0xA1; 0xA2].
Proof.
  assert (H1 : deviceAddress (i2cAddress example_read) <> 0) by discriminate.
  assert (H2 : rb_operation example_read = OPERATION_READ) by reflexivity.
  assert (H3 : writeLen example_read = 0) by reflexivity.
  assert (H4 : readLen example_read = Z.of_nat (length [0xA1]) + 1) by reflexivity.
  assert (H5 : readLen example_read < 256) by reflexivity.
  assert (H6 : (length ([0xA1] ++ [0xA2]) <= length (readBuffer example_read))%nat)
    by (simpl; lia).
  destruct (read_fills_buffer true true 0x70 255 254 255
              example_read (idle_manager 2) [0xA1] 0xA2
              (or_intror H1) (or_introl H2) H3 H4 H5 H6)
    as (Hst & _ & Hrx & _ & _ & _ & _ & Htake & Hdrop).
  exact (conj (conj H1 (conj H2 (conj H3 (conj H4 (conj H5 H6)))))
           (conj Hst (conj Hrx Htake))).
Defined.

(** C8 at a routed write of one byte followed by a read of two. *)
Lemma write_then_read_repeated_start_witness :
  let rb := example_write_read in
  let m := run true true 0x70 255 254 255
             (enveloped true 255 (i2cAddress rb) 1
                (write_read_events 1 [0xA1] 0xA2))
             (beginTransaction true true 255 rb (idle_manager 1)) in
  (deviceAddress (i2cAddress rb) <> 0 /\
   rb_operation rb = OPERATION_REQUEST /\
   writeLen rb = Z.of_nat 1 /\ (0 < 1)%nat /\ writeLen rb < 256 /\
   readLen rb = Z.of_nat (length [0xA1]) + 1 /\ readLen rb < 256 /\
   (1 <= length (writeBuffer rb))%nat) /\
  state m = I2C_STATE_COMPLETED /\
  completionStatus m = I2C_STATUS_OK.
Proof.
  assert (H1 : deviceAddress (i2cAddress example_write_read) <> 0) by discriminate.
  assert (H2 : rb_operation example_write_read = OPERATION_REQUEST) by reflexivity.
  assert (H3 : writeLen example_write_read = Z.of_nat 1) by reflexivity.
  assert (H4 : (0 < 1)%nat) by lia.
  assert (H5 : writeLen example_write_read < 256) by reflexivity.
  assert (H6 : readLen example_write_read = Z.of_nat (length [0xA1]) + 1)
    by reflexivity.
  assert (H7 : readLen example_write_read < 256) by reflexivity.
  assert (H8 : (1 <= length (writeBuffer example_write_read))%nat) by (simpl; lia).
  destruct (write_then_read_repeated_start true true 0x70 255 254 255
              example_write_read (idle_manager 1) 1 [0xA1] 0xA2
              (or_intror H1) H2 H3 H4 H5 H6 H7 H8)
    as (Hst & Hcs & _).
  exact (conj (conj H1 (conj H2 (conj H3 (conj H4 (conj H5 (conj H6 (conj H7 H8)))))))
           (conj Hst Hcs)).
Defined.

(** C9 at a request for multiplexer 0 alone. *)
Lemma mux_only_completes_in_prolog_witness :
  let rb := example_mux_only in
  let m := run true true 0x70 255 254 255 mux_events
             (beginTransaction true true 255 rb (idle_manager 2)) in
  (mux_routed true 255 (i2cAddress rb) = true /\
   deviceAddress (i2cAddress rb) = 0) /\
  state m = I2C_STATE_COMPLETED /\
  muxPhase m = MuxPhase_OFF.
Proof.
  assert (H1 : mux_routed true 255 (i2cAddress example_mux_only) = true)
    by reflexivity.
  assert (H2 : deviceAddress (i2cAddress example_mux_only) = 0) by reflexivity.
  destruct (mux_only_completes_in_prolog true true 0x70 255 254 255
              example_mux_only (idle_manager 2) H1 H2)
    as (_ & _ & Hst & _ & Hph & _).
  exact (conj (conj H1 H2) (conj Hst Hph)).
Defined.

(** C5 at a routed write whose device does not acknowledge its address. *)
Lemma nack_in_passthru_runs_epilog_witness :
  let m := run true true 0x70 255 254 255 (mux_events ++ [event TWI_START])
             (beginTransaction true true 255 example_write (idle_manager 1)) in
  let m2 := run true true 0x70 255 254 255 mux_events
              (I2C_handleInterrupt true true 0x70 255 254 255
                 (event TWI_MTX_ADR_NACK) m) in
  muxPhase m = MuxPhase_PASSTHRU /\
  state m2 = I2C_STATE_COMPLETED /\
  completionStatus m2 = I2C_STATUS_NEGATIVE_ACKNOWLEDGE.
Proof.
  cbv zeta.
  set (m := run true true 0x70 255 254 255 (mux_events ++ [event TWI_START])
              (beginTransaction true true 255 example_write (idle_manager 1))).
  assert (H1 : muxPhase m = MuxPhase_PASSTHRU) by reflexivity.
  destruct (nack_in_passthru_runs_epilog true true 0x70 255 254 255
              m TWI_MTX_ADR_NACK eq_refl H1 (or_introl eq_refl))
    as (_ & _ & _ & _ & _ & _ & _ & Hst & Hcs & _).
  exact (conj H1 (conj Hst Hcs)).
Defined.

(** C4 at a routed write of two bytes, with two multiplexers and with one. *)
Lemma epilog_only_with_several_multiplexers_witness :
  let rb := example_write in
  let m := run true true 0x70 255 254 255
             (enveloped true 255 (i2cAddress rb) 2 (write_events 2))
             (beginTransaction true true 255 rb (idle_manager 2)) in
  let entered := run true true 0x70 255 254 255
             (mux_events ++ write_events 2)
             (beginTransaction true true 255 rb (idle_manager 2)) in
  (mux_routed true 255 (i2cAddress rb) = true /\
   deviceAddress (i2cAddress rb) <> 0 /\
   1 < _muxCount (idle_manager 2) /\
   transfers rb (Write_of 2)) /\
  muxPhase entered = MuxPhase_EPILOG /\
  state m = I2C_STATE_COMPLETED /\
  muxPhase (run true true 0x70 255 254 255 mux_events
              (beginTransaction true true 255 rb (idle_manager 1)))
    <> MuxPhase_EPILOG.
Proof.
  assert (H1 : mux_routed true 255 (i2cAddress example_write) = true)
    by reflexivity.
  assert (H2 : deviceAddress (i2cAddress example_write) <> 0) by discriminate.
  assert (H3 : 1 < _muxCount (idle_manager 2)) by reflexivity.
  assert (H4 : transfers example_write (Write_of 2)).
  { simpl. repeat split; try reflexivity; try discriminate; lia. }
  destruct (epilog_only_with_several_multiplexers true true 0x70 255 254 255
              example_write (idle_manager 2) H1 H2) as (_ & Hseveral).
  destruct (Hseveral H3 (Write_of 2) H4) as (_ & _ & Hent & _ & Hst & _).
  destruct (epilog_only_with_several_multiplexers true true 0x70 255 254 255
              example_write (idle_manager 1) H1 H2) as (Hone & _).
  assert (H5 : Forall (fun regs => reports_NACK regs = false) mux_events).
  { repeat constructor. }
  exact (conj (conj H1 (conj H2 (conj H3 H4)))
           (conj Hent (conj Hst (Hone eq_refl mux_events H5)))).
Defined.

(** C2 at a routed request just begun. *)
Lemma muxPhase_set_only_for_routed_requests_witness :
  let m := beginTransaction true true 255 example_write (idle_manager 1) in
  reachable true true 0x70 255 254 255 m /\
  muxPhase m = MuxPhase_PROLOG /\
  mux_routed true 255 (i2cAddress (currentRequest m)) = true.
Proof.
  cbv zeta.
  assert (H1 : reachable true true 0x70 255 254 255
                 (beginTransaction true true 255 example_write (idle_manager 1))).
  { apply reachable_begin, reachable_idle; reflexivity. }
  destruct (muxPhase_set_only_for_routed_requests true true 0x70 255 254 255
              _ H1) as (Hrouted & _ & _).
  split; [exact H1 |]. split; [reflexivity |].
  apply Hrouted. discriminate.
Defined.

(** C10 at a read of two bytes on which the hardware delivers four. *)
Lemma receive_stays_within_readLen_witness :
  let rb := example_read in
  let m := run true true 0x70 255 254 255
             [event TWI_START; event TWI_MRX_ADR_ACK;
              received TWI_MRX_DATA_ACK 1; received TWI_MRX_DATA_ACK 2;
              received TWI_MRX_DATA_ACK 3; received TWI_MRX_DATA_NACK 4]
             (beginTransaction true true 255 rb (idle_manager 0)) in
  0 <= readLen rb < 256 /\
  0 <= rxCount m <= readLen rb /\
  rxCount m + bytesToReceive m = readLen rb.
Proof.
  assert (H1 : 0 <= readLen example_read < 256) by (simpl; lia).
  destruct (receive_stays_within_readLen true true 0x70 255 254 255
              example_read (idle_manager 0)
              [event TWI_START; event TWI_MRX_ADR_ACK;
               received TWI_MRX_DATA_ACK 1; received TWI_MRX_DATA_ACK 2;
               received TWI_MRX_DATA_ACK 3; received TWI_MRX_DATA_NACK 4] H1)
    as (Hrx & Hsum & _).
  exact (conj H1 (conj Hrx Hsum)).
Defined.

(** C1 at a plain write of two bytes, one of them sent. *)
Lemma arbitration_lost_restarts_from_sendStart_witness :
  let m := run true true 0x70 255 254 255
             [event TWI_START; event TWI_MTX_ADR_ACK]
             (beginTransaction true true 255 example_plain_write (idle_manager 0)) in
  let m' := I2C_handleInterrupt true true 0x70 255 254 255
              (event TWI_ARB_LOST) m in
  (Z.land (TWCR (event TWI_ARB_LOST)) (Z.shiftl 1 TWINT) <> 0 /\
   Z.land (TWSR (event TWI_ARB_LOST)) 0xF8 = TWI_ARB_LOST) /\
  bytesToSend m' = writeLen (currentRequest m) /\
  txCount m' = 0.
Proof.
  assert (H1 : Z.land (TWCR (event TWI_ARB_LOST)) (Z.shiftl 1 TWINT) <> 0)
    by (vm_compute; discriminate).
  assert (H2 : Z.land (TWSR (event TWI_ARB_LOST)) 0xF8 = TWI_ARB_LOST)
    by reflexivity.
  cbv zeta.
  destruct (arbitration_lost_restarts_from_sendStart true true 0x70 255 254 255
              (event TWI_ARB_LOST)
              (run true true 0x70 255 254 255
                 [event TWI_START; event TWI_MTX_ADR_ACK]
                 (beginTransaction true true 255 example_plain_write
                    (idle_manager 0))) H1 H2)
    as (_ & Hbts & _ & Htx & _).
  exact (conj (conj H1 H2) (conj Hbts Htx)).
Defined.

(** C3 at 16 MHz and 100000 bits/second: divisor 72 with prescaler 0 gives
    the requested rate itself; divisor 17 with prescaler 1, a setting that
    is not slower than the request either, has the smaller clock divisor. *)
Lemma I2C_setClock_rate_witness :
  (0 < 100000 /\ 0 <= 16000000 < 2 ^ 32 /\ 16 <= 16000000 / 100000) /\
  I2C_setClock 16000000 100000 0 = (72, 0) /\
  100000 * scl_divisor 72 (TWPS 0) <= 16000000 /\
  100000 * scl_divisor 17 1 <= 16000000 /\
  scl_divisor 17 1 <= scl_divisor 72 (TWPS 0).
Proof.
  assert (H1 : 0 < 100000) by lia.
  assert (H2 : 0 <= 16000000 < 2 ^ 32) by lia.
  assert (H3 : 16 <= 16000000 / 100000) by (vm_compute; discriminate).
  assert (H4 : 0 <= 17 <= 255) by lia.
  assert (H5 : 0 <= 1 <= 3) by lia.
  assert (H6 : 100000 * scl_divisor 17 1 <= 16000000)
    by (vm_compute; discriminate).
  pose proof (I2C_setClock_rate 16000000 100000 0 H1 H2) as H.
  change (I2C_setClock 16000000 100000 0) with (72, 0) in H.
  cbv zeta in H. destruct H as (Hfit & _).
  destruct (Hfit H3) as (_ & Hrate & _ & _ & Hbest).
  exact (conj (conj H1 (conj H2 H3))
           (conj eq_refl (conj Hrate (conj H6 (Hbest 17 1 H4 H5 H6))))).
Defined.

(** ** The further properties at concrete inputs *)

(** X1 at a bus error arriving in the Prolog of a routed write. *)
Lemma unlabelled_status_is_transmit_error_witness :
  let m := beginTransaction true true 255 example_write (idle_manager 2) in
  let m' := I2C_handleInterrupt true true 0x70 255 254 255 (event TWI_BUS_ERROR) m in
  (pending (event TWI_BUS_ERROR) /\
   ~ In (status_of (event TWI_BUS_ERROR)) labelled_codes) /\
  state m' = I2C_STATE_COMPLETED /\
  completionStatus m' = I2C_STATUS_TRANSMIT_ERROR /\
  muxPhase m' = MuxPhase_PROLOG.
Proof.
  assert (H1 : pending (event TWI_BUS_ERROR)) by (vm_compute; discriminate).
  assert (H2 : ~ In (status_of (event TWI_BUS_ERROR)) labelled_codes)
    by (vm_compute; intuition discriminate).
  pose proof (unlabelled_status_is_transmit_error true true 0x70 255 254 255
                (event TWI_BUS_ERROR)
                (beginTransaction true true 255 example_write (idle_manager 2))
                H1 H2) as E.
  exact (conj (conj H1 H2)
           (conj (f_equal state E)
              (conj (f_equal completionStatus E) (f_equal muxPhase E)))).
Defined.

(** X2 at a multiplexer that does not answer its address in the Prolog. *)
Lemma nack_outside_passthru_completes_witness :
  let m := run true true 0x70 255 254 255 [event TWI_START]
             (beginTransaction true true 255 example_write (idle_manager 2)) in
  let m' := I2C_handleInterrupt true true 0x70 255 254 255
              (event TWI_MTX_ADR_NACK) m in
  (pending (event TWI_MTX_ADR_NACK) /\
   reports_NACK (event TWI_MTX_ADR_NACK) = true /\
   in_passthru true (muxPhase m) = false) /\
  state m' = I2C_STATE_COMPLETED /\
  completionStatus m' = I2C_STATUS_NEGATIVE_ACKNOWLEDGE.
Proof.
  assert (H1 : pending (event TWI_MTX_ADR_NACK)) by (vm_compute; discriminate).
  assert (H2 : reports_NACK (event TWI_MTX_ADR_NACK) = true) by reflexivity.
  assert (H3 : in_passthru true
                 (muxPhase
                    (run true true 0x70 255 254 255 [event TWI_START]
                       (beginTransaction true true 255 example_write
                          (idle_manager 2)))) = false) by reflexivity.
  pose proof (nack_outside_passthru_completes true true 0x70 255 254 255
                (event TWI_MTX_ADR_NACK) _ H1 H2 H3) as E.
  exact (conj (conj H1 (conj H2 H3))
           (conj (f_equal state E) (f_equal completionStatus E))).
Defined.

(** X3 at the START event of a write. *)
Lemma handled_event_writes_TWCR_once_and_last_witness :
  let m := beginTransaction true true 255 example_plain_write (idle_manager 0) in
  pending (event TWI_START) /\
  exists pre v,
    trace (I2C_handleInterrupt true true 0x70 255 254 255 (event TWI_START) m)
    = trace m ++ pre ++ [W_TWCR v] /\
    existsb is_TWCR_write pre = false /\
    (length pre <= 1)%nat /\
    Z.testbit v TWINT = true /\
    Z.testbit v TWEN = true.
Proof.
  assert (H1 : pending (event TWI_START)) by (vm_compute; discriminate).
  exact (conj H1
           (handled_event_writes_TWCR_once_and_last true true 0x70 255 254 255
              (event TWI_START)
              (beginTransaction true true 255 example_plain_write (idle_manager 0))
              H1)).
Defined.

(** X4 at the last acknowledgement of a write of two bytes. *)
Lemma completed_iff_stop_without_start_witness :
  let m := run true true 0x70 255 254 255
             [event TWI_START; event TWI_MTX_ADR_ACK; event TWI_MTX_DATA_ACK]
             (beginTransaction true true 255 example_plain_write (idle_manager 0)) in
  let m' := I2C_handleInterrupt true true 0x70 255 254 255
              (event TWI_MTX_DATA_ACK) m in
  (pending (event TWI_MTX_DATA_ACK) /\ state m <> I2C_STATE_COMPLETED) /\
  exists l v,
    trace m' = l ++ [W_TWCR v] /\
    (state m' = I2C_STATE_COMPLETED <->
     Z.testbit v TWSTO = true /\ Z.testbit v TWSTA = false) /\
    (state m' = I2C_STATE_COMPLETED -> Z.testbit v TWIE = false) /\
    (state m' <> I2C_STATE_COMPLETED ->
     state m' = state m /\ Z.testbit v TWIE = true).
Proof.
  assert (H1 : pending (event TWI_MTX_DATA_ACK)) by (vm_compute; discriminate).
  assert (H2 : state
                 (run true true 0x70 255 254 255
                    [event TWI_START; event TWI_MTX_ADR_ACK; event TWI_MTX_DATA_ACK]
                    (beginTransaction true true 255 example_plain_write
                       (idle_manager 0))) <> I2C_STATE_COMPLETED)
    by (vm_compute; discriminate).
  exact (conj (conj H1 H2)
           (completed_iff_stop_without_start true true 0x70 255 254 255
              (event TWI_MTX_DATA_ACK) _ H1 H2)).
Defined.

(** X6 at a routed read of no byte with two multiplexers. *)
Lemma zero_length_read_discards_byte_witness :
  let rb := example_zero_read in
  (deviceAddress (i2cAddress rb) <> 0 /\
   rb_operation rb = OPERATION_READ /\ readLen rb = 0) /\
  exists ph,
    run true true 0x70 255 254 255
      (enveloped true 255 (i2cAddress rb) 2 (zero_read_events 0x55))
      (beginTransaction true true 255 rb (idle_manager 2)) =
    {| state := I2C_STATE_COMPLETED; completionStatus := I2C_STATUS_OK;
       currentRequest := rb; txCount := 0; rxCount := 0;
       bytesToSend := writeLen rb; bytesToReceive := 0;
       operation := rb_operation rb; muxPhase := ph;
       _muxCount := 2;
       trace := [] ++ opening true true 0x70 255 254 255 (i2cAddress rb)
                ++ [W_TWDR (SLA_R (i2cAddress rb)); W_TWCR (TWCR_continue_ack true);
                    W_TWCR (TWCR_continue true)]
                ++ closing true true 0x70 255 (i2cAddress rb) 2 |}.
Proof.
  assert (H1 : deviceAddress (i2cAddress example_zero_read) <> 0) by discriminate.
  assert (H2 : rb_operation example_zero_read = OPERATION_READ) by reflexivity.
  assert (H3 : readLen example_zero_read = 0) by reflexivity.
  exact (conj (conj H1 (conj H2 H3))
           (zero_length_read_discards_byte true true 0x70 255 254 255
              example_zero_read (idle_manager 2) 0x55
              (or_intror H1) (or_introl H2) H3)).
Defined.

(** X7 at a routed probe with two multiplexers. *)
Lemma zero_length_write_completes_on_address_witness :
  let rb := example_probe in
  let m := run true true 0x70 255 254 255
             ((if mux_routed true 255 (i2cAddress rb) then mux_events else [])
              ++ probe_events)
             (beginTransaction true true 255 rb (idle_manager 2)) in
  (deviceAddress (i2cAddress rb) <> 0 /\
   rb_operation rb = OPERATION_SEND /\ writeLen rb = 0 /\ readLen rb = 0) /\
  state m = I2C_STATE_COMPLETED /\
  completionStatus m = I2C_STATUS_OK /\
  muxPhase m = MuxPhase_PASSTHRU.
Proof.
  assert (H1 : deviceAddress (i2cAddress example_probe) <> 0) by discriminate.
  assert (H2 : rb_operation example_probe = OPERATION_SEND) by reflexivity.
  assert (H3 : writeLen example_probe = 0) by reflexivity.
  assert (H4 : readLen example_probe = 0) by reflexivity.
  destruct (zero_length_write_completes_on_address true true 0x70 255 254 255
              example_probe (idle_manager 2)
              (or_intror H1) (or_introl H2) H3 H4) as (ph & Hph & E).
  cbv zeta. rewrite E.
  exact (conj (conj H1 (conj H2 (conj H3 H4)))
           (conj eq_refl (conj eq_refl (Hph eq_refl)))).
Defined.

(** X8 at a write of two bytes refused after the first byte. *)
Lemma nacked_write_stops_after_k_bytes_witness :
  let rb := example_plain_write in
  let m := run true true 0x70 255 254 255 (nacked_write_events 1)
             (beginTransaction true true 255 rb (idle_manager 0)) in
  (mux_routed true 255 (i2cAddress rb) = false /\
   rb_operation rb <> OPERATION_READ /\
   0 < writeLen rb < 256 /\
   Z.of_nat 1 <= writeLen rb /\
   writeLen rb <= Z.of_nat (length (writeBuffer rb))) /\
  completionStatus m = I2C_STATUS_NEGATIVE_ACKNOWLEDGE /\
  txCount m = 1 /\
  bytesToSend m = 1.
Proof.
  assert (H1 : mux_routed true 255 (i2cAddress example_plain_write) = false)
    by reflexivity.
  assert (H2 : rb_operation example_plain_write <> OPERATION_READ) by discriminate.
  assert (H3 : 0 < writeLen example_plain_write < 256) by (simpl; lia).
  assert (H4 : Z.of_nat 1 <= writeLen example_plain_write) by (simpl; lia).
  assert (H5 : writeLen example_plain_write
               <= Z.of_nat (length (writeBuffer example_plain_write)))
    by (simpl; lia).
  destruct (nacked_write_stops_after_k_bytes true true 0x70 255 254 255
              example_plain_write (idle_manager 0) 1 H1 H2 H3 H4 H5) as (ph & E).
  cbv zeta. rewrite E.
  exact (conj (conj H1 (conj H2 (conj H3 (conj H4 H5))))
           (conj eq_refl (conj eq_refl eq_refl))).
Defined.

(** X9 at a Send request of two bytes that asks for one byte, after three
    rounds of repeated START and address. *)
Lemma send_with_readLen_never_completes_witness :
  let rb := example_send_with_readLen in
  let m := run true true 0x70 255 254 255 (write_events 2 ++ readdressed 3)
             (beginTransaction true true 255 rb (idle_manager 0)) in
  (mux_routed true 255 (i2cAddress rb) = false /\
   rb_operation rb = OPERATION_SEND /\
   writeLen rb = Z.of_nat 2 /\ (0 < 2)%nat /\ writeLen rb < 256 /\
   (2 <= length (writeBuffer rb))%nat /\
   readLen rb <> 0) /\
  state m = I2C_STATE_ACTIVE /\
  rxCount m = 0.
Proof.
  assert (H1 : mux_routed true 255 (i2cAddress example_send_with_readLen) = false)
    by reflexivity.
  assert (H2 : rb_operation example_send_with_readLen = OPERATION_SEND)
    by reflexivity.
  assert (H3 : writeLen example_send_with_readLen = Z.of_nat 2) by reflexivity.
  assert (H4 : (0 < 2)%nat) by lia.
  assert (H5 : writeLen example_send_with_readLen < 256) by reflexivity.
  assert (H6 : (2 <= length (writeBuffer example_send_with_readLen))%nat)
    by (simpl; lia).
  assert (H7 : readLen example_send_with_readLen <> 0) by discriminate.
  destruct (send_with_readLen_never_completes true true 0x70 255 254 255
              example_send_with_readLen (idle_manager 0) 2 3
              H1 (or_introl H2) H3 H4 H5 H6 H7)
    as (Hst & _ & _ & Hrx & _).
  exact (conj (conj H1 (conj H2 (conj H3 (conj H4 (conj H5 (conj H6 H7))))))
           (conj Hst Hrx)).
Defined.

(** X10 at a routed write of two bytes that loses arbitration after the
    first byte went out. *)
Lemma write_completes_after_arbitration_lost_witness :
  let m := run true true 0x70 255 254 255
             (mux_events ++ [event TWI_START; event TWI_MTX_ADR_ACK])
             (beginTransaction true true 255 example_write (idle_manager 2)) in
  let m' := run true true 0x70 255 254 255
              (event TWI_ARB_LOST ::
               enveloped true 255 (i2cAddress (currentRequest m)) (_muxCount m)
                 (write_events 2)) m in
  (state m = I2C_STATE_ACTIVE /\
   completionStatus m = I2C_STATUS_OK /\
   operation m = rb_operation (currentRequest m) /\
   deviceAddress (i2cAddress (currentRequest m)) <> 0 /\
   transfers (currentRequest m) (Write_of 2)) /\
  txCount m = 1 /\
  state m' = I2C_STATE_COMPLETED /\
  completionStatus m' = I2C_STATUS_OK /\
  txCount m' = 2.
Proof.
  set (m := run true true 0x70 255 254 255
              (mux_events ++ [event TWI_START; event TWI_MTX_ADR_ACK])
              (beginTransaction true true 255 example_write (idle_manager 2))).
  assert (H1 : state m = I2C_STATE_ACTIVE) by reflexivity.
  assert (H2 : completionStatus m = I2C_STATUS_OK) by reflexivity.
  assert (H3 : operation m = rb_operation (currentRequest m)) by reflexivity.
  assert (H4 : deviceAddress (i2cAddress (currentRequest m)) <> 0)
    by (vm_compute; discriminate).
  assert (H5 : transfers (currentRequest m) (Write_of 2)).
  { repeat split; try reflexivity; try (vm_compute; discriminate);
      vm_compute; lia. }
  destruct (write_completes_after_arbitration_lost true true 0x70 255 254 255
              m 2 H1 H2 H3 (or_intror H4) H5) as (ph & E).
  cbv zeta. rewrite E.
  exact (conj (conj H1 (conj H2 (conj H3 (conj H4 H5))))
           (conj eq_refl (conj eq_refl (conj eq_refl eq_refl)))).
Defined.

(** X11 at 100 kHz on a 16 MHz processor, the status register reading 0xF8. *)
Lemma I2C_setClock_changes_prescaler_bits_only_witness :
  0 < 100000 /\
  (let '(twbr, twsr) := I2C_setClock 16000000 100000 0xF8 in
   0 <= twbr <= 255 /\
   Z.land twsr 0xfc = Z.land 0xF8 0xfc /\
   0 <= TWPS twsr <= 3).
Proof.
  assert (H1 : 0 < 100000) by lia.
  exact (conj H1
           (I2C_setClock_changes_prescaler_bits_only 16000000 100000 0xF8 H1)).
Defined.

(** X12 at 100 kHz on a 16 MHz processor: divisor 72, prescaler 0. *)
Lemma I2C_setClock_recovers_exact_setting_witness :
  (0 < 100000 /\ 0 <= 16000000 < 2 ^ 32 /\
   0 <= 72 <= 255 /\ 0 <= 0 <= 3 /\ (0 = 0 \/ 64 <= 72) /\
   16000000 = 100000 * scl_divisor 72 0) /\
  I2C_setClock 16000000 100000 0 = (72, Z.lor (Z.land 0 0xfc) 0).
Proof.
  assert (H1 : 0 < 100000) by lia.
  assert (H2 : 0 <= 16000000 < 2 ^ 32) by lia.
  assert (H3 : 0 <= 72 <= 255) by lia.
  assert (H4 : 0 <= 0 <= 3) by lia.
  assert (H5 : 0 = 0 \/ 64 <= 72) by (left; reflexivity).
  assert (H6 : 16000000 = 100000 * scl_divisor 72 0) by reflexivity.
  exact (conj (conj H1 (conj H2 (conj H3 (conj H4 (conj H5 H6)))))
           (proj1 (I2C_setClock_recovers_exact_setting 16000000 100000 0 72 0
                     H1 H2 H3 H4 H5 H6))).
Defined.

(** X13 at 100 kHz and 400 kHz on a 16 MHz processor. *)
Lemma I2C_setClock_monotone_witness :
  (0 < 100000 <= 400000 /\ 0 <= 16000000 < 2 ^ 32 /\ 16 <= 16000000 / 400000) /\
  divisor_of (I2C_setClock 16000000 400000 0)
  <= divisor_of (I2C_setClock 16000000 100000 0).
Proof.
  assert (H1 : 0 < 100000 <= 400000) by lia.
  assert (H2 : 0 <= 16000000 < 2 ^ 32) by lia.
  assert (H3 : 16 <= 16000000 / 400000) by (vm_compute; discriminate).
  exact (conj (conj H1 (conj H2 H3))
           (I2C_setClock_monotone 16000000 100000 400000 0 0 H1 H2 H3)).
Defined.

(** X14 at 400 kHz on a 16 MHz processor. *)
Lemma I2C_init_agrees_with_setClock_witness :
  (0 < 400000 /\ 0 <= 16000000 < 2 ^ 32 /\ 16 <= 16000000 / 400000) /\
  init_TWBR (I2C_init 16000000 400000) = 12 /\
  ((16000000 / 400000 - 16) / 2 <= 255 ->
   (init_TWBR (I2C_init 16000000 400000), init_TWSR (I2C_init 16000000 400000))
   = I2C_setClock 16000000 400000 0).
Proof.
  assert (H1 : 0 < 400000) by lia.
  assert (H2 : 0 <= 16000000 < 2 ^ 32) by lia.
  assert (H3 : 16 <= 16000000 / 400000) by (vm_compute; discriminate).
  destruct (I2C_init_agrees_with_setClock 16000000 400000 H1 H2 H3)
    as (_ & Hb & Hfit & _).
  exact (conj (conj H1 (conj H2 H3)) (conj Hb Hfit)).
Defined.

(** X24 at a write of two bytes disturbed by a lost arbitration and a bus
    error. *)
Lemma transmit_stays_within_writeLen_witness :
  let m := run true true 0x70 255 254 255
             [event TWI_START; event TWI_MTX_ADR_ACK; event TWI_ARB_LOST;
              event TWI_START; event TWI_MTX_ADR_ACK; event TWI_BUS_ERROR]
             (beginTransaction true true 255 example_plain_write (idle_manager 0)) in
  0 <= writeLen example_plain_write < 256 /\
  0 <= txCount m <= writeLen example_plain_write /\
  txCount m + bytesToSend m = writeLen example_plain_write.
Proof.
  assert (H1 : 0 <= writeLen example_plain_write < 256) by (simpl; lia).
  destruct (transmit_stays_within_writeLen true true 0x70 255 254 255
              example_plain_write (idle_manager 0)
              [event TWI_START; event TWI_MTX_ADR_ACK; event TWI_ARB_LOST;
               event TWI_START; event TWI_MTX_ADR_ACK; event TWI_BUS_ERROR] H1)
    as (_ & Htx & Hsum & _).
  exact (conj H1 (conj Htx Hsum)).
Defined.

(** * Properties of the turntable list *)

Section TurntableProperties.

Import Turntable.

Lemma get_lookup (wanted : Z) (l : list Turntable) :
  match get wanted l with
  | Some (ptr, tto) =>
      l !! ptr = Some tto /\
      id (_turntableData tto) = wanted /\
      forall (j : nat) (other : Turntable),
        (j < ptr)%nat -> l !! j = Some other ->
        id (_turntableData other) <> wanted
  | None => Forall (fun tto => id (_turntableData tto) <> wanted) l
  end.
Proof.
  induction l as [| tto rest IH]; cbn [get].
  - constructor.
  - destruct (Z.eqb_spec (id (_turntableData tto)) wanted) as [Heq | Hne].
    + split; [reflexivity |]. split; [exact Heq |]. intros j other Hj. lia.
    + destruct (get wanted rest) as [[ptr found] |].
      * destruct IH as (Hl & Hid & Hfirst).
        split; [exact Hl |]. split; [exact Hid |].
        intros [| j] other Hj Hlook.
        -- cbn in Hlook. injection Hlook as <-. exact Hne.
        -- apply (Hfirst j); [lia | exact Hlook].
      * constructor; assumption.
Qed.

(** X15.  [Turntable::get] returns the first turntable of the list whose
    id is the one asked for, and NULL exactly when no turntable of the list
    has it. *)
Theorem get_returns_first_with_id (wanted : Z) (l : list Turntable) :
  (forall ptr tto,
     get wanted l = Some (ptr, tto) ->
     l !! ptr = Some tto /\
     id (_turntableData tto) = wanted /\
     forall (j : nat) (other : Turntable),
       (j < ptr)%nat -> l !! j = Some other ->
       id (_turntableData other) <> wanted) /\
  (get wanted l = None <->
   Forall (fun tto => id (_turntableData tto) <> wanted) l).
Proof.
  pose proof (get_lookup wanted l) as H.
  split.
  - intros ptr tto Hget. rewrite Hget in H. exact H.
  - split.
    + intros Hget. rewrite Hget in H. exact H.
    + intros Hall. destruct (get wanted l) as [[ptr tto] |]; [| reflexivity].
      destruct H as (Hl & Hid & _).
      rewrite Forall_forall in Hall.
      exfalso. apply (Hall tto); [| exact Hid].
      eapply list_elem_of_lookup_2. exact Hl.
Qed.

Lemma get_app (wanted : Z) (l : list Turntable) (tto : Turntable) :
  get wanted (l ++ [tto]) =
    match get wanted l with
    | Some found => Some found
    | None =>
        if id (_turntableData tto) =? wanted then Some (length l, tto) else None
    end.
Proof.
  induction l as [| first rest IH]; cbn [get app length].
  - destruct (id (_turntableData tto) =? wanted); reflexivity.
  - destruct (id (_turntableData first) =? wanted); [reflexivity |].
    rewrite IH. destruct (get wanted rest) as [[ptr found] |]; [reflexivity |].
    destruct (id (_turntableData tto) =? wanted); reflexivity.
Qed.

(** X16.  [Turntable::add] puts the object at the end of the list and
    counts it: every id that was found before is found as before, at the
    same place; the new object is found under its id only if no turntable
    had that id already; the list hash goes up by one. *)
Theorem add_then_get (tto : Turntable) (s : Store) (wanted : Z) :
  _firstTurntable (add tto s) = _firstTurntable s ++ [tto] /\
  turntablelistHash (add tto s) = turntablelistHash s + 1 /\
  get wanted (_firstTurntable (add tto s)) =
    match get wanted (_firstTurntable s) with
    | Some found => Some found
    | None =>
        if id (_turntableData tto) =? wanted
        then Some (length (_firstTurntable s), tto)
        else None
    end.
Proof.
  assert (Hl : _firstTurntable (add tto s) = _firstTurntable s ++ [tto]).
  { unfold add. cbn [_firstTurntable].
    destruct (_firstTurntable s); reflexivity. }
  split; [exact Hl |]. split; [reflexivity |].
  rewrite Hl. apply get_app.
Qed.

Lemma getPositionCount_from_length (l : list TurntablePosition) :
  forall count, 0 <= count < 256 ->
  getPositionCount_from l count = (count + Z.of_nat (length l)) mod 256.
Proof.
  induction l as [| node next IH]; intros count Hc; cbn [getPositionCount_from length].
  - rewrite Z.add_0_r, Z.mod_small by lia. reflexivity.
  - unfold u8. rewrite IH by (apply Z.mod_pos_bound; lia).
    rewrite Zplus_mod_idemp_l. f_equal. lia.
Qed.

(** X17.  [Turntable::getPositionCount] is the number of positions in the
    list modulo 256: the counter is 8 bits wide, so a list of 256 positions
    counts as empty. *)
Theorem getPositionCount_wraps (tto : Turntable) :
  getPositionCount tto = Z.of_nat (length (_turntablePositions tto)) mod 256.
Proof.
  unfold getPositionCount.
  rewrite getPositionCount_from_length by lia. reflexivity.
Qed.

(** X18.  [Turntable::getPositionValue] yields the data of the first node
    with the index asked for.  It yields 0 when no node has that index, so
    a result other than 0 is the data of a node of the list, while the
    result 0 does not tell a missing position from one whose data is 0. *)
Theorem getPositionValue_zero_when_missing (tto : Turntable) (wanted : Z) :
  (Forall (fun node => index node <> wanted) (_turntablePositions tto) ->
   getPositionValue tto wanted = 0) /\
  (getPositionValue tto wanted <> 0 ->
   exists before node after,
     _turntablePositions tto = before ++ node :: after /\
     Forall (fun earlier => index earlier <> wanted) before /\
     index node = wanted /\
     data node = getPositionValue tto wanted).
Proof.
  unfold getPositionValue.
  induction (_turntablePositions tto) as [| node next IH];
    cbn [getPositionValue_from].
  - split; [reflexivity | intros H; exfalso; apply H; reflexivity].
  - destruct (Z.eqb_spec (index node) wanted) as [Heq | Hne].
    + split.
      * intros Hall. inversion Hall; subst. contradiction.
      * intros _. exists [], node, next.
        split; [reflexivity |]. split; [constructor |]. split; [exact Heq | reflexivity].
    + destruct IH as [IH0 IH1]. split.
      * intros Hall. inversion Hall; subst. apply IH0. assumption.
      * intros Hnz. destruct (IH1 Hnz) as (before & found & after & Hl & Hb & Hi & Hd).
        exists (node :: before), found, after.
        split; [rewrite Hl; reflexivity |].
        split; [constructor; assumption |]. split; assumption.
Qed.

(** *** Setting a position *)

Lemma get_alter (f : Turntable -> Turntable) (wanted : Z) :
  (forall tto, id (_turntableData (f tto)) = id (_turntableData tto)) ->
  forall (l : list Turntable) (ptr : nat),
  get wanted (alter f ptr l) =
    match get wanted l with
    | Some (i, found) => Some (i, if Nat.eqb i ptr then f found else found)
    | None => None
    end.
Proof.
  intros Hid. induction l as [| tto rest IH]; intros ptr.
  - reflexivity.
  - destruct ptr as [| ptr]; cbn [alter list_alter get].
    + rewrite Hid.
      destruct (id (_turntableData tto) =? wanted); [reflexivity |].
      destruct (get wanted rest) as [[i found] |]; reflexivity.
    + destruct (id (_turntableData tto) =? wanted); [reflexivity |].
      change (list_alter f ptr rest) with (alter f ptr rest).
      rewrite IH.
      destruct (get wanted rest) as [[i found] |]; reflexivity.
Qed.

Lemma get_found_again (wanted : Z) (s : Store) (c : Call) ptr tto :
  get wanted (_firstTurntable s) = Some (ptr, tto) ->
  setPositionStateOnly wanted (position (_turntableData tto)) (call c s)
  = (true, call (broadcastTurntable wanted (position (_turntableData tto)))
             (call c s)).
Proof.
  intros Hget. unfold setPositionStateOnly. cbn [call _firstTurntable].
  rewrite Hget. reflexivity.
Qed.

(** X19.  [Turntable::setPosition] for an id that no turntable of the list
    has: the result is false, no call is made and nothing is stored. *)
Theorem setPosition_unknown_id (wanted position activity : Z) (s : Store) :
  Forall (fun tto => id (_turntableData tto) <> wanted) (_firstTurntable s) ->
  setPosition wanted position activity s = (false, s).
Proof.
  intros Hall. unfold setPosition.
  pose proof (get_lookup wanted (_firstTurntable s)) as H.
  destruct (get wanted (_firstTurntable s)) as [[ptr tto] |]; [| reflexivity].
  destruct H as (Hl & Hid & _). rewrite Forall_forall in Hall.
  exfalso. apply (Hall tto); [| exact Hid].
  eapply list_elem_of_lookup_2. exact Hl.
Qed.

(** X20.  Moving to a position.  For a turntable of the list, a position
    above 0 whose value, as a 16-bit signed number, is not 0, and activity 0
    or 1: [setPosition] returns true; it passes pin, value and activity to
    the device driver and then broadcasts id and position; the position is
    stored in the turntable found, after which [get] returns that turntable,
    at the same place, with the new position, and finds every other id as
    before. *)
Theorem setPosition_moves_then_announces (wanted position activity : Z)
    (s : Store) (ptr : nat) (tto : Turntable) :
  get wanted (_firstTurntable s) = Some (ptr, tto) ->
  0 < position -> activity <= 1 ->
  int16 (getPositionValue tto position) <> 0 ->
  let s' := snd (setPosition wanted position activity s) in
  fst (setPosition wanted position activity s) = true /\
  calls s' =
    calls s ++
    [writeAnalogue (vpin (_exttTurntableData tto))
       (int16 (getPositionValue tto position)) activity;
     broadcastTurntable wanted position] /\
  turntablelistHash s' = turntablelistHash s /\
  get wanted (_firstTurntable s') = Some (ptr, set_position position tto) /\
  forall other, other <> wanted ->
    get other (_firstTurntable s') = get other (_firstTurntable s).
Proof.
  intros Hget Hpos Hact Hval.
  unfold setPosition, setPositionInternal. rewrite Hget.
  destruct (Z.eqb_spec position 0) as [? | _]; [lia |].
  destruct (Z.ltb_spec 1 activity) as [? | _]; [lia |].
  destruct (Z.ltb_spec 0 position) as [_ | ?]; [| lia].
  destruct (Z.eqb_spec (int16 (getPositionValue tto position)) 0) as [? | _];
    [contradiction |].
  cbn [andb orb fst snd].
  unfold setPositionStateOnly. cbn [call _firstTurntable]. rewrite Hget.
  cbn [snd store_position call calls turntablelistHash _firstTurntable].
  split; [reflexivity |].
  split; [rewrite <- app_assoc; reflexivity |].
  split; [reflexivity |].
  pose proof (get_lookup wanted (_firstTurntable s)) as Hfirst.
  rewrite Hget in Hfirst. destruct Hfirst as (Hl & Hid & _).
  split.
  - rewrite get_alter by reflexivity. rewrite Hget, Nat.eqb_refl. reflexivity.
  - intros other Hother. rewrite get_alter by reflexivity.
    pose proof (get_lookup other (_firstTurntable s)) as Ho.
    destruct (get other (_firstTurntable s)) as [[i found] |]; [| reflexivity].
    destruct Ho as (Hli & Hidi & _).
    destruct (Nat.eqb_spec i ptr) as [-> | _]; [| reflexivity].
    rewrite Hl in Hli. injection Hli as <-. congruence.
Qed.

(** X21.  Positions that are refused.  For a turntable of the list and a
    position above 0: with an activity above 1, or with a position value
    that is 0 (the position is not in the turntable's list, or its data is
    0), [setPosition] returns false, makes no call and stores nothing. *)
Theorem setPosition_refused_changes_nothing (wanted position activity : Z)
    (s : Store) (ptr : nat) (tto : Turntable) :
  get wanted (_firstTurntable s) = Some (ptr, tto) ->
  0 < position ->
  1 < activity \/ int16 (getPositionValue tto position) = 0 ->
  setPosition wanted position activity s = (false, s).
Proof.
  intros Hget Hpos Hwhy.
  unfold setPosition, setPositionInternal. rewrite Hget.
  destruct (Z.eqb_spec position 0) as [? | _]; [lia |].
  destruct (Z.ltb_spec 1 activity) as [_ | Hact]; [reflexivity |].
  destruct Hwhy as [? | Hzero]; [lia |].
  rewrite Hzero.
  destruct (Z.ltb_spec 0 position) as [_ | ?]; [| lia].
  reflexivity.
Qed.

(** X22.  Position 0 carries an activity only.  For a turntable of the
    list, [setPosition] with position 0 returns true and passes value 0 and
    the activity to the device driver, whatever the activity.  Only for
    activity 2 or 3 does it also broadcast and store position 0; for any
    other activity the list is left as it was, the stored position
    included. *)
Theorem setPosition_home_activity (wanted activity : Z)
    (s : Store) (ptr : nat) (tto : Turntable) :
  get wanted (_firstTurntable s) = Some (ptr, tto) ->
  let s' := snd (setPosition wanted 0 activity s) in
  fst (setPosition wanted 0 activity s) = true /\
  turntablelistHash s' = turntablelistHash s /\
  (activity = 2 \/ activity = 3 ->
   calls s' =
     calls s ++ [writeAnalogue (vpin (_exttTurntableData tto)) 0 activity;
                 broadcastTurntable wanted 0] /\
   _firstTurntable s' = alter (set_position 0) ptr (_firstTurntable s)) /\
  (activity <> 2 -> activity <> 3 ->
   calls s' =
     calls s ++ [writeAnalogue (vpin (_exttTurntableData tto)) 0 activity] /\
   _firstTurntable s' = _firstTurntable s).
Proof.
  intros Hget. unfold setPosition, setPositionInternal. rewrite Hget.
  change (0 =? 0) with true. change (0 <? 0) with false.
  cbn [andb orb fst snd].
  unfold setPositionStateOnly. cbn [call _firstTurntable]. rewrite Hget.
  destruct (Z.eqb_spec activity 2) as [H2 | H2];
    destruct (Z.eqb_spec activity 3) as [H3 | H3];
    cbn [orb fst snd store_position call calls turntablelistHash _firstTurntable];
    (split; [reflexivity |]); (split; [reflexivity |]);
    (split;
     [ intros Hwhich;
       first [ exfalso; lia
             | split; [rewrite <- app_assoc; reflexivity | reflexivity] ]
     | intros N2 N3; first [ contradiction | split; reflexivity ] ]).
Qed.

Lemma alter_set_position_ids (position : Z) (ptr : nat) (l : list Turntable) :
  map (fun tto => (id (_turntableData tto), _turntablePositions tto,
                   _exttTurntableData tto))
      (alter (set_position position) ptr l)
  = map (fun tto => (id (_turntableData tto), _turntablePositions tto,
                     _exttTurntableData tto)) l.
Proof.
  revert ptr. induction l as [| tto rest IH]; intros [| ptr];
    cbn [alter list_alter map]; try reflexivity.
  change (list_alter (set_position position) ptr rest)
    with (alter (set_position position) ptr rest).
  rewrite IH. reflexivity.
Qed.

Lemma setPositionInternal_cases (tto : Turntable) (position activity : Z) :
  setPositionInternal tto position activity = (false, None) \/
  exists value,
    setPositionInternal tto position activity =
      (true, Some (writeAnalogue (vpin (_exttTurntableData tto)) value activity)).
Proof.
  unfold setPositionInternal.
  destruct (position =? 0); [| destruct (1 <? activity)];
    try (left; reflexivity);
    match goal with
    | |- context [if ?c then _ else _] => destruct c
    end; eauto.
Qed.

(** X23.  What [setPosition] never does.  Whatever the arguments, it leaves
    the list hash alone and neither adds, removes nor reorders turntables;
    of a turntable it changes nothing but the stored position (id, position
    list, pin and address stay); the calls made before remain, at most two
    are added, and when it returns false none is added and nothing is
    stored. *)
Theorem setPosition_keeps_list (wanted position activity : Z) (s : Store) :
  let s' := snd (setPosition wanted position activity s) in
  turntablelistHash s' = turntablelistHash s /\
  map (fun tto => (id (_turntableData tto), _turntablePositions tto,
                   _exttTurntableData tto)) (_firstTurntable s')
  = map (fun tto => (id (_turntableData tto), _turntablePositions tto,
                     _exttTurntableData tto)) (_firstTurntable s) /\
  (exists added, calls s' = calls s ++ added /\ (length added <= 2)%nat) /\
  (fst (setPosition wanted position activity s) = false -> s' = s).
Proof.
  unfold setPosition.
  destruct (get wanted (_firstTurntable s)) as [[ptr tto] |] eqn:Hget.
  2:{ cbn [fst snd]. repeat split; try reflexivity.
      exists []. rewrite app_nil_r. split; [reflexivity | cbn; lia]. }
  destruct (setPositionInternal_cases tto position activity)
    as [-> | [value ->]].
  - cbn [fst snd]. repeat split; try reflexivity.
    exists []. rewrite app_nil_r. split; [reflexivity | cbn; lia].
  - unfold setPositionStateOnly. cbn [call _firstTurntable]. rewrite Hget.
    destruct ((0 <? position)
              || ((position =? 0) && ((activity =? 2) || (activity =? 3))));
      cbn [fst snd store_position call calls turntablelistHash _firstTurntable].
    + split; [reflexivity |]. split; [apply alter_set_position_ids |].
      split; [| intros Hf; discriminate Hf].
      eexists. split; [rewrite <- app_assoc; reflexivity | cbn; lia].
    + split; [reflexivity |]. split; [reflexivity |].
      split; [| intros Hf; discriminate Hf].
      eexists. split; [reflexivity | cbn; lia].
Qed.

(** *** The properties of the turntable list at concrete inputs *)

(** X19 at an id that neither example turntable has. *)
Lemma setPosition_unknown_id_witness :
  Forall (fun tto => id (_turntableData tto) <> 7) (_firstTurntable example_store) /\
  setPosition 7 1 0 example_store = (false, example_store).
Proof.
  assert (H : Forall (fun tto => id (_turntableData tto) <> 7)
                (_firstTurntable example_store)).
  { repeat (constructor; [vm_compute; discriminate |]). constructor. }
  exact (conj H (setPosition_unknown_id 7 1 0 example_store H)).
Defined.

(** X20 at position 1 of the first example turntable, whose value is 90. *)
Lemma setPosition_moves_then_announces_witness :
  let s' := snd (setPosition 1 1 0 example_store) in
  (get 1 (_firstTurntable example_store) = Some (O, example_turntable) /\
   0 < 1 /\ 0 <= 1 /\
   int16 (getPositionValue example_turntable 1) <> 0) /\
  calls s' = [writeAnalogue 600 90 0; broadcastTurntable 1 1] /\
  get 1 (_firstTurntable s') = Some (O, set_position 1 example_turntable).
Proof.
  assert (H1 : get 1 (_firstTurntable example_store) = Some (O, example_turntable))
    by reflexivity.
  assert (H2 : 0 < 1) by lia.
  assert (H3 : 0 <= 1) by lia.
  assert (H4 : int16 (getPositionValue example_turntable 1) <> 0)
    by (vm_compute; discriminate).
  destruct (setPosition_moves_then_announces 1 1 0 example_store O
              example_turntable H1 H2 H3 H4) as (_ & Hcalls & _ & Hget & _).
  exact (conj (conj H1 (conj H2 (conj H3 H4))) (conj Hcalls Hget)).
Defined.

(** X21 at position 2 of the first example turntable, whose data is 0. *)
Lemma setPosition_refused_changes_nothing_witness :
  (get 1 (_firstTurntable example_store) = Some (O, example_turntable) /\
   0 < 2 /\
   (1 < 0 \/ int16 (getPositionValue example_turntable 2) = 0)) /\
  setPosition 1 2 0 example_store = (false, example_store).
Proof.
  assert (H1 : get 1 (_firstTurntable example_store) = Some (O, example_turntable))
    by reflexivity.
  assert (H2 : 0 < 2) by lia.
  assert (H3 : 1 < 0 \/ int16 (getPositionValue example_turntable 2) = 0)
    by (right; reflexivity).
  exact (conj (conj H1 (conj H2 H3))
           (setPosition_refused_changes_nothing 1 2 0 example_store O
              example_turntable H1 H2 H3)).
Defined.

(** X22 at the second example turntable, whose stored position is 1, with
    activity 0. *)
Lemma setPosition_home_activity_witness :
  let s' := snd (setPosition 2 0 0 example_store) in
  get 2 (_firstTurntable example_store) = Some (1%nat, example_other) /\
  fst (setPosition 2 0 0 example_store) = true /\
  calls s' = [writeAnalogue 601 0 0] /\
  _firstTurntable s' = _firstTurntable example_store.
Proof.
  assert (H1 : get 2 (_firstTurntable example_store) = Some (1%nat, example_other))
    by reflexivity.
  destruct (setPosition_home_activity 2 0 example_store 1%nat example_other H1)
    as (Hok & _ & _ & Hplain).
  destruct (Hplain ltac:(discriminate) ltac:(discriminate)) as [Hcalls Hlist].
  exact (conj H1 (conj Hok (conj Hcalls Hlist))).
Defined.

End TurntableProperties.
